(** * business-objects: the object lifecycle engine

    A shallow embedding of the lifecycle core of the business-objects
    framework: the model state machine, the permission check on property
    reads, validation, the synchronous data portal of editable root models
    and the counting join of the asynchronous fetch cascades.

    Layout: Part I holds the embedding, one module per source unit;
    Part II holds the statements proved about it. *)

From stdpp Require Import base option list strings gmap.
From Stdlib Require Import ZArith QArith Qround Lia Ascii String.
Close Scope Q_scope.

Local Open Scope string_scope.
Local Open Scope list_scope.

(* ===================================================================== *)
(** * Part I. The embedding                                               *)
(* ===================================================================== *)

(** ** JavaScript values, errors and completions *)

Module Js.

(** The primitive values a property or a transfer object can hold. *)
Inductive Value :=
| VUndefined
| VNull
| VBool (b : bool)
| VNum (n : Z)
| VStr (s : string).

#[global] Instance Value_eq_dec : EqDecision Value.
Proof. solve_decision. Defined.

(** JavaScript truthiness, used by [if (x)] and [a || b]. *)
Definition truthy (v : Value) : bool :=
  match v with
  | VUndefined | VNull => false
  | VBool b => b
  | VNum n => negb (n =? 0)%Z
  | VStr s => negb (String.eqb s "")
  end.

(** Modelled from the spec: shared/data-portal-action.js is not among the
    sources; the members are the actions the models name. *)
Module DataPortalAction.
Inductive t := create | fetch | insert | update | remove | execute.
End DataPortalAction.

#[global] Instance DataPortalAction_eq_dec : EqDecision DataPortalAction.t.
Proof. solve_decision. Defined.

(** What a [throw] can carry.  [ExternalError] stands for the errors raised
    by collaborators (data access objects, extension hooks). *)
Inductive Exn :=
| ArgumentError (kind : string) (args : list string)
| ModelError (kind : string) (args : list string)
| TypeError (what : string)
| ReferenceError (ident : string)
| DataPortalError (modelDesc modelName : string)
                  (action : DataPortalAction.t) (cause : Exn)
| ExternalError (message : string).

#[global] Instance Exn_eq_dec : EqDecision Exn.
Proof. solve_decision. Defined.

(** The completion of a statement or call: a value, or a thrown error. *)
Inductive Completion (A : Type) :=
| Normal (a : A)
| Throw (e : Exn).
Arguments Normal {A} a.
Arguments Throw {A} e.

Definition threw {A} (c : Completion A) : bool :=
  match c with Normal _ => false | Throw _ => true end.

(** Code that mutates a state [S] and may throw.  The state reached at the
    point of the [throw] is kept: JavaScript does not roll assignments
    back. *)
Definition M (S A : Type) : Type := S -> Completion A * S.

Definition ret {S A} (a : A) : M S A := fun s => (Normal a, s).

Definition bind {S A B} (m : M S A) (k : A -> M S B) : M S B :=
  fun s => match m s with
           | (Normal a, s') => k a s'
           | (Throw e, s') => (Throw e, s')
           end.

Definition throw {S A} (e : Exn) : M S A := fun s => (Throw e, s).

Definition gets {S A} (f : S -> A) : M S A := fun s => (Normal (f s), s).

Definition modify {S} (f : S -> S) : M S unit := fun s => (Normal tt, f s).

(** [try { body } catch (e) { handler e }] *)
Definition try_catch {S A} (body : M S A) (handler : Exn -> M S A) : M S A :=
  fun s => match body s with
           | (Normal a, s') => (Normal a, s')
           | (Throw e, s') => handler e s'
           end.

(** [xs.forEach(f)]: the first throw ends the loop. *)
Fixpoint forEach {S A} (f : A -> M S unit) (xs : list A) : M S unit :=
  match xs with
  | [] => ret tt
  | x :: xs' => bind (f x) (fun _ => forEach f xs')
  end.

(** [if (x)] on a reference that is an object or [null]. *)
Definition defined {A} (x : option A) : bool :=
  match x with Some _ => true | None => false end.

(** [when c m] is [if (c) m]. *)
Definition when {S} (c : bool) (m : M S unit) : M S unit :=
  if c then m else ret tt.

End Js.
Export Js.

Declare Scope js_scope.
Delimit Scope js_scope with js.
Notation "'let!' x := m 'in' k" := (bind m (fun x => k))
  (at level 10, x name, m at level 100, k at level 200,
   format "'[v' 'let!'  x  :=  m  'in' '/' k ']'") : js_scope.
Notation "'do!' m 'in' k" := (bind m (fun _ => k))
  (at level 10, m at level 100, k at level 200,
   format "'[v' 'do!'  m  'in' '/' k ']'") : js_scope.
Local Open Scope js_scope.

(** ** shared/model-state.js and the shared record parts *)

(** Modelled from the spec: shared/model-state.js is not among the sources;
    the members are the five states of section 3, which are the ones the
    models name, and [getName] is used as the models use it. *)
Module MODEL_STATE.

Inductive t :=
| pristine | created | changed | markedForRemoval | removed.

Definition all : list t :=
  [pristine; created; changed; markedForRemoval; removed].

(** [MODEL_STATE.getName]: an enumeration member is named after itself. *)
Definition getName (s : t) : string :=
  match s with
  | pristine => "pristine"
  | created => "created"
  | changed => "changed"
  | markedForRemoval => "markedForRemoval"
  | removed => "removed"
  end.

(** The value of an enumeration member: its position. *)
Definition value (s : t) : nat :=
  match s with
  | pristine => 0
  | created => 1
  | changed => 2
  | markedForRemoval => 3
  | removed => 4
  end.

End MODEL_STATE.

#[global] Instance MODEL_STATE_eq_dec : EqDecision MODEL_STATE.t.
Proof. solve_decision. Defined.

(** [state === MODEL_STATE.x], where [state] starts as [null]. *)
Definition stateIs (state : option MODEL_STATE.t) (x : MODEL_STATE.t) : bool :=
  match state with
  | Some s => Nat.eqb (MODEL_STATE.value s) (MODEL_STATE.value x)
  | None => false
  end.

(** [state === null] *)
Definition stateIsNull (state : option MODEL_STATE.t) : bool :=
  match state with Some _ => false | None => true end.

(** The error thrown by [illegal(newState)]. *)
Definition transitionError (state : option MODEL_STATE.t)
    (newState : MODEL_STATE.t) : Exn :=
  ModelError "transition"
    [match state with None => "NULL" | Some s => MODEL_STATE.getName s end;
     MODEL_STATE.getName newState].

(** ** Property definitions, context scripts and the data store *)

Module Shared.

(** A transfer object (DTO or CTO): a plain object used as a map from
    property names to values. *)
Abbreviation Dto := (gmap string Value).

(** What an extension point (a custom getter, [toDto], [fromDto],
    [dataUpdate], ...) can do with the context object it receives: read and
    write properties by name, return, or throw.  Calls the hook makes to
    its own collaborators show up only through the error it may raise. *)
Inductive Script (R : Type) :=
| Return (r : R)
| GetValue (propertyName : string) (k : Value -> Script R)
| SetValue (propertyName : string) (value : Value) (k : Script R)
| Raise (e : Exn).
Arguments Return {R} r.
Arguments GetValue {R} propertyName k.
Arguments SetValue {R} propertyName value k.
Arguments Raise {R} e.

(** Modelled from the spec: shared/property-info.js is not among the
    sources; the fields are the ones the models consult.  [isChild] is false
    exactly when [property.type instanceof DataType]. *)
Record PropertyInfo := {
  name : string;
  isChild : bool;
  isOnDto : bool;
  isOnCto : bool;
  isReadOnly : bool;
  isKey : bool;
  isParentKey : bool;
  getter : option (Script Value);
  setter : option (Value -> Script unit)
}.

(** A string of the program is held as its UTF-8 encoding, one byte per
    character of the Rocq string.

    [whiteSpace1 c]: the byte [c] alone encodes a code point that
    [String.prototype.trim] strips, that is TAB, LF, VT, FF, CR or SP. *)
Definition whiteSpace1 (c : ascii) : bool :=
  let n := nat_of_ascii c in
  ((9 <=? n) && (n <=? 13) || (n =? 32))%nat.

(** [whiteSpace2 c1 c2]: the two bytes encode NO-BREAK SPACE, U+00A0. *)
Definition whiteSpace2 (c1 c2 : ascii) : bool :=
  ((nat_of_ascii c1 =? 194) && (nat_of_ascii c2 =? 160))%nat.

(** [whiteSpace3 c1 c2 c3]: the three bytes encode one of the other code
    points of WhiteSpace and LineTerminator: U+1680, U+2000 to U+200A,
    U+2028, U+2029, U+202F, U+205F, U+3000 and U+FEFF. *)
Definition whiteSpace3 (c1 c2 c3 : ascii) : bool :=
  let n1 := nat_of_ascii c1 in
  let n2 := nat_of_ascii c2 in
  let n3 := nat_of_ascii c3 in
  ((n1 =? 225) && (n2 =? 154) && (n3 =? 128)
   || (n1 =? 226) && (n2 =? 128)
      && ((128 <=? n3) && (n3 <=? 138) || (n3 =? 168) || (n3 =? 169)
          || (n3 =? 175))
   || (n1 =? 226) && (n2 =? 129) && (n3 =? 159)
   || (n1 =? 227) && (n2 =? 128) && (n3 =? 128)
   || (n1 =? 239) && (n2 =? 187) && (n3 =? 191))%nat.

(** [s.trim().length === 0]: [s] is made of white space and line
    terminators only. *)
Fixpoint blank (s : string) : bool :=
  match s with
  | EmptyString => true
  | String c1 s1 =>
      if whiteSpace1 c1 then blank s1
      else match s1 with
           | EmptyString => false
           | String c2 s2 =>
               if whiteSpace2 c1 c2 then blank s2
               else match s2 with
                    | EmptyString => false
                    | String c3 s3 =>
                        if whiteSpace3 c1 c2 c3 then blank s3 else false
                    end
           end
  end.

End Shared.
Export Shared.

(** shared/transfer-context.js *)
Module TransferContext.
Section Context_.
Context {S : Type}.
Variable properties : list PropertyInfo.
Variable _getValue : option (PropertyInfo -> M S Value).
Variable _setValue : option (PropertyInfo -> Value -> M S unit).

(** [getByName]: the array [properties] has no [name], so the first
    argument of the error is [undefined]. *)
Fixpoint getByName (ps : list PropertyInfo) (n : string)
    : M S PropertyInfo :=
  match ps with
  | [] => throw (ModelError "noProperty" ["undefined"; n])
  | p :: ps' => if String.eqb (name p) n then ret p else getByName ps' n
  end.

(** [check(propertyName).forMandatory('propertyName').asString()] *)
Definition asMandatoryString (method n : string) : M S string :=
  if blank n
  then throw (ArgumentError "manString" ["TransferContext"; method; "propertyName"])
  else ret n.

Definition getValue (propertyName : string) : M S Value :=
  match _getValue with
  | Some getValue =>
      let! n := asMandatoryString "getValue" propertyName in
      let! p := getByName properties n in
      getValue p
  | None => throw (ModelError "getValue" [])
  end.

Definition setValue (propertyName : string) (value : Value) : M S unit :=
  match _setValue with
  | Some setValue =>
      let! n := asMandatoryString "setValue" propertyName in
      if bool_decide (value <> VUndefined)
      then let! p := getByName properties n in setValue p value
      else ret tt
  | None => throw (ModelError "setValue" [])
  end.

(** Running an extension point against this context. *)
Fixpoint runScript {R} (sc : Script R) : M S R :=
  match sc with
  | Return r => ret r
  | GetValue n k => let! v := getValue n in runScript (k v)
  | SetValue n v k => do! setValue n v in runScript k
  | Raise e => throw e
  end.
End Context_.
End TransferContext.

(** Modelled from the spec: shared/data-store.js is not among the sources;
    section 4.1 gives its contract, [initValue], [getValue] and
    [setValue]. *)
Module DataStore.

(** [store.getValue(property)]: a plain member read. *)
Definition getValue (data : Dto) (property : PropertyInfo) : Value :=
  default VUndefined (data !! name property).

(** [store.initValue(property[, value])] *)
Definition initValue (data : Dto) (property : PropertyInfo)
    (value : option Value) : Dto :=
  <[name property := default VNull value]> data.

(** Modelled from the spec: shared/data-store.js is not among the sources;
    section 4.1 gives [setValue(prop, value) -> changed], true only when the
    value actually differs, with value equality for primitives. *)
Definition setValue (data : Dto) (property : PropertyInfo) (value : Value)
    : bool * Dto :=
  (bool_decide (getValue data property <> value),
   <[name property := value]> data).

End DataStore.

(** ** Broken rules and the rule manager *)

(** Modelled from the spec: the files under rules/ that define the
    severities, the broken rules, the authorization actions and the rules
    are not among the sources; the records follow sections 2 and 4.2. *)
Module Rules.

Module RuleSeverity.
Inductive t := success | information | warning | error.
End RuleSeverity.

#[global] Instance RuleSeverity_eq_dec : EqDecision RuleSeverity.t.
Proof. solve_decision. Defined.

(** rules/broken-rule.js, with the fields section 2 lists. *)
Record BrokenRule := {
  ruleName : string;
  propertyName : string;
  message : string;
  severity : RuleSeverity.t;
  stopsProcessing : bool;
  isPreserved : bool;
  affectedProperties : list string
}.

#[global] Instance BrokenRule_eq_dec : EqDecision BrokenRule.
Proof. solve_decision. Defined.

Module AuthorizationAction.
Inductive t :=
| readProperty | writeProperty | createObject | fetchObject
| updateObject | removeObject | executeMethod.
End AuthorizationAction.

#[global] Instance AuthorizationAction_eq_dec : EqDecision AuthorizationAction.t.
Proof. solve_decision. Defined.

(** The principal collaborator: [isInRole(roleName)]. *)
Definition Principal := string -> bool.

(** An authorization rule: the pair it guards, its priority, and the
    [execute] capability, which answers with the message of the denial or
    with nothing when the principal passes. *)
Record AuthorizationRule := {
  rule : string;
  action : AuthorizationAction.t;
  target : string;
  denial : string;
  priority : Z;
  stops : bool;
  enabled : bool;
  execute : Principal -> bool   (* true: the rule denies *)
}.

Definition isError (b : BrokenRule) : bool :=
  bool_decide (severity b = RuleSeverity.error).

End Rules.
Export Rules.

(** Modelled from the spec: rules/broken-rule-list.js is not among the
    sources.  The list keeps the recorded broken rules in order of arrival;
    by section 4.2 it is valid iff it holds no broken rule of severity
    [error]. *)
Module BrokenRuleList.

(** Modelled from the spec: valid iff no broken rule of severity [error]
    is recorded. *)
Definition isValid (items : list BrokenRule) : bool :=
  forallb (fun b => negb (isError b)) items.

Definition add (items : list BrokenRule) (b : BrokenRule) : list BrokenRule :=
  items ++ [b].

End BrokenRuleList.

(** Modelled from the spec: rules/rule-manager.js is not among the sources;
    sections 2 and 4.2 give the order of evaluation (descending priority,
    ties by definition order, stop on a failing rule that stops processing)
    and the contract of [hasPermission]. *)
Module RuleManager.

(** Insertion by descending priority, in front of the rules of the same
    priority: [byPriority] inserts the rules from the last to the first, so
    rules of equal priority stay in the order of their definition. *)
Fixpoint insertRule (r : AuthorizationRule) (rs : list AuthorizationRule)
    : list AuthorizationRule :=
  match rs with
  | [] => [r]
  | r' :: rs' =>
      if (priority r' <=? priority r)%Z then r :: r' :: rs'
      else r' :: insertRule r rs'
  end.

Definition byPriority (rs : list AuthorizationRule) : list AuthorizationRule :=
  foldr insertRule [] rs.

Definition guards (a : AuthorizationAction.t) (t : string)
    (r : AuthorizationRule) : bool :=
  enabled r && bool_decide (action r = a) && String.eqb (target r) t.

(** The broken rule recorded for a denial: an authorization denial has
    severity [error]. *)
Definition toBrokenRule (r : AuthorizationRule) : BrokenRule :=
  {| ruleName := rule r; propertyName := target r; message := denial r;
     severity := RuleSeverity.error; stopsProcessing := stops r; isPreserved := true;
     affectedProperties := [] |}.

(** The denials recorded while the rules are run in order: a failing rule
    with [stopsProcessing] ends the run. *)
Fixpoint denials (user : Principal) (rs : list AuthorizationRule)
    : list AuthorizationRule :=
  match rs with
  | [] => []
  | r :: rs' =>
      if execute r user
      then r :: (if stops r then [] else denials user rs')
      else denials user rs'
  end.

(** Modelled from the spec: rules/rule-manager.js is not among the sources.
    By sections 2 and 4.2 the rules of a pair (action, target) are kept by
    descending priority with stop-on-failure; [hasPermission] returns true
    iff no enabled rule denies the action, and a denial records a broken
    rule of severity [error] and does not throw. *)
Definition hasPermission (rules : list AuthorizationRule) (user : Principal)
    (a : AuthorizationAction.t) (targetName : string)
    (brokenRules : list BrokenRule) : bool * list BrokenRule :=
  let ds := denials user (byPriority (filter (fun r => guards a targetName r = true) rules)) in
  (match ds with [] => true | _ :: _ => false end,
   foldl BrokenRuleList.add brokenRules (map toBrokenRule ds)).

(** A rule that guards the pair and denies the principal. *)
Definition denies (user : Principal) (a : AuthorizationAction.t)
    (t : string) (r : AuthorizationRule) : bool :=
  guards a t r && execute r user.

(** The read of a property is denied by the rule [r] of the catalog. *)
Definition readDeniedBy (rules : list AuthorizationRule) (user : Principal)
    (property : PropertyInfo) (r : AuthorizationRule) : Prop :=
  In r rules
  /\ denies user AuthorizationAction.readProperty (Shared.name property) r = true.

End RuleManager.

(** ** editable-root-model-sync.js *)

Module EditableRootModelSync.

Definition MODEL_DESC : string := "Editable root model".
Definition M_FETCH : string := "fetch".

(** Modelled from the spec: shared/data-portal-event.js is not among the
    sources; the members are the events the models emit. *)
Module DataPortalEvent.
Inductive t :=
| preCreate | postCreate | preFetch | postFetch
| preInsert | postInsert | preUpdate | postUpdate
| preRemove | postRemove | preSave | postSave.
End DataPortalEvent.

(** Modelled from the spec: shared/data-portal-event-args.js is not among
    the sources; the fields are the arguments [getEventArgs] passes to its
    constructor. *)
Record DataPortalEventArgs := {
  modelName : string;
  eventAction : DataPortalAction.t;
  methodName : option string;
  eventError : option Exn
}.

(** The argument handed to a method of the data access object. *)
Inductive DaoArg :=
| NoArg
| Filter (filter : Value)
| Data (dto : Dto).

(** What the model does to the world around it, in the order it does it. *)
Inductive Effect :=
| OpenConnection (dataSource : string)
| CloseConnection (dataSource : string) (connection : Value)
| BeginTransaction (dataSource : string)
| CommitTransaction (dataSource : string) (connection : Value)
| RollbackTransaction (dataSource : string) (connection : Value)
| Emit (event : DataPortalEvent.t) (args : DataPortalEventArgs)
| RunMethod (method : string) (connection : Value) (arg : DaoArg)
| Hook (extension : string).

(** The private variables of one instance.  [kids] are the slots of the
    data store that hold child models, in the order of their properties. *)
Record Instance {Child : Type} := {
  state : option MODEL_STATE.t;
  isDirty : bool;
  store : Dto;
  kids : list (string * Child);
  brokenRules : list BrokenRule;
  isValidated : bool;
  connection : Value
}.
Arguments Instance Child : clear implicits.

(** An instance together with the journal of its effects. *)
Record Sys {Child : Type} := {
  self : Instance Child;
  journal : list Effect
}.
Arguments Sys Child : clear implicits.

(** What [save()] hands back. *)
Inductive Returned := This | Null | Undefined.

(** The definition a model type is built from (the arguments of the
    factory) and the collaborators it reaches through the configuration. *)
Record Model {Child : Type} := {
  (* properties : PropertyManager *)
  properties : list PropertyInfo;
  properties_name : string;
  (* rules : RuleManager *)
  authorizationRules : list AuthorizationRule;
  user : Principal;
  validate : PropertyInfo -> Dto -> list BrokenRule -> list BrokenRule;
  clear : list BrokenRule -> list BrokenRule;
  (* extensions : ExtensionManagerSync *)
  dataSource : string;
  toDto_ext : option (Script Dto);
  fromDto_ext : option (Dto -> Script unit);
  dataCreate : option (Script unit);
  dataFetch : option (Value -> string -> Script Dto);
  dataInsert : option (Script unit);
  dataUpdate : option (Script unit);
  dataRemove : option (Script unit);
  (* dao *)
  hasCreate : bool;
  runMethod : string -> Value -> DaoArg -> Completion Dto;
  (* config.connectionManager *)
  openConnection : string -> Completion Value;
  closeConnection : string -> Value -> Completion Value;
  beginTransaction : string -> Completion Value;
  commitTransaction : string -> Value -> Completion Value;
  rollbackTransaction : string -> Value -> Completion Value;
  (* the listeners subscribed to the events of the instance *)
  listeners : DataPortalEvent.t -> DataPortalEventArgs -> Completion unit;
  (* the child models: EditableChildModelSync, EditableChildCollectionSync *)
  child_remove : Child -> Completion unit * Child;
  child_save : Value -> Child -> Completion unit * Child;
  child_fetch : Value -> Child -> Completion unit * Child
}.
Arguments Model Child : clear implicits.

Section Instance_.
Context {Child : Type}.

Definition set_state (v : option MODEL_STATE.t) (i : Instance Child) :=
  {| state := v; isDirty := isDirty i; store := store i; kids := kids i;
     brokenRules := brokenRules i; isValidated := isValidated i;
     connection := connection i |}.
Definition set_isDirty (v : bool) (i : Instance Child) :=
  {| state := state i; isDirty := v; store := store i; kids := kids i;
     brokenRules := brokenRules i; isValidated := isValidated i;
     connection := connection i |}.
Definition set_store (v : Dto) (i : Instance Child) :=
  {| state := state i; isDirty := isDirty i; store := v; kids := kids i;
     brokenRules := brokenRules i; isValidated := isValidated i;
     connection := connection i |}.
Definition set_kids (v : list (string * Child)) (i : Instance Child) :=
  {| state := state i; isDirty := isDirty i; store := store i; kids := v;
     brokenRules := brokenRules i; isValidated := isValidated i;
     connection := connection i |}.
Definition set_brokenRules (v : list BrokenRule) (i : Instance Child) :=
  {| state := state i; isDirty := isDirty i; store := store i;
     kids := kids i; brokenRules := v; isValidated := isValidated i;
     connection := connection i |}.
Definition set_isValidated (v : bool) (i : Instance Child) :=
  {| state := state i; isDirty := isDirty i; store := store i;
     kids := kids i; brokenRules := brokenRules i; isValidated := v;
     connection := connection i |}.
Definition set_connection (v : Value) (i : Instance Child) :=
  {| state := state i; isDirty := isDirty i; store := store i;
     kids := kids i; brokenRules := brokenRules i;
     isValidated := isValidated i; connection := v |}.

(** The instance right after [var state = null; var isDirty = false; ...]
    and the initialisation of the property slots. *)
Definition fresh (values : Dto) (children : list (string * Child))
    : Instance Child :=
  {| state := None; isDirty := false; store := values; kids := children;
     brokenRules := []; isValidated := false; connection := VNull |}.

Definition start (i : Instance Child) : Sys Child :=
  {| self := i; journal := [] |}.

(** Reading and assigning the private variables, and journalling. *)
Definition have {A} (f : Instance Child -> A) : M (Sys Child) A :=
  gets (fun s => f (self s)).
Definition assign (f : Instance Child -> Instance Child)
    : M (Sys Child) unit :=
  modify (fun s => {| self := f (self s); journal := journal s |}).
Definition perform (e : Effect) : M (Sys Child) unit :=
  modify (fun s => {| self := self s; journal := journal s ++ [e] |}).
Definition complete {A} (c : Completion A) : M (Sys Child) A :=
  match c with Normal a => ret a | Throw e => throw e end.
End Instance_.

Section Model_.
Context {Child : Type}.
Variable model : Model Child.

Local Abbreviation Run := (M (Sys Child)).

(** *** Mark object state *)

Definition illegal {A} (newState : MODEL_STATE.t) : Run A :=
  let! st := have state in
  throw (transitionError st newState).

Definition markAsPristine : Run unit :=
  let! st := have state in
  if stateIs st MODEL_STATE.markedForRemoval || stateIs st MODEL_STATE.removed then
    illegal MODEL_STATE.pristine
  else if negb (stateIs st MODEL_STATE.pristine) then
    do! assign (set_state (Some MODEL_STATE.pristine)) in
    assign (set_isDirty false)
  else ret tt.

Definition markAsCreated : Run unit :=
  let! st := have state in
  if stateIsNull st then
    do! assign (set_state (Some MODEL_STATE.created)) in
    assign (set_isDirty true)
  else if negb (stateIs st MODEL_STATE.created) then
    illegal MODEL_STATE.created
  else ret tt.

Definition markAsChanged (itself : bool) : Run unit :=
  let! st := have state in
  if stateIs st MODEL_STATE.pristine then
    do! assign (set_state (Some MODEL_STATE.changed)) in
    do! assign (fun i => set_isDirty (isDirty i || itself) i) in
    assign (set_isValidated false)
  else if stateIs st MODEL_STATE.removed then
    illegal MODEL_STATE.changed
  else ret tt.

(** [child.remove()] on every child slot, in order; a throw ends the
    loop.  While a child is asked to remove, save or load itself the root
    is in a state where its own [childHasChanged] does nothing. *)
Fixpoint eachChild (op : Child -> Completion unit * Child)
    (ks : list (string * Child)) : Completion unit * list (string * Child) :=
  match ks with
  | [] => (Normal tt, [])
  | (n, c) :: ks' =>
      match op c with
      | (Normal _, c') =>
          let '(r, ks'') := eachChild op ks' in (r, (n, c') :: ks'')
      | (Throw e, c') => (Throw e, (n, c') :: ks')
      end
  end.

Definition overChildren (op : Child -> Completion unit * Child) : Run unit :=
  fun s =>
    let '(r, ks) := eachChild op (kids (self s)) in
    (r, {| self := set_kids ks (self s); journal := journal s |}).

Definition propagateRemoval : Run unit :=
  overChildren (child_remove model).

Definition markForRemoval : Run unit :=
  let! st := have state in
  if stateIs st MODEL_STATE.pristine || stateIs st MODEL_STATE.changed then
    do! assign (set_state (Some MODEL_STATE.markedForRemoval)) in
    do! assign (set_isDirty true) in
    propagateRemoval
  else if stateIs st MODEL_STATE.created then
    assign (set_state (Some MODEL_STATE.removed))
  else if negb (stateIs st MODEL_STATE.markedForRemoval) then
    illegal MODEL_STATE.markedForRemoval
  else ret tt.

Definition markAsRemoved : Run unit :=
  let! st := have state in
  if stateIs st MODEL_STATE.created || stateIs st MODEL_STATE.markedForRemoval then
    do! assign (set_state (Some MODEL_STATE.removed)) in
    assign (set_isDirty false)
  else if negb (stateIs st MODEL_STATE.removed) then
    illegal MODEL_STATE.removed
  else ret tt.

Definition childHasChanged : Run unit := markAsChanged false.

(** *** Show object state: the accessor properties *)

Definition getModelState (i : Instance Child) : option string :=
  MODEL_STATE.getName <$> state i.
Definition get_isNew (i : Instance Child) : bool := stateIs (state i) MODEL_STATE.created.
Definition get_isDirty (i : Instance Child) : bool :=
  stateIs (state i) MODEL_STATE.created || stateIs (state i) MODEL_STATE.changed
  || stateIs (state i) MODEL_STATE.markedForRemoval.
Definition get_isSelfDirty (i : Instance Child) : bool := isDirty i.
Definition get_isDeleted (i : Instance Child) : bool :=
  stateIs (state i) MODEL_STATE.markedForRemoval.

(** *** Permissions *)

Definition hasPermission (a : AuthorizationAction.t) (targetName : string)
    : Run bool :=
  let! brs := have brokenRules in
  let '(ok, brs') :=
    RuleManager.hasPermission (authorizationRules model) (user model)
      a targetName brs in
  do! assign (set_brokenRules brs') in
  ret ok.

Definition canBeRead (property : PropertyInfo) : Run bool :=
  hasPermission AuthorizationAction.readProperty (Shared.name property).
Definition canBeWritten (property : PropertyInfo) : Run bool :=
  hasPermission AuthorizationAction.writeProperty (Shared.name property).
Definition canDo (a : AuthorizationAction.t) : Run bool :=
  hasPermission a "".
Definition canExecute (methodName : string) : Run bool :=
  hasPermission AuthorizationAction.executeMethod methodName.

(** *** Properties *)

Definition getPropertyValue (property : PropertyInfo) : Run Value :=
  have (fun i => DataStore.getValue (store i) property).

Definition store_setValue (property : PropertyInfo) (value : Value)
    : Run bool :=
  let! data := have store in
  let '(isChanged, data') := DataStore.setValue data property value in
  do! assign (set_store data') in
  ret isChanged.

Definition setPropertyValue (property : PropertyInfo) (value : Value)
    : Run unit :=
  let! isChanged := store_setValue property value in
  when isChanged (markAsChanged true).

Definition readPropertyValue (property : PropertyInfo) : Run Value :=
  let! ok := canBeRead property in
  if ok then getPropertyValue property else ret VNull.

Definition writePropertyValue (property : PropertyInfo) (value : Value)
    : Run unit :=
  let! ok := canBeWritten property in
  if ok then
    let! isChanged := store_setValue property value in
    when isChanged (markAsChanged true)
  else ret tt.

(** [getPropertyContext(primaryProperty)]: the context of custom getters
    and setters reads with [readPropertyValue] and writes with
    [writePropertyValue].  shared/property-context.js is not among the
    sources; names are resolved as the transfer context resolves them. *)
Definition withPropertyContext {R} (sc : Script R) : Run R :=
  TransferContext.runScript (properties model)
    (Some readPropertyValue) (Some writePropertyValue) sc.

(** The accessor pair that [Object.defineProperty(self, property.name, ...)]
    installs for a property whose type is a data type. *)
Definition property_get (property : PropertyInfo) : Run Value :=
  match getter property with
  | Some g => withPropertyContext g
  | None => readPropertyValue property
  end.

Definition property_set (property : PropertyInfo) (value : Value)
    : Run unit :=
  if isReadOnly property then
    throw (ModelError "readOnly"
             [properties_name model; Shared.name property])
  else match setter property with
       | Some st => withPropertyContext (st value)
       | None => writePropertyValue property value
       end.

(** *** Transfer object methods *)

(** [getTransferContext(false)] *)
Definition withTransferContext {R} (sc : Script R) : Run R :=
  TransferContext.runScript (properties model)
    (Some getPropertyValue) (Some setPropertyValue) sc.

Definition onDto : list PropertyInfo :=
  filter (fun p => isOnDto p = true) (properties model).

Definition baseToDto : Run Dto :=
  have (fun i =>
    foldl (fun dto p => <[Shared.name p := DataStore.getValue (store i) p]> dto)
          (∅ : Dto) onDto).

Definition toDto : Run Dto :=
  match toDto_ext model with
  | Some f => withTransferContext f
  | None => baseToDto
  end.

(** The members of a transfer object are values, never functions, so
    the [typeof ... !== 'function'] half of the test always holds. *)
Definition baseFromDto (dto : Dto) : Run unit :=
  forEach (fun p =>
             match dto !! Shared.name p with
             | Some v => setPropertyValue p v
             | None => ret tt
             end) onDto.

Definition fromDto (dto : Dto) : Run unit :=
  match fromDto_ext model with
  | Some f => withTransferContext (f dto)
  | None => baseFromDto dto
  end.
(** *** Validation *)

Definition validate_ (property : PropertyInfo) : Run unit :=
  assign (fun i =>
    set_brokenRules (validate model property (store i) (brokenRules i)) i).

Definition checkRules : Run unit :=
  do! assign (fun i => set_brokenRules (clear model (brokenRules i)) i) in
  do! forEach validate_ (properties model) in
  assign (set_isValidated true).

Definition isValid : Run bool :=
  let! validated := have isValidated in
  do! when (negb validated) checkRules in
  have (fun i => BrokenRuleList.isValid (brokenRules i)).

(** *** Child methods *)

Definition insertChildren (conn : Value) : Run unit :=
  overChildren (child_save model conn).
Definition updateChildren (conn : Value) : Run unit :=
  overChildren (child_save model conn).
Definition removeChildren (conn : Value) : Run unit :=
  overChildren (child_save model conn).

(** [child.fetch(dto[property.name])] for every child slot. *)
Fixpoint fetchEach (dto : Dto) (ks : list (string * Child))
    : Completion unit * list (string * Child) :=
  match ks with
  | [] => (Normal tt, [])
  | (n, c) :: ks' =>
      match child_fetch model (default VUndefined (dto !! n)) c with
      | (Normal _, c') =>
          let '(r, ks'') := fetchEach dto ks' in (r, (n, c') :: ks'')
      | (Throw e, c') => (Throw e, (n, c') :: ks')
      end
  end.

Definition fetchChildren (dto : Dto) : Run unit :=
  fun s =>
    let '(r, ks) := fetchEach dto (kids (self s)) in
    (r, {| self := set_kids ks (self s); journal := journal s |}).

(** *** Data portal methods: helpers *)

(** [getDataContext(connection)]: the context of the data hooks reads with
    [getPropertyValue] and writes with [setPropertyValue]. *)
Definition withDataContext {R} (extension : string) (sc : Script R) : Run R :=
  do! perform (Hook extension) in
  TransferContext.runScript (properties model)
    (Some getPropertyValue) (Some setPropertyValue) sc.

Definition getEventArgs (a : DataPortalAction.t) (method : option string)
    (err : option Exn) : DataPortalEventArgs :=
  {| modelName := properties_name model; eventAction := a;
     methodName := method; eventError := err |}.

Definition wrapError (a : DataPortalAction.t) (e : Exn) : Exn :=
  DataPortalError MODEL_DESC (properties_name model) a e.

(** [self.emit(event, eventArgs, self)] runs the listeners of the event
    before it returns; a listener that throws ends the caller's block.  The
    listeners are taken to observe: they do not call back into the
    instance. *)
Definition emit (ev : DataPortalEvent.t) (args : DataPortalEventArgs)
    : Run unit :=
  do! perform (Emit ev args) in
  complete (listeners model ev args).

Definition dao_runMethod (method : string) (arg : DaoArg) : Run Dto :=
  let! conn := have connection in
  do! perform (RunMethod method conn arg) in
  complete (runMethod model method conn arg).

Definition open : Run unit :=
  do! perform (OpenConnection (dataSource model)) in
  let! conn := complete (openConnection model (dataSource model)) in
  assign (set_connection conn).

Definition close : Run unit :=
  let! conn := have connection in
  do! perform (CloseConnection (dataSource model) conn) in
  let! conn' := complete (closeConnection model (dataSource model) conn) in
  assign (set_connection conn').

Definition begin : Run unit :=
  do! perform (BeginTransaction (dataSource model)) in
  let! conn := complete (beginTransaction model (dataSource model)) in
  assign (set_connection conn).

Definition commit : Run unit :=
  let! conn := have connection in
  do! perform (CommitTransaction (dataSource model) conn) in
  let! conn' := complete (commitTransaction model (dataSource model) conn) in
  assign (set_connection conn').

Definition rollback : Run unit :=
  let! conn := have connection in
  do! perform (RollbackTransaction (dataSource model) conn) in
  let! conn' :=
    complete (rollbackTransaction model (dataSource model) conn) in
  assign (set_connection conn').

(** Modelled from the spec: [properties.getKey] belongs to
    shared/property-manager.js, which is not among the sources; the filter of
    a removal is taken to be the values of the properties flagged as key. *)
Definition getKey : Run DaoArg :=
  have (fun i =>
    Data (foldl (fun dto p => <[Shared.name p := DataStore.getValue (store i) p]> dto)
                (∅ : Dto) (filter (fun p => isKey p = true) (properties model)))).

(** The [catch] block shared by the data portal methods: wrap the error,
    launch the finish events when a connection is held, undo, rethrow. *)
Definition failed {A} (a : DataPortalAction.t) (method : option string)
    (finish : list DataPortalEvent.t) (undo : Run unit) (e : Exn) : Run A :=
  let dpError := wrapError a e in
  let! conn := have connection in
  do! when (truthy conn)
        (forEach (fun ev => emit ev (getEventArgs a method (Some dpError)))
                 finish) in
  do! undo in
  throw dpError.

(** *** Create *)

Definition data_create : Run unit :=
  if defined (dataCreate model) || hasCreate model then
    try_catch
      (do! open in
       do! emit DataPortalEvent.preCreate (getEventArgs DataPortalAction.create None None) in
       do! match dataCreate model with
           | Some hook => withDataContext "dataCreate" hook
           | None =>
               let! dto := dao_runMethod "create" NoArg in
               fromDto dto
           end in
       do! markAsCreated in
       do! emit DataPortalEvent.postCreate (getEventArgs DataPortalAction.create None None) in
       close)
      (failed DataPortalAction.create None [DataPortalEvent.postCreate] close)
  else ret tt.

(** *** Fetch *)

Definition data_fetch (filter : Value) (method : string) : Run unit :=
  let! allowed :=
    (if String.eqb method M_FETCH then canDo AuthorizationAction.fetchObject
     else canExecute method) in
  if allowed then
    try_catch
      (do! open in
       do! emit DataPortalEvent.preFetch (getEventArgs DataPortalAction.fetch (Some method) None) in
       let! dto :=
         match dataFetch model with
         | Some hook => withDataContext "dataFetch" (hook filter method)
         | None =>
             let! dto := dao_runMethod method (Filter filter) in
             do! fromDto dto in
             ret dto
         end in
       do! fetchChildren dto in
       do! markAsPristine in
       do! emit DataPortalEvent.postFetch (getEventArgs DataPortalAction.fetch (Some method) None) in
       close)
      (failed DataPortalAction.fetch (Some method) [DataPortalEvent.postFetch] close)
  else ret tt.

(** *** Insert *)

Definition data_insert : Run unit :=
  let! allowed := canDo AuthorizationAction.createObject in
  if allowed then
    try_catch
      (do! begin in
       do! emit DataPortalEvent.preSave (getEventArgs DataPortalAction.insert None None) in
       do! emit DataPortalEvent.preInsert (getEventArgs DataPortalAction.insert None None) in
       do! match dataInsert model with
           | Some hook => withDataContext "dataInsert" hook
           | None =>
               let! dto := toDto in
               let! dto := dao_runMethod "insert" (Data dto) in
               fromDto dto
           end in
       let! conn := have connection in
       do! insertChildren conn in
       do! markAsPristine in
       do! emit DataPortalEvent.postInsert (getEventArgs DataPortalAction.insert None None) in
       do! emit DataPortalEvent.postSave (getEventArgs DataPortalAction.insert None None) in
       commit)
      (failed DataPortalAction.insert None [DataPortalEvent.postInsert; DataPortalEvent.postSave] rollback)
  else ret tt.

(** *** Update *)

Definition data_update : Run unit :=
  let! allowed := canDo AuthorizationAction.updateObject in
  if allowed then
    try_catch
      (do! begin in
       do! emit DataPortalEvent.preSave (getEventArgs DataPortalAction.update None None) in
       do! emit DataPortalEvent.preUpdate (getEventArgs DataPortalAction.update None None) in
       do! match dataUpdate model with
           | Some hook => withDataContext "dataUpdate" hook
           | None =>
               let! dirty := have isDirty in
               if dirty then
                 let! dto := toDto in
                 let! dto := dao_runMethod "update" (Data dto) in
                 fromDto dto
               else ret tt
           end in
       let! conn := have connection in
       do! updateChildren conn in
       do! markAsPristine in
       do! emit DataPortalEvent.postUpdate (getEventArgs DataPortalAction.update None None) in
       do! emit DataPortalEvent.postSave (getEventArgs DataPortalAction.update None None) in
       commit)
      (failed DataPortalAction.update None [DataPortalEvent.postUpdate; DataPortalEvent.postSave] rollback)
  else ret tt.

(** *** Remove *)

Definition data_remove : Run unit :=
  let! allowed := canDo AuthorizationAction.removeObject in
  if allowed then
    try_catch
      (do! begin in
       do! emit DataPortalEvent.preSave (getEventArgs DataPortalAction.remove None None) in
       do! emit DataPortalEvent.preRemove (getEventArgs DataPortalAction.remove None None) in
       let! conn := have connection in
       do! removeChildren conn in
       do! match dataRemove model with
           | Some hook => withDataContext "dataRemove" hook
           | None =>
               let! filter := getKey in
               let! dto := dao_runMethod "remove" filter in
               ret tt
           end in
       do! markAsRemoved in
       do! emit DataPortalEvent.postRemove (getEventArgs DataPortalAction.remove None None) in
       do! emit DataPortalEvent.postSave (getEventArgs DataPortalAction.remove None None) in
       commit)
      (failed DataPortalAction.remove None [DataPortalEvent.postRemove; DataPortalEvent.postSave] rollback)
  else ret tt.

(** *** Actions *)

Definition create : Run unit := data_create.

(** [this.fetch(filter, method)]: [method || M_FETCH]. *)
Definition fetch (filter : Value) (method : option string) : Run unit :=
  data_fetch filter
    (match method with
     | Some m => if String.eqb m "" then M_FETCH else m
     | None => M_FETCH
     end).

Definition save : Run Returned :=
  let! valid := isValid in
  if valid then
    let! st := have state in
    match st with
    | Some MODEL_STATE.created => do! data_insert in ret This
    | Some MODEL_STATE.changed => do! data_update in ret This
    | Some MODEL_STATE.markedForRemoval => do! data_remove in ret Null
    | _ => ret This
    end
  else ret Undefined.

Definition remove : Run unit := markForRemoval.

(** *** isSavable *)

(** A member of the instance, as an expression [self.m] finds it: a method
    (a function stored by [this.m = function ...]) or an accessor property
    (a getter installed by [Object.defineProperty]), whose value is what the
    getter returns. *)
Inductive Member :=
| Method (call : Run Value)
| Accessor (get : Run Value).

(** The members that are defined on every instance, whatever its model. *)
Definition member (m : string) : option Member :=
  if String.eqb m "getModelState" then
    Some (Method (have (fun i =>
            match getModelState i with Some n => VStr n | None => VUndefined end)))
  else if String.eqb m "isNew" then
    Some (Accessor (have (fun i => VBool (get_isNew i))))
  else if String.eqb m "isDirty" then
    Some (Accessor (have (fun i => VBool (get_isDirty i))))
  else if String.eqb m "isSelfDirty" then
    Some (Accessor (have (fun i => VBool (get_isSelfDirty i))))
  else if String.eqb m "isDeleted" then
    Some (Accessor (have (fun i => VBool (get_isDeleted i))))
  else if String.eqb m "childHasChanged" then
    Some (Method (do! childHasChanged in ret VUndefined))
  else if String.eqb m "isValid" then
    Some (Method (let! b := isValid in ret (VBool b)))
  else if String.eqb m "checkRules" then
    Some (Method (do! checkRules in ret VUndefined))
  else if String.eqb m "remove" then
    Some (Method (do! remove in ret VUndefined))
  else None.

(** [self.m()]: the member is read first, then what was read is called.  No
    [Value] is a function, so calling the value of an accessor, or
    [undefined], is a [TypeError]. *)
Definition callMember (m : string) : Run Value :=
  match member m with
  | Some (Method call) => call
  | Some (Accessor get) =>
      let! v := get in
      throw (TypeError ("self." ++ m ++ " is not a function")%string)
  | None => throw (TypeError ("self." ++ m ++ " is not a function")%string)
  end.

(** The getter of the accessor property [isSavable]. *)
Definition get_isSavable : Run Value :=
  let! deleted := callMember "isDeleted" in
  let! auth :=
    (if truthy deleted then canDo AuthorizationAction.removeObject
     else let! new := callMember "isNew" in
          if truthy new then canDo AuthorizationAction.createObject
          else canDo AuthorizationAction.updateObject) in
  if auth then
    let! dirty := callMember "isDirty" in
    if truthy dirty then callMember "isValid" else ret dirty
  else ret (VBool false).

End Model_.

End EditableRootModelSync.

(** ** The editable child object (asynchronous variant) *)

Module EditableChildObject.

(** The definition a child model type is built from. *)
Record Model := {
  name : string;
  properties : list PropertyInfo;
  validate : PropertyInfo -> Dto -> list BrokenRule -> list BrokenRule;
  clear : list BrokenRule -> list BrokenRule
}.

(** The private variables of one instance. *)
Record Vars := {
  model : Model;
  state : option MODEL_STATE.t;
  isDirty : bool;
  store : Dto;
  brokenRules : list BrokenRule;
  isValidated : bool
}.

(** An instance with the child objects its data store holds, in the order
    of their properties. *)
#[warnings="-register-all"]
Inductive Obj :=
| obj (vars : Vars) (kids : list (string * Obj)).

Definition vars_of (o : Obj) : Vars := match o with obj v _ => v end.
Definition kids_of (o : Obj) : list (string * Obj) :=
  match o with obj _ ks => ks end.

Definition set_state (x : option MODEL_STATE.t) (v : Vars) : Vars :=
  {| model := model v; state := x; isDirty := isDirty v; store := store v;
     brokenRules := brokenRules v; isValidated := isValidated v |}.
Definition set_isDirty (x : bool) (v : Vars) : Vars :=
  {| model := model v; state := state v; isDirty := x; store := store v;
     brokenRules := brokenRules v; isValidated := isValidated v |}.
Definition set_brokenRules (x : list BrokenRule) (v : Vars) : Vars :=
  {| model := model v; state := state v; isDirty := isDirty v;
     store := store v; brokenRules := x; isValidated := isValidated v |}.
Definition set_isValidated (x : bool) (v : Vars) : Vars :=
  {| model := model v; state := state v; isDirty := isDirty v;
     store := store v; brokenRules := brokenRules v; isValidated := x |}.

(** The instance right after its variables are initialised. *)
Definition fresh (m : Model) (values : Dto) : Vars :=
  {| model := m; state := None; isDirty := false; store := values;
     brokenRules := []; isValidated := false |}.

(** *** Mark object state

    The object keeps a reference to its parent and calls
    [parent.childHasChanged()] on it.  The code below runs on the pair of
    the object's own variables and the state [P] of whatever the parent
    is; the parent's method is [parent_childHasChanged]. *)
Section Marks.
Context {P : Type}.
Variable parent_childHasChanged : M P unit.

Local Abbreviation Run := (M (Vars * P)).

Definition have {A} (f : Vars -> A) : Run A := gets (fun s => f (fst s)).
Definition assign (f : Vars -> Vars) : Run unit :=
  modify (fun s => (f (fst s), snd s)).

Definition illegal {A} (newState : MODEL_STATE.t) : Run A :=
  let! st := have state in
  throw (transitionError st newState).

Definition propagateChange : Run unit :=
  fun s => let '(r, p) := parent_childHasChanged (snd s) in (r, (fst s, p)).

Definition markAsPristine : Run unit :=
  let! st := have state in
  if stateIs st MODEL_STATE.markedForRemoval || stateIs st MODEL_STATE.removed then
    illegal MODEL_STATE.pristine
  else if negb (stateIs st MODEL_STATE.pristine) then
    do! assign (set_state (Some MODEL_STATE.pristine)) in
    assign (set_isDirty false)
  else ret tt.

Definition markAsCreated : Run unit :=
  let! st := have state in
  if stateIsNull st then
    do! assign (set_state (Some MODEL_STATE.created)) in
    do! assign (set_isDirty true) in
    propagateChange
  else if negb (stateIs st MODEL_STATE.created) then
    illegal MODEL_STATE.created
  else ret tt.

Definition markAsChanged (itself : bool) : Run unit :=
  let! st := have state in
  if stateIs st MODEL_STATE.pristine then
    do! assign (set_state (Some MODEL_STATE.changed)) in
    do! assign (fun v => set_isDirty (isDirty v || itself) v) in
    do! propagateChange in
    assign (set_isValidated false)
  else if stateIs st MODEL_STATE.created then
    do! assign (fun v => set_isDirty (isDirty v || itself) v) in
    do! propagateChange in
    assign (set_isValidated false)
  else if stateIs st MODEL_STATE.removed then
    illegal MODEL_STATE.changed
  else ret tt.

Definition markAsRemoved : Run unit :=
  let! st := have state in
  if stateIs st MODEL_STATE.created || stateIs st MODEL_STATE.markedForRemoval then
    do! assign (set_state (Some MODEL_STATE.removed)) in
    assign (set_isDirty false)
  else if negb (stateIs st MODEL_STATE.removed) then
    illegal MODEL_STATE.removed
  else ret tt.

(** [this.childHasChanged]: what the children of this object call. *)
Definition childHasChanged : Run unit := markAsChanged false.

End Marks.

(** [markForRemoval] walks down: [propagateRemoval] calls [child.remove()],
    that is the child's own [markForRemoval], on every child, and each child
    has this object for its parent. *)
Fixpoint markForRemoval_ (o : Obj) {P : Type}
    (parent_childHasChanged : M P unit) (p : P) {struct o}
    : Completion unit * (Obj * P) :=
  match o with
  | obj v ks =>
      let st := state v in
      if stateIs st MODEL_STATE.pristine || stateIs st MODEL_STATE.changed then
        let v1 := set_isDirty true (set_state (Some MODEL_STATE.markedForRemoval) v) in
        let propagateRemoval :=
          fix each (ks : list (string * Obj)) (s : Vars * P) {struct ks}
              : Completion unit * (list (string * Obj) * (Vars * P)) :=
            match ks with
            | [] => (Normal tt, ([], s))
            | (n, child) :: ks' =>
                match markForRemoval_ child
                        (childHasChanged parent_childHasChanged) s with
                | (Normal _, (child', s')) =>
                    let '(r, (ks'', s'')) := each ks' s' in
                    (r, ((n, child') :: ks'', s''))
                | (Throw e, (child', s')) =>
                    (Throw e, ((n, child') :: ks', s'))
                end
            end in
        match propagateRemoval ks (v1, p) with
        | (Normal _, (ks', s')) =>
            let '(r, (v2, p')) := propagateChange parent_childHasChanged s' in
            (r, (obj v2 ks', p'))
        | (Throw e, (ks', (v2, p'))) => (Throw e, (obj v2 ks', p'))
        end
      else if stateIs st MODEL_STATE.created then
        (Normal tt, (obj (set_state (Some MODEL_STATE.removed) v) ks, p))
      else if negb (stateIs st MODEL_STATE.markedForRemoval) then
        (Throw (transitionError st MODEL_STATE.markedForRemoval), (o, p))
      else (Normal tt, (o, p))
  end.

Definition markForRemoval {P : Type} (parent_childHasChanged : M P unit)
    : M (Obj * P) unit :=
  fun s => markForRemoval_ (fst s) parent_childHasChanged (snd s).

(** [this.remove] *)
Definition remove {P : Type} (parent_childHasChanged : M P unit)
    : M (Obj * P) unit :=
  markForRemoval parent_childHasChanged.

(** *** Show object state *)

Definition isNew (v : Vars) : bool := stateIs (state v) MODEL_STATE.created.
Definition isDirty_ (v : Vars) : bool :=
  stateIs (state v) MODEL_STATE.created || stateIs (state v) MODEL_STATE.changed
  || stateIs (state v) MODEL_STATE.markedForRemoval.
Definition isSelfDirty (v : Vars) : bool := isDirty v.
Definition isDeleted (v : Vars) : bool :=
  stateIs (state v) MODEL_STATE.markedForRemoval.

(** *** Validation *)

(** [rules.validate(property, context)] over all properties. *)
Definition validateAll (v : Vars) : Vars :=
  foldl (fun v p =>
           set_brokenRules (validate (model v) p (store v) (brokenRules v)) v)
        v (properties (model v)).

Fixpoint checkRules (o : Obj) : Obj :=
  match o with
  | obj v ks =>
      let v1 := set_brokenRules (clear (model v) (brokenRules v)) v in
      let v2 := validateAll v1 in
      let checkChildRules :=
        fix each (ks : list (string * Obj)) : list (string * Obj) :=
          match ks with
          | [] => []
          | (n, child) :: ks' => (n, checkRules child) :: each ks'
          end in
      obj (set_isValidated true v2) (checkChildRules ks)
  end.

(** [isValidated] is set on the object and on every descendant; this is
    how [checkRules] leaves an object. *)
Fixpoint allValidated (o : Obj) : bool :=
  match o with
  | obj v ks =>
      isValidated v
      && (fix every (ks : list (string * Obj)) : bool :=
            match ks with
            | [] => true
            | (_, child) :: ks' => allValidated child && every ks'
            end) ks
  end.

(** What [isValid] answers on an object whose rules were just checked:
    no call below re-checks or changes anything. *)
Fixpoint isValid_checked (o : Obj) : bool :=
  match o with
  | obj v ks =>
      BrokenRuleList.isValid (brokenRules v)
      && (fix every (ks : list (string * Obj)) : bool :=
            match ks with
            | [] => true
            | (_, child) :: ks' => isValid_checked child && every ks'
            end) ks
  end.

(** [isValid]: [if (!isValidated) this.checkRules();] and then
    [brokenRules.isValid() && childrenAreValid()], where [&&] and [every]
    stop at the first false.  When the rules are checked first, the calls to
    the children run on the checked children ([isValid_checked]). *)
Fixpoint isValid (o : Obj) : bool * Obj :=
  match o with
  | obj v ks =>
      if isValidated v then
        if BrokenRuleList.isValid (brokenRules v) then
          let childrenAreValid :=
            fix every (ks : list (string * Obj)) : bool * list (string * Obj) :=
              match ks with
              | [] => (true, [])
              | (n, child) :: ks' =>
                  let '(ok, child') := isValid child in
                  if ok then
                    let '(r, ks'') := every ks' in (r, (n, child') :: ks'')
                  else (false, (n, child') :: ks')
              end in
          let '(r, ks') := childrenAreValid ks in (r, obj v ks')
        else (false, o)
      else
        let o1 := checkRules o in
        (isValid_checked o1, o1)
  end.

End EditableChildObject.

(** ** read-only-child-model.js *)

Module ReadOnlyChildModel.

Record Model := {
  properties : list PropertyInfo;
  properties_name : string;
  authorizationRules : list AuthorizationRule;
  user : Principal
}.

(** The private variables of one instance that the reads touch. *)
Record Instance := {
  store : Dto;
  brokenRules : list BrokenRule
}.

Section Model_.
Variable model : Model.

Local Abbreviation Run := (M Instance).

(** *** Permissions *)

Definition hasPermission (a : AuthorizationAction.t) (targetName : string)
    : Run bool :=
  fun i =>
    let '(ok, brs) :=
      RuleManager.hasPermission (authorizationRules model) (user model)
        a targetName (brokenRules i) in
    (Normal ok, {| store := store i; brokenRules := brs |}).

Definition canBeRead (property : PropertyInfo) : Run bool :=
  hasPermission AuthorizationAction.readProperty (Shared.name property).

(** *** Properties *)

Definition readPropertyValue (property : PropertyInfo) : Run Value :=
  let! ok := canBeRead property in
  if ok then gets (fun i => DataStore.getValue (store i) property)
  else ret VNull.

(** The accessor pair installed for a property whose type is a data type. *)
Definition property_get (property : PropertyInfo) : Run Value :=
  readPropertyValue property.

Definition property_set (property : PropertyInfo) (value : Value) : Run unit :=
  throw (ModelError
           (properties_name model ++ "." ++ Shared.name property
            ++ " property is read-only.")%string []).

End Model_.

(** *** Child methods: the counting join of [fetchChildren]

    [fetchChildren(dto, callback)] starts the fetch of every child and hands
    each of them [finish]; a child operation completes by calling
    [finish(err)].  [Join] holds the two local variables of one call of
    [fetchChildren] and the calls made to [callback] so far. *)
Record Join := {
  count : nat;
  error : option Exn;
  called : list (option Exn)
}.

(** [var count = 0; var error = null;] *)
Definition started : Join := {| count := 0; error := None; called := [] |}.

(** [a || b] on values that are an error object or [null]. *)
Definition or_else (a b : option Exn) : option Exn :=
  match a with Some _ => a | None => b end.

(** [function finish (err)], with [childCount] for [properties.childCount()]. *)
Definition finish (childCount : nat) (err : option Exn) (j : Join) : Join :=
  let error' := or_else (error j) err in
  let count' := S (count j) in
  {| count := count'; error := error';
     called := if Nat.eqb count' childCount
               then called j ++ [error'] else called j |}.

(** One call of [fetchChildren], told by the completions of the child
    operations in the order they arrive: an entry is the [err] the child
    passes to [finish]. *)
Definition fetchChildren (childCount : nat) (completions : list (option Exn))
    : Join :=
  if Nat.eqb childCount 0 then
    {| count := 0; error := None; called := [None] |}
  else foldl (fun j err => finish childCount err j) started completions.

End ReadOnlyChildModel.

(** ** read-only-collection.js: [EditableCollection] *)

Module EditableCollection.

Section Collection_.
Context {Item : Type}.

(** The local variables of one call of [fetch], the items of the
    collection, and the calls made to [callback] so far. *)
Record Join := {
  items : list Item;
  count : nat;
  error : option Exn;
  called : list (option Exn)
}.

Definition started (items0 : list Item) : Join :=
  {| items := items0; count := 0; error := None; called := [] |}.

(** The callback handed to [itemType.load(parent, dto, ...)]. *)
Definition loaded (dataLength : nat) (err : option Exn) (item : Item)
    (j : Join) : Join :=
  let error' := match err with
                | Some _ => ReadOnlyChildModel.or_else (error j) err
                | None => error j
                end in
  let items' := match err with
                | Some _ => items j
                | None => items j ++ [item]
                end in
  let count' := S (count j) in
  {| items := items'; count := count'; error := error';
     called := if Nat.eqb count' dataLength
               then called j ++ [error'] else called j |}.

(** One call of [fetch(data, callback)] on an array of [dataLength]
    elements, told by the completions of the loads in the order they
    arrive. *)
Definition fetch (items0 : list Item) (dataLength : nat)
    (completions : list (option Exn * Item)) : Join :=
  if Nat.eqb dataLength 0 then
    {| items := items0; count := 0; error := None; called := [None] |}
  else foldl (fun j c => loaded dataLength (fst c) (snd c) j)
             (started items0) completions.

End Collection_.
Arguments Join Item : clear implicits.

End EditableCollection.

(** ** The read-only root collection (synchronous variant) *)

Module ReadOnlyRootCollectionSync.

(** The names declared by the scopes that enclose the body of the callback
    in [getBrokenRules], innermost first: the callback, [getBrokenRules], the
    constructor, the factory, the module (with the names the module wrapper
    of Node.js supplies). *)
Definition enclosing_scopes : list (list string) :=
  [ ["item"; "childBrokenRules"; "arguments"];
    ["namespace"; "bro"; "arguments"];
    ["eventHandlers"; "self"; "items"; "brokenRules"; "isValidated";
     "dataContext"; "connection"; "totalItems"; "getTransferContext";
     "baseToCto"; "getAuthorizationContext"; "canDo"; "canExecute";
     "getDataContext"; "raiseEvent"; "wrapError"; "data_fetch"; "arguments"];
    ["name"; "itemType"; "rules"; "extensions"; "dao";
     "ReadOnlyRootCollectionSync"; "arguments"];
    ["util"; "config"; "EnsureArgument"; "CollectionBase"; "ModelError";
     "ExtensionManagerSync"; "EventHandlerList"; "TransferContext";
     "RuleManager"; "BrokenRuleList"; "AuthorizationAction";
     "AuthorizationContext"; "BrokenRulesResponse"; "DataPortalAction";
     "DataPortalContext"; "DataPortalEvent"; "DataPortalEventArgs";
     "DataPortalError"; "CLASS_NAME"; "MODEL_DESC"; "M_FETCH";
     "ReadOnlyRootCollectionSyncFactory";
     "exports"; "require"; "module"; "__filename"; "__dirname"] ].

Definition declared (x : string) : bool :=
  existsb (existsb (String.eqb x)) enclosing_scopes.

(** An identifier that no enclosing scope declares is looked up on the
    global object; when it is not there either, reading it is a
    [ReferenceError]. *)
Definition identifier (globalThis : Dto) (x : string) : Completion Value :=
  match globalThis !! x with
  | Some v => Normal v
  | None => Throw (ReferenceError x)
  end.

(** [v.name] for a primitive [v]. *)
Definition dot_name (v : Value) : Completion Value :=
  match v with
  | VUndefined | VNull =>
      Throw (TypeError "Cannot read property 'name'")
  | _ => Normal VUndefined
  end.

Section Collection_.
(** The items, and the broken rules output they and the list produce
    (rules/broken-rules-output.js), are collaborators. *)
Context {Item Output : Type}.
Variable output : list BrokenRule -> option string -> Output.
Variable addChild : Value -> Output -> Output -> Output.
Variable length_ : Output -> nat.
Variable item_getBrokenRules : option string -> Item -> option Output.
Variable globalThis : Dto.

(** The body of [items.forEach(function (item) { ... })]: [property] is not
    declared by any enclosing scope, so it is read as a global. *)
Fixpoint mergeChildren (namespace : option string) (items : list Item)
    (bro : Output) : Completion Output :=
  match items with
  | [] => Normal bro
  | item :: rest =>
      match item_getBrokenRules namespace item with
      | Some childBrokenRules =>
          match identifier globalThis "property" with
          | Normal property =>
              match dot_name property with
              | Normal n =>
                  mergeChildren namespace rest (addChild n childBrokenRules bro)
              | Throw e => Throw e
              end
          | Throw e => Throw e
          end
      | None => mergeChildren namespace rest bro
      end
  end.

Definition getBrokenRules (items : list Item) (brokenRules : list BrokenRule)
    (namespace : option string) : Completion (option Output) :=
  match mergeChildren namespace items (output brokenRules namespace) with
  | Normal bro => Normal (if Nat.eqb (length_ bro) 0 then None else Some bro)
  | Throw e => Throw e
  end.

End Collection_.

End ReadOnlyRootCollectionSync.

(** ** The transition table of the spec *)

Module Table.
Import EditableRootModelSync.

(** The transition table of section 3, as the spec prints it. *)
Inductive Cell := allowed | noop | forbidden | shortCircuit.

Definition spec_table (from : option MODEL_STATE.t) (to : MODEL_STATE.t) : Cell :=
  match from, to with
  | None, MODEL_STATE.pristine => allowed
  | None, MODEL_STATE.created => allowed
  | None, _ => forbidden
  | Some MODEL_STATE.pristine, MODEL_STATE.pristine => noop
  | Some MODEL_STATE.pristine, MODEL_STATE.created => forbidden
  | Some MODEL_STATE.pristine, MODEL_STATE.changed => allowed
  | Some MODEL_STATE.pristine, MODEL_STATE.markedForRemoval => allowed
  | Some MODEL_STATE.pristine, MODEL_STATE.removed => forbidden
  | Some MODEL_STATE.created, MODEL_STATE.pristine => allowed
  | Some MODEL_STATE.created, MODEL_STATE.created => noop
  | Some MODEL_STATE.created, MODEL_STATE.changed => noop
  | Some MODEL_STATE.created, MODEL_STATE.markedForRemoval => shortCircuit
  | Some MODEL_STATE.created, MODEL_STATE.removed => allowed
  | Some MODEL_STATE.changed, MODEL_STATE.pristine => allowed
  | Some MODEL_STATE.changed, MODEL_STATE.created => forbidden
  | Some MODEL_STATE.changed, MODEL_STATE.changed => noop
  | Some MODEL_STATE.changed, MODEL_STATE.markedForRemoval => allowed
  | Some MODEL_STATE.changed, MODEL_STATE.removed => forbidden
  | Some MODEL_STATE.markedForRemoval, MODEL_STATE.pristine => forbidden
  | Some MODEL_STATE.markedForRemoval, MODEL_STATE.created => forbidden
  | Some MODEL_STATE.markedForRemoval, MODEL_STATE.changed => noop
  | Some MODEL_STATE.markedForRemoval, MODEL_STATE.markedForRemoval => noop
  | Some MODEL_STATE.markedForRemoval, MODEL_STATE.removed => allowed
  | Some MODEL_STATE.removed, MODEL_STATE.removed => noop
  | Some MODEL_STATE.removed, _ => forbidden
  end.

(** The state the table promises after a transition that does not throw. *)
Definition spec_target (from : option MODEL_STATE.t) (to : MODEL_STATE.t)
    : option MODEL_STATE.t :=
  match spec_table from to with
  | allowed => Some to
  | shortCircuit => Some MODEL_STATE.removed
  | noop | forbidden => from
  end.

(** The mark operation that aims at a state. *)
Definition mark {Child} (model : Model Child) (to : MODEL_STATE.t)
    (itself : bool) : M (Sys Child) unit :=
  match to with
  | MODEL_STATE.pristine => markAsPristine
  | MODEL_STATE.created => markAsCreated
  | MODEL_STATE.changed => markAsChanged itself
  | MODEL_STATE.markedForRemoval => markForRemoval model
  | MODEL_STATE.removed => markAsRemoved
  end.

(** The same for an editable child object, below a parent. *)
Definition child_mark {P} (parent_childHasChanged : M P unit)
    (to : MODEL_STATE.t) (itself : bool)
    : M (EditableChildObject.Obj * P) unit :=
  let lift (m : M (EditableChildObject.Vars * P) unit)
      : M (EditableChildObject.Obj * P) unit :=
    fun s =>
      let '(r, (v, p)) := m (EditableChildObject.vars_of (fst s), snd s) in
      (r, (EditableChildObject.obj v (EditableChildObject.kids_of (fst s)), p)) in
  match to with
  | MODEL_STATE.pristine =>
      lift (EditableChildObject.markAsPristine (P:=P))
  | MODEL_STATE.created =>
      lift (EditableChildObject.markAsCreated parent_childHasChanged)
  | MODEL_STATE.changed =>
      lift (EditableChildObject.markAsChanged parent_childHasChanged itself)
  | MODEL_STATE.markedForRemoval =>
      EditableChildObject.markForRemoval parent_childHasChanged
  | MODEL_STATE.removed =>
      lift (EditableChildObject.markAsRemoved (P:=P))
  end.

End Table.

(** ** The broken rules of an object graph *)

Module Validity.
Import EditableChildObject.

(** The broken rules recorded on an object and, recursively, on all its
    descendants. *)
Fixpoint recordedRules (o : Obj) : list BrokenRule :=
  match o with
  | obj v ks =>
      brokenRules v
      ++ (fix below (ks : list (string * Obj)) : list BrokenRule :=
            match ks with
            | [] => []
            | (_, child) :: ks' => recordedRules child ++ below ks'
            end) ks
  end.

(** No broken rule of severity [error] among them. *)
Definition errorFree (o : Obj) : Prop :=
  Forall (fun b => severity b <> RuleSeverity.error) (recordedRules o).

End Validity.

(** ** The first error of a cascade *)

Module Cascade.

(** The first error among the completions of the child operations, in the
    order they completed; [None] (null) when all succeeded. *)
Fixpoint firstError (completions : list (option Exn)) : option Exn :=
  match completions with
  | [] => None
  | Some e :: _ => Some e
  | None :: rest => firstError rest
  end.

(** The items a collection keeps: those whose load reported no error. *)
Definition loadedItems {Item} (completions : list (option Exn * Item))
    : list Item :=
  flat_map (fun c => match fst c with Some _ => [] | None => [snd c] end)
           completions.

End Cascade.

(** ** Relations between the states before and after a call *)

Module Frames.
Import EditableRootModelSync.

(** Only the broken rules and [isValidated] differ. *)
Definition rules_only {Child} (s s' : Sys Child) : Prop :=
  exists brs v,
    s' = {| self := set_isValidated v (set_brokenRules brs (self s));
            journal := journal s |}.

(** [m] relates every state it starts from to the state it ends in. *)
Definition preserves {Child A} (R : Sys Child -> Sys Child -> Prop)
    (m : M (Sys Child) A) : Prop :=
  forall s, R s (snd (m s)).

(** Nothing is journalled, and a model in state changed stays there. *)
Definition steady {Child} (s s' : Sys Child) : Prop :=
  journal s' = journal s
  /\ connection (self s') = connection (self s)
  /\ (state (self s) = Some MODEL_STATE.changed ->
      state (self s') = Some MODEL_STATE.changed).

(** Nothing is journalled. *)
Definition quiet {Child} (s s' : Sys Child) : Prop :=
  journal s' = journal s.

(** An effect that is not a call of the data access object. *)
Definition notDao (e : Effect) : Prop :=
  match e with RunMethod _ _ _ => False | _ => True end.

(** An effect of a [catch] block: a finish event or the rollback. *)
Definition reportsOrUndoes (e : Effect) : Prop :=
  match e with
  | Emit _ _ | RollbackTransaction _ _ => True
  | _ => False
  end.

(** The journal grows by effects that satisfy [P]. *)
Definition extends {Child} (P : Effect -> Prop) (s s' : Sys Child) : Prop :=
  exists d, journal s' = journal s ++ d /\ Forall P d.

End Frames.

(** ** Sample models, after the samples of the repository *)

Module Examples.
Import EditableRootModelSync.

Definition text (n : string) : PropertyInfo :=
  {| Shared.name := n; isChild := false; isOnDto := true; isOnCto := true;
     isReadOnly := false; isKey := false; isParentKey := false;
     getter := None; setter := None |}.

Definition vendorName : PropertyInfo := text "vendorName".

(** What [rules.validate] does for a property that carries the common rule
    [required]: an empty value breaks it, with severity [error]. *)
Definition required (p : PropertyInfo) (data : Dto) (brs : list BrokenRule)
    : list BrokenRule :=
  match DataStore.getValue data p with
  | VUndefined | VNull | VStr EmptyString =>
      BrokenRuleList.add brs
        {| ruleName := "Required"; propertyName := Shared.name p;
           message := "The property is required.";
           severity := RuleSeverity.error; stopsProcessing := false;
           isPreserved := false; affectedProperties := [] |}
  | _ => brs
  end.

(** A data access object that stores nothing and echoes what it is given,
    but whose [update] fails. *)
Definition dao (method : string) (conn : Value) (arg : DaoArg)
    : Completion Dto :=
  if String.eqb method "update" then Throw (ExternalError "update failed")
  else match arg with
       | Data dto => Normal dto
       | _ => Normal ∅
       end.

(** The rule [isInRole(readProperty, property, role)]: it denies who is not
    in the role, and stops the processing. *)
Definition isInRole (property role : string) : AuthorizationRule :=
  {| rule := "IsInRole"; action := AuthorizationAction.readProperty;
     target := property; denial := "The user is not in the role.";
     priority := 100; stops := true; enabled := true;
     execute := fun user => negb (user role) |}.

(** A principal who is a clerk and nothing else. *)
Definition clerk : Principal := fun role => String.eqb role "clerks".

Definition totalPrice : PropertyInfo := text "totalPrice".

(** A computed property: its getter answers with the vendor name. *)
Definition displayName : PropertyInfo :=
  {| Shared.name := "displayName"; isChild := false; isOnDto := false;
     isOnCto := true; isReadOnly := false; isKey := false;
     isParentKey := false;
     getter := Some (GetValue "vendorName" (fun v => Return v));
     setter := None |}.

(** A blanket order, with child slots of some type that do nothing when
    they are asked to remove, save or load themselves.  Only managers may
    read the total price and the display name. *)
Definition BlanketOrderOf (Child : Type) : Model Child :=
  {| properties := [vendorName; totalPrice; displayName];
     properties_name := "BlanketOrder";
     authorizationRules := [isInRole "totalPrice" "managers";
                            isInRole "displayName" "managers"];
     user := clerk;
     validate := fun p => if String.eqb (Shared.name p) "vendorName"
                          then required p else fun _ brs => brs;
     clear := fun _ => [];
     dataSource := "db";
     toDto_ext := None; fromDto_ext := None; dataCreate := None;
     dataFetch := None; dataInsert := None; dataUpdate := None;
     dataRemove := None;
     hasCreate := true; runMethod := dao;
     openConnection := fun _ => Normal (VNum 1);
     closeConnection := fun _ _ => Normal VNull;
     beginTransaction := fun _ => Normal (VNum 2);
     commitTransaction := fun _ _ => Normal VNull;
     rollbackTransaction := fun _ _ => Normal VNull;
     listeners := fun _ _ => Normal tt;
     child_remove := fun c => (Normal tt, c);
     child_save := fun _ c => (Normal tt, c);
     child_fetch := fun _ c => (Normal tt, c) |}.

(** The same order seen as a read-only child model. *)
Definition BlanketOrderView : ReadOnlyChildModel.Model :=
  {| ReadOnlyChildModel.properties := [vendorName; totalPrice];
     ReadOnlyChildModel.properties_name := "BlanketOrderView";
     ReadOnlyChildModel.authorizationRules := [isInRole "totalPrice" "managers"];
     ReadOnlyChildModel.user := clerk |}.

(** A blanket order with one required text property and no children. *)
Definition BlanketOrder : Model unit :=
  {| properties := [vendorName]; properties_name := "BlanketOrder";
     authorizationRules := []; user := fun _ => false;
     validate := required; clear := fun _ => [];
     dataSource := "db";
     toDto_ext := None; fromDto_ext := None; dataCreate := None;
     dataFetch := None; dataInsert := None; dataUpdate := None;
     dataRemove := None;
     hasCreate := true; runMethod := dao;
     openConnection := fun _ => Normal (VNum 1);
     closeConnection := fun _ _ => Normal VNull;
     beginTransaction := fun _ => Normal (VNum 2);
     commitTransaction := fun _ _ => Normal VNull;
     rollbackTransaction := fun _ _ => Normal VNull;
     listeners := fun _ _ => Normal tt;
     child_remove := fun c => (Normal tt, c);
     child_save := fun _ c => (Normal tt, c);
     child_fetch := fun _ c => (Normal tt, c) |}.

(** An order in a given state whose vendor name holds a given value. *)
Definition order (st : option MODEL_STATE.t) (dirty : bool) (vendor : Value)
    : Instance unit :=
  {| state := st; isDirty := dirty;
     store := <["vendorName" := vendor]> ∅; kids := [];
     brokenRules := []; isValidated := false; connection := VNull |}.

(** A child object definition with one required property. *)
Definition BlanketOrderItem : EditableChildObject.Model :=
  {| EditableChildObject.name := "BlanketOrderItem";
     EditableChildObject.properties := [text "productName"];
     EditableChildObject.validate := required;
     EditableChildObject.clear := fun _ => [] |}.

(** An item in a given state whose product name holds a given value. *)
Definition item (st : option MODEL_STATE.t) (dirty : bool) (product : Value)
    : EditableChildObject.Vars :=
  {| EditableChildObject.model := BlanketOrderItem;
     EditableChildObject.state := st;
     EditableChildObject.isDirty := dirty;
     EditableChildObject.store := <["productName" := product]> ∅;
     EditableChildObject.brokenRules := [];
     EditableChildObject.isValidated := false |}.

(** A blanket order whose slot [item] holds a child object. *)
Definition orderWithItem (vendor : Value) (child : EditableChildObject.Obj)
    : Instance EditableChildObject.Obj :=
  {| state := Some MODEL_STATE.changed; isDirty := false;
     store := <["vendorName" := vendor]> ∅; kids := [("item", child)];
     brokenRules := []; isValidated := false; connection := VNull |}.

(** A collection item seen through the names of its broken rules: it
    reports their number, or nothing when it has none. *)
Definition reported (namespace : option string) (item : list string)
    : option nat :=
  match item with
  | [] => None
  | _ :: _ => Some (List.length item)
  end.

End Examples.


(* ===================================================================== *)
(** * Part I, continued. The units under and beside the models           *)
(* ===================================================================== *)

(** ** system/argument-check.js *)

Module ArgumentCheck.

(** A JavaScript number, as far as the checks and [Math.round] look at it.
    The two zeros are one [Finite 0]; a finite number is kept as a
    rational. *)
Inductive Number :=
| NaN
| Infinity (negative : bool)
| Finite (q : Q).

(** [x % 1 === 0] *)
Definition isWhole (x : Number) : bool :=
  match x with
  | Finite q => (Qnum q mod Zpos (Qden q) =? 0)%Z
  | _ => false
  end.

(** The values an argument can hold.  A constructor is known by its name:
    [Func name super_] is a function (a class when it is used as one) with
    its [super_] member, [Inst chain] an object whose prototype chain runs
    through the constructors [chain], nearest first.  The wrapper objects
    of [new Boolean], [new Number] and [new String] are the three [Boxed]
    forms; [Inst] stands for the objects of all other classes. *)
#[warnings="-register-all"]
Inductive Val :=
| Undefined
| Null
| Bool (b : bool)
| Num (x : Number)
| Str (s : string)
| BoxedBool (b : bool)
| BoxedNum (x : Number)
| BoxedStr (s : string)
| Func (name : string) (super_ : option string)
| Inst (chain : list string)
| Arr (items : list Val).

Definition typeof (v : Val) : string :=
  match v with
  | Undefined => "undefined"
  | Bool _ => "boolean"
  | Num _ => "number"
  | Str _ => "string"
  | Func _ _ => "function"
  | Null | BoxedBool _ | BoxedNum _ | BoxedStr _ | Inst _ | Arr _ => "object"
  end.

(** The constructors along the prototype chain of a value. *)
Definition prototypes (v : Val) : list string :=
  match v with
  | BoxedBool _ => ["Boolean"; "Object"]
  | BoxedNum _ => ["Number"; "Object"]
  | BoxedStr _ => ["String"; "Object"]
  | Func _ _ => ["Function"; "Object"]
  | Inst chain => chain
  | Arr _ => ["Array"; "Object"]
  | Undefined | Null | Bool _ | Num _ | Str _ => []
  end.

(** [v instanceof ctor] *)
Definition instanceOf (v : Val) (ctor : string) : bool :=
  existsb (String.eqb ctor) (prototypes v).

(** JavaScript truthiness. *)
Definition truthy (v : Val) : bool :=
  match v with
  | Undefined | Null => false
  | Bool b => b
  | Num NaN => false
  | Num (Infinity _) => true
  | Num (Finite q) => negb (Qnum q =? 0)%Z
  | Str s => negb (String.eqb s "")
  | _ => true
  end.

(** [v === null] and [v === undefined] *)
Definition isNull (v : Val) : bool :=
  match v with Null => true | _ => false end.
Definition isUndefined (v : Val) : bool :=
  match v with Undefined => true | _ => false end.

(** [v.trim().length === 0], where it is evaluated: on a string. *)
Definition trimsToNothing (v : Val) : bool :=
  match v with
  | Str s | BoxedStr s => blank s
  | _ => false
  end.

(** [v % 1 !== 0], where it is evaluated: on a number. *)
Definition hasFraction (v : Val) : bool :=
  match v with
  | Num x | BoxedNum x => negb (isWhole x)
  | _ => true
  end.

(** [v.super_ === ctor] *)
Definition super_is (v : Val) (ctor : string) : bool :=
  match v with
  | Func _ (Some s) => String.eqb s ctor
  | _ => false
  end.

Module ArgumentGroup.
Inductive t := General | Constructor | Method | Property.
End ArgumentGroup.

(** The four error classes of system/, by name. *)
Inductive ErrorClass :=
| ArgumentError | ConstructorError | MethodError | PropertyError.

(** An argument handed to the constructor of an error: a text of the
    module, a value of the caller, or a constructor. *)
Inductive Arg :=
| AText (s : string)
| AVal (v : Val)
| ACtor (name : string).

(** [new type(message, ...)]: the class and the arguments. *)
Record Error := {
  class : ErrorClass;
  args : list Arg
}.

(** What a check does: it returns a value or throws. *)
Inductive Outcome :=
| Returns (v : Val)
| Throws (e : Error).

(** [builderBase], the one object all the checks of a builder work on. *)
Record Builder := {
  argumentGroup : ArgumentGroup.t;
  className : string;
  methodName : string;
  propertyName : string;
  argumentName : string;
  isMandatory : option bool;
  value : Val
}.

Definition set_value (v : Val) (b : Builder) : Builder :=
  {| argumentGroup := argumentGroup b; className := className b;
     methodName := methodName b; propertyName := propertyName b;
     argumentName := argumentName b; isMandatory := isMandatory b;
     value := v |}.

Definition set_for (n : string) (m : option bool) (b : Builder) : Builder :=
  {| argumentGroup := argumentGroup b; className := className b;
     methodName := methodName b; propertyName := propertyName b;
     argumentName := n; isMandatory := m; value := value b |}.

(** [function ArgumentCheck (value)], bound to the builder. *)
Definition check (v : Val) (this : Builder) : Builder := set_value v this.

(** [for], [forOptional], [forMandatory]: [argumentName || '']. *)
Definition forGeneric (argumentName : option string) (this : Builder)
    : Builder :=
  set_for (default "" argumentName) None this.
Definition forOptional (argumentName : option string) (this : Builder)
    : Builder :=
  set_for (default "" argumentName) (Some false) this.
Definition forMandatory (argumentName : option string) (this : Builder)
    : Builder :=
  set_for (default "" argumentName) (Some true) this.

(** [a || b] on texts. *)
Definition or_text (a b : string) : string :=
  if String.eqb a "" then b else a.

(** [exception(defaultMessage, typeArgument, userArguments)]: the error
    that is thrown.  The first user argument, when it is truthy, replaces
    the default message; the others follow the type argument. *)
Definition exception (defaultMessage : string) (typeArgument : option Arg)
    (userArguments : list Val) (this : Builder) : Error :=
  let message :=
    match userArguments with
    | m :: _ => if truthy m then AVal m else AText defaultMessage
    | [] => AText defaultMessage
    end in
  let message :=
    match message with
    | AText s => AText (or_text s "default")
    | a => a
    end in
  let parameters := tail userArguments in
  let '(type, place) :=
    match argumentGroup this with
    | ArgumentGroup.Property =>
        (PropertyError,
         [AText (or_text (className this) "<class>");
          AText (or_text (propertyName this) "<property>")])
    | ArgumentGroup.Method =>
        (MethodError,
         [AText (or_text (className this) "<class>");
          AText (or_text (methodName this) "<method>")])
    | ArgumentGroup.Constructor =>
        (ConstructorError, [AText (or_text (className this) "<class>")])
    | ArgumentGroup.General => (ArgumentError, [])
    end in
  {| class := type;
     args := [message] ++ place ++ [AText (argumentName this)]
             ++ match typeArgument with Some t => [t] | None => [] end
             ++ map AVal parameters |}.

(** The [typeof]/[instanceof] tests of the checks. *)
Definition isString (v : Val) : bool :=
  String.eqb (typeof v) "string" || instanceOf v "String".
Definition isNumber (v : Val) : bool :=
  String.eqb (typeof v) "number" || instanceOf v "Number".
Definition isBoolean (v : Val) : bool :=
  String.eqb (typeof v) "boolean" || instanceOf v "Boolean".

(** [this.isMandatory] read as a condition. *)
Definition mandatory (this : Builder) : bool :=
  match isMandatory this with Some true => true | _ => false end.

(** [if (this.value === undefined) this.value = null;] *)
Definition undefinedToNull (this : Builder) : Builder :=
  if isUndefined (value this) then set_value Null this else this.

(** Each check answers with what it returns or throws and with the
    builder as it leaves it. *)
Definition asDefined (arguments : list Val) (this : Builder)
    : Outcome * Builder :=
  if isUndefined (value this)
  then (Throws (exception "defined" None arguments this), this)
  else (Returns (value this), this).

Definition hasValue (arguments : list Val) (this : Builder)
    : Outcome * Builder :=
  if isNull (value this) || isUndefined (value this)
  then (Throws (exception "required" None arguments this), this)
  else (Returns (value this), this).

Definition asString (arguments : list Val) (this : Builder)
    : Outcome * Builder :=
  match isMandatory this with
  | Some true =>
      if negb (isString (value this)) || trimsToNothing (value this)
      then (Throws (exception "manString" None arguments this), this)
      else (Returns (value this), this)
  | Some false =>
      let this := undefinedToNull this in
      if negb (isNull (value this)) && negb (isString (value this))
      then (Throws (exception "optString" None arguments this), this)
      else (Returns (value this), this)
  | None =>
      if negb (isString (value this))
      then (Throws (exception "string" None arguments this), this)
      else (Returns (value this), this)
  end.

Definition asNumber (arguments : list Val) (this : Builder)
    : Outcome * Builder :=
  if mandatory this then
    if negb (isNumber (value this))
    then (Throws (exception "manNumber" None arguments this), this)
    else (Returns (value this), this)
  else
    let this := undefinedToNull this in
    if negb (isNull (value this)) && negb (isNumber (value this))
    then (Throws (exception "optNumber" None arguments this), this)
    else (Returns (value this), this).

Definition asInteger (arguments : list Val) (this : Builder)
    : Outcome * Builder :=
  if mandatory this then
    if negb (isNumber (value this)) || hasFraction (value this)
    then (Throws (exception "manInteger" None arguments this), this)
    else (Returns (value this), this)
  else
    let this := undefinedToNull this in
    if negb (isNull (value this))
       && (negb (isNumber (value this)) || hasFraction (value this))
    then (Throws (exception "optInteger" None arguments this), this)
    else (Returns (value this), this).

Definition asBoolean (arguments : list Val) (this : Builder)
    : Outcome * Builder :=
  if mandatory this then
    if negb (isBoolean (value this))
    then (Throws (exception "manBoolean" None arguments this), this)
    else (Returns (value this), this)
  else
    let this := undefinedToNull this in
    if negb (isNull (value this)) && negb (isBoolean (value this))
    then (Throws (exception "optBoolean" None arguments this), this)
    else (Returns (value this), this).

Definition asObject (arguments : list Val) (this : Builder)
    : Outcome * Builder :=
  if mandatory this then
    if negb (String.eqb (typeof (value this)) "object") || isNull (value this)
    then (Throws (exception "manObject" None arguments this), this)
    else (Returns (value this), this)
  else
    let this := undefinedToNull this in
    if negb (String.eqb (typeof (value this)) "object")
    then (Throws (exception "optObject" None arguments this), this)
    else (Returns (value this), this).

Definition asFunction (arguments : list Val) (this : Builder)
    : Outcome * Builder :=
  if mandatory this then
    if negb (String.eqb (typeof (value this)) "function")
    then (Throws (exception "manFunction" None arguments this), this)
    else (Returns (value this), this)
  else
    let this := undefinedToNull this in
    if negb (isNull (value this))
       && negb (String.eqb (typeof (value this)) "function")
    then (Throws (exception "optFunction" None arguments this), this)
    else (Returns (value this), this).

(** [Array.prototype.join] with [' | '] *)
Fixpoint join (names : list string) : string :=
  match names with
  | [] => ""
  | [n] => n
  | n :: rest => (n ++ " | " ++ join rest)%string
  end.

Definition typeNames (types : list string) : string :=
  match types with
  | [] => "<< no types >>"
  | _ => join (map (fun name => or_text name "-unknown-") types)
  end.

(** [types.some(function (option) { return self.value && (self.value
    instanceof option || self.value.super_ === option); })] *)
Definition ofSomeType (types : list string) (v : Val) : bool :=
  existsb (fun option => truthy v && (instanceOf v option || super_is v option))
          types.

(** [asType(type, message, ...)], with [types] for [type] or for the one
    type in an array, and [args] for the arguments after it.  Both branches
    throw with the key ['manType']. *)
Definition asType (types : list string) (args : list Val) (this : Builder)
    : Outcome * Builder :=
  if mandatory this then
    if negb (ofSomeType types (value this))
    then (Throws (exception "manType" (Some (AText (typeNames types)))
                    args this), this)
    else (Returns (value this), this)
  else
    let this := undefinedToNull this in
    if negb (isNull (value this)) && negb (ofSomeType types (value this))
    then (Throws (exception "manType" (Some (AText (typeNames types)))
                    args this), this)
    else (Returns (value this), this).

(** [type.name.toLowerCase()] of the three primitive types. *)
Definition lowerName (type : string) : string :=
  if String.eqb type "String" then "string"
  else if String.eqb type "Number" then "number"
  else "boolean".

(** [type === String || type === Number || type === Boolean] *)
Definition isPrimitiveType (type : string) : bool :=
  String.eqb type "String" || String.eqb type "Number"
  || String.eqb type "Boolean".

(** The test one item of an array, or a single value, has to pass. *)
Definition isItem (type : string) (v : Val) : bool :=
  if isPrimitiveType type
  then String.eqb (typeof v) (lowerName type) || instanceOf v type
  else instanceOf v type.

(** [asArray(type, message, ...)], with [args] for the arguments after the
    type.  An array passes when it is empty or every item passes. *)
Definition asArray (type : string) (args : list Val) (this : Builder)
    : Outcome * Builder :=
  if negb (mandatory this)
     && (isUndefined (value this) || isNull (value this))
  then (Returns (Arr []), this)
  else
    let msgKey :=
      if isPrimitiveType type
      then (if mandatory this then "manArrayPrim" else "optArrayPrim")
      else (if mandatory this then "manArray" else "optArray") in
    if isItem type (value this) then (Returns (Arr [value this]), this)
    else match value this with
         | Arr items =>
             if forallb (isItem type) items
             then (Returns (value this), this)
             else (Throws (exception msgKey (Some (ACtor type)) args this),
                   this)
         | _ => (Throws (exception msgKey (Some (ACtor type)) args this),
                 this)
         end.

(** [ArgumentCheckBuilder]: the builder of a group, as it is before its
    first check. *)
Definition ArgumentCheckBuilder (argumentGroup : ArgumentGroup.t)
    (className methodName propertyName : string) : Builder :=
  {| argumentGroup := argumentGroup; className := className;
     methodName := methodName; propertyName := propertyName;
     argumentName := ""; isMandatory := None; value := Undefined |}.

(** [Argument()], [Argument.inConstructor], [Argument.inMethod],
    [Argument.inProperty] *)
Definition ArgumentCheckFactory : Builder :=
  ArgumentCheckBuilder ArgumentGroup.General "" "" "".
Definition inConstructor (className : string) : Builder :=
  ArgumentCheckBuilder ArgumentGroup.Constructor className "" "".
Definition inMethod (className methodName : string) : Builder :=
  ArgumentCheckBuilder ArgumentGroup.Method className methodName "".
Definition inProperty (className propertyName : string) : Builder :=
  ArgumentCheckBuilder ArgumentGroup.Property className "" propertyName.

(** The checks of one kind of primitive or reference value, for statements
    that hold of all of them. *)
Inductive Kind :=
| aString | aNumber | anInteger | aBoolean | anObject | aFunction.

Definition as_ (k : Kind) : list Val -> Builder -> Outcome * Builder :=
  match k with
  | aString => asString
  | aNumber => asNumber
  | anInteger => asInteger
  | aBoolean => asBoolean
  | anObject => asObject
  | aFunction => asFunction
  end.

(** A value of the kind, as the mandatory check of the kind wants it. *)
Definition ofKind (k : Kind) (v : Val) : bool :=
  match k with
  | aString => isString v && negb (trimsToNothing v)
  | aNumber => isNumber v
  | anInteger => isNumber v && negb (hasFraction v)
  | aBoolean => isBoolean v
  | anObject => String.eqb (typeof v) "object" && negb (isNull v)
  | aFunction => String.eqb (typeof v) "function"
  end.

(** [typeof v === t] *)
Definition typed (t : string) (v : Val) : bool := String.eqb (typeof v) t.

End ArgumentCheck.

(** ** rules/rule-base.js *)

Module RuleBase.
Import ArgumentCheck.

Definition CLASS_NAME : string := "Rule".

(** [Math.round]: the nearest whole number, a tie going up. *)
Definition round (x : Number) : Number :=
  match x with
  | Finite q => Finite (inject_Z (Qfloor (Qplus q (1 # 2))))
  | _ => x
  end.

(** The members of a rule object. *)
Record Rule := {
  ruleName : Val;
  message : Val;
  priority : Number;
  stopsProcessing : bool
}.

(** [new ArgumentError('rule')] *)
Definition ruleError : Error :=
  {| class := ArgumentError; args := [AText "rule"] |}.

(** [var RuleBase = function (ruleName)] *)
Definition new (ruleName : Val) : Error + Rule :=
  match fst (asString [] (forMandatory (Some "ruleName")
                            (check ruleName (inConstructor CLASS_NAME)))) with
  | Returns v =>
      inr {| ruleName := v; message := Null; priority := Finite (10 # 1);
             stopsProcessing := false |}
  | Throws e => inl e
  end.

(** The loop of [initialize]: [switch (typeof args[i])].  The rule is
    returned as it is when the loop ends or throws. *)
Fixpoint assignEach (args : list Val) (this : Rule) : option Error * Rule :=
  match args with
  | [] => (None, this)
  | arg :: rest =>
      match arg with
      | Str _ =>
          assignEach rest
            {| ruleName := ruleName this; message := arg;
               priority := priority this;
               stopsProcessing := stopsProcessing this |}
      | Num x =>
          assignEach rest
            {| ruleName := ruleName this; message := message this;
               priority := round x;
               stopsProcessing := stopsProcessing this |}
      | Bool b =>
          assignEach rest
            {| ruleName := ruleName this; message := message this;
               priority := priority this; stopsProcessing := b |}
      | _ => (Some ruleError, this)
      end
  end.

(** [RuleBase.prototype.initialize], called with [arguments]. *)
Definition initialize (arguments : list Val) (this : Rule)
    : option Error * Rule :=
  let args :=
    List.filter (fun arg => negb (isNull arg) && negb (isUndefined arg))
                arguments in
  match assignEach args this with
  | (Some e, this) => (Some e, this)
  | (None, this) =>
      match fst (asString [] (forMandatory (Some "message")
                                (check (message this)
                                   (inMethod CLASS_NAME "initialize")))) with
      | Returns _ => (None, this)
      | Throws e => (Some e, this)
      end
  end.

End RuleBase.

(** ** system/user-info.js: [UserInfo] *)

Module UserInfo.
Import ArgumentCheck.

Definition CLASS_NAME : string := "UserInfo".

(** The private variable behind the property [userCode]. *)
Record t := { userCode : Val }.

(** [function UserInfo (userCode)] *)
Definition new (userCode : Val) : Error + t :=
  match fst (asString [] (forOptional (Some "userCode")
                            (check userCode (inConstructor CLASS_NAME)))) with
  | Returns v => inr {| userCode := v |}
  | Throws e => inl e
  end.

(** The setter of [userCode]. *)
Definition set_userCode (value : Val) (this : t) : option Error * t :=
  match fst (asString [] (forMandatory None
                            (check value
                               (inProperty CLASS_NAME "userCode")))) with
  | Returns v => (None, {| userCode := v |})
  | Throws e => (Some e, this)
  end.

(** A run of assignments to [userCode], each inside its own [try]. *)
Definition assignments (values : list Val) (this : t) : t :=
  foldl (fun u v => snd (set_userCode v u)) this values.

End UserInfo.

(** ** data-types/decimal.js *)

Module Decimal.
Import ArgumentCheck.

(** What [hasValue] does: it returns a Boolean or throws a
    [DataTypeError] with a message key. *)
Inductive Outcome :=
| Returns (b : bool)
| Throws (key : string).

(** [Decimal.prototype.check]: the key of the error it throws, if any. *)
Definition check (value : Val) : option string :=
  if negb (isNull value)
     && negb (String.eqb (typeof value) "number")
     && negb (instanceOf value "Number")
  then Some "decimal" else None.

(** [value != undefined && value != null]: [!=] holds [null] and
    [undefined] equal to each other and to nothing else. *)
Definition hasValue (value : Val) : Outcome :=
  match check value with
  | Some key => Throws key
  | None =>
      Returns (negb (isUndefined value || isNull value)
               && negb (isNull value || isUndefined value))
  end.

End Decimal.

(** ** read-only-child-model.js: [EditableCollectionSync] *)

Module EditableCollectionSync.

Section Collection_.
Context {Item Data Cto : Type}.

(** [itemType.load(parent, dto)] and [item.toCto()], which belong to the
    item type. *)
Variable load : Data -> Completion Item.
Variable item_toCto : Item -> Cto.

(** The state of a collection is its array [items]. *)
Local Abbreviation Run := (M (list Item)).

(** [this.fetch = function (data)], with [None] for a [data] that is not
    an array. *)
Definition fetch (data : option (list Data)) : Run unit :=
  match data with
  | Some dtos =>
      forEach (fun dto =>
                 let! item := (fun items =>
                                 match load dto with
                                 | Normal item => (Normal item, items)
                                 | Throw e => (Throw e, items)
                                 end) in
                 modify (fun items => items ++ [item]))
              dtos
  | None => ret tt
  end.

(** The accessor [count]. *)
Definition count (items : list Item) : nat := List.length items.

(** [this.at = function (index)]: [items[index]], which is [undefined]
    when no item sits at the index. *)
Definition at_ (index : Z) (items : list Item) : option Item :=
  if (index <? 0)%Z then None else nth_error items (Z.to_nat index).

Definition toCto (items : list Item) : list Cto := map item_toCto items.

End Collection_.

End EditableCollectionSync.

(** ** system/user-info.js: [ReadOnlyRootCollectionSync], the data portal *)

Module ReadOnlyRootCollection.

Definition MODEL_DESC : string := "Read-only root collection".
Definition M_FETCH : string := "fetch".

(** The two events of a fetch. *)
Inductive Event := preFetch | postFetch.

(** What the data access object or a custom fetch hands back, as far as
    [data_fetch] looks at it: nothing ([null] or [undefined]), or a value
    with its member [totalItems] and, when it is an array, its elements. *)
Inductive Fetched (Data : Type) :=
| Nothing
| Rows (totalItems : ArgumentCheck.Val) (elements : option (list Data)).
Arguments Nothing {Data}.
Arguments Rows {Data} totalItems elements.

(** What the collection does to the world around it, in order.  [Emit]
    holds the members of the event arguments that vary: the event, the
    method name and the error. *)
Inductive Effect :=
| OpenConnection (dataSource : string)
| CloseConnection (dataSource : string) (connection : Value)
| Emit (event : Event) (methodName : string) (error : option Exn)
| RunMethod (method : string) (connection : Value) (filter : Value)
| CustomFetch (connection : Value) (filter : Value) (method : string).

(** The private variables of one instance, with the journal of its
    effects. *)
Record Instance {Item : Type} := {
  items : list Item;
  brokenRules : list BrokenRule;
  isValidated : bool;
  connection : Value;
  totalItems : ArgumentCheck.Val;
  journal : list Effect
}.
Arguments Instance Item : clear implicits.

(** The arguments of the factory and the collaborators it reaches. *)
Record Model {Item Data : Type} := {
  name : string;
  (* rules.hasPermission(context): the answer and the broken rules after *)
  hasPermission : AuthorizationAction.t -> string -> list BrokenRule
                  -> bool * list BrokenRule;
  (* extensions *)
  dataSource : string;
  dataFetch : option (Value -> Value -> string -> Completion (Fetched Data));
  (* dao.$runMethod(method, connection, filter) *)
  runMethod : string -> Value -> Value -> Completion (Fetched Data);
  (* itemType.load(self, data, eventHandlers) *)
  load : Data -> Completion Item;
  (* config.connectionManager *)
  openConnection : string -> Completion Value;
  closeConnection : string -> Value -> Completion Value;
  (* the listeners subscribed to the events of the instance *)
  listeners : Event -> string -> option Exn -> Completion unit
}.
Arguments Model Item Data : clear implicits.

Section Model_.
Context {Item Data : Type}.
Variable model : Model Item Data.

Local Abbreviation Run := (M (Instance Item)).

(** The constructor: [var items = []; ... var totalItems = null;] *)
Definition new : Instance Item :=
  {| items := []; brokenRules := []; isValidated := false;
     connection := VNull; totalItems := ArgumentCheck.Null; journal := [] |}.

Definition perform (e : Effect) : Run unit :=
  modify (fun i =>
    {| items := items i; brokenRules := brokenRules i;
       isValidated := isValidated i; connection := connection i;
       totalItems := totalItems i; journal := journal i ++ [e] |}).

Definition complete {A} (c : Completion A) : Run A :=
  match c with Normal a => ret a | Throw e => throw e end.

Definition set_connection (c : Value) : Run unit :=
  modify (fun i =>
    {| items := items i; brokenRules := brokenRules i;
       isValidated := isValidated i; connection := c;
       totalItems := totalItems i; journal := journal i |}).

Definition set_totalItems (t : ArgumentCheck.Val) : Run unit :=
  modify (fun i =>
    {| items := items i; brokenRules := brokenRules i;
       isValidated := isValidated i; connection := connection i;
       totalItems := t; journal := journal i |}).

Definition push (item : Item) : Run unit :=
  modify (fun i =>
    {| items := items i ++ [item]; brokenRules := brokenRules i;
       isValidated := isValidated i; connection := connection i;
       totalItems := totalItems i; journal := journal i |}).

(** *** Permissions *)

Definition permitted (a : AuthorizationAction.t) (targetName : string)
    : Run bool :=
  fun i =>
    let '(ok, brs) := hasPermission model a targetName (brokenRules i) in
    (Normal ok,
     {| items := items i; brokenRules := brs;
        isValidated := isValidated i; connection := connection i;
        totalItems := totalItems i; journal := journal i |}).

Definition canDo (a : AuthorizationAction.t) : Run bool := permitted a "".
Definition canExecute (methodName : string) : Run bool :=
  permitted AuthorizationAction.executeMethod methodName.

(** *** Data portal methods *)

Definition raiseEvent (event : Event) (methodName : string)
    (error : option Exn) : Run unit :=
  do! perform (Emit event methodName error) in
  complete (listeners model event methodName error).

Definition wrapError (error : Exn) : Exn :=
  DataPortalError MODEL_DESC (name model) DataPortalAction.fetch error.

Definition open : Run unit :=
  do! perform (OpenConnection (dataSource model)) in
  let! conn := complete (openConnection model (dataSource model)) in
  set_connection conn.

Definition close : Run unit :=
  let! conn := gets connection in
  do! perform (CloseConnection (dataSource model) conn) in
  let! conn' := complete (closeConnection model (dataSource model) conn) in
  set_connection conn'.

(** [dto.totalItems && (typeof dto.totalItems === 'number' ||
    dto.totalItems instanceof Number) && dto.totalItems % 1 === 0] *)
Definition isCount (t : ArgumentCheck.Val) : bool :=
  ArgumentCheck.truthy t && ArgumentCheck.isNumber t
  && negb (ArgumentCheck.hasFraction t).

Definition data_fetch (filter : Value) (method : string) : Run unit :=
  let! allowed :=
    (if String.eqb method M_FETCH then canDo AuthorizationAction.fetchObject
     else canExecute method) in
  if allowed then
    try_catch
      (do! open in
       do! raiseEvent preFetch method None in
       let! conn := gets connection in
       let! dto :=
         match dataFetch model with
         | Some hook =>
             do! perform (CustomFetch conn filter method) in
             complete (hook conn filter method)
         | None =>
             do! perform (RunMethod method conn filter) in
             complete (runMethod model method conn filter)
         end in
       do! match dto with
           | Nothing =>
               throw (TypeError "Cannot read property 'totalItems'")
           | Rows t elements =>
               do! set_totalItems
                     (if isCount t then t else ArgumentCheck.Null) in
               match elements with
               | Some rows =>
                   forEach (fun data =>
                              let! item := complete (load model data) in
                              push item)
                           rows
               | None => ret tt
               end
           end in
       do! raiseEvent postFetch method None in
       close)
      (fun e =>
         let dpError := wrapError e in
         do! raiseEvent postFetch method (Some dpError) in
         do! close in
         throw dpError)
  else ret tt.

(** [this.fetch = function (filter, method)]: [method || M_FETCH]. *)
Definition fetch (filter : Value) (method : option string) : Run unit :=
  data_fetch filter
    (match method with
     | Some m => if String.eqb m "" then M_FETCH else m
     | None => M_FETCH
     end).

End Model_.

End ReadOnlyRootCollection.

(** ** Sample collaborators for the units above *)

Module Samples.

(** A list of addresses fetched from a data access object that hands back
    two rows and their count; a row without text cannot be loaded. *)
Definition AddressList : ReadOnlyRootCollection.Model string string :=
  {| ReadOnlyRootCollection.name := "AddressList";
     ReadOnlyRootCollection.hasPermission := fun _ _ brs => (true, brs);
     ReadOnlyRootCollection.dataSource := "db";
     ReadOnlyRootCollection.dataFetch := None;
     ReadOnlyRootCollection.runMethod :=
       fun method _ _ =>
         if String.eqb method "fetch" then
           Normal (ReadOnlyRootCollection.Rows
                     (ArgumentCheck.Num (ArgumentCheck.Finite (2 # 1)))
                     (Some ["Buda"; "Pest"]))
         else
           Normal (ReadOnlyRootCollection.Rows ArgumentCheck.Undefined
                     (Some ["Buda"; ""; "Pest"]));
     ReadOnlyRootCollection.load :=
       fun data => if String.eqb data ""
                   then Throw (ExternalError "no data")
                   else Normal data;
     ReadOnlyRootCollection.openConnection := fun _ => Normal (VNum 1);
     ReadOnlyRootCollection.closeConnection := fun _ _ => Normal VNull;
     ReadOnlyRootCollection.listeners := fun _ _ _ => Normal tt |}.

(** The loader of the items of a synchronous collection. *)
Definition loadAddress (data : string) : Completion string :=
  if String.eqb data "" then Throw (ExternalError "no data")
  else Normal data.

(** A store read and written through a transfer context. *)
Definition readStore (p : PropertyInfo) : M Dto Value :=
  gets (fun data => DataStore.getValue data p).
Definition writeStore (p : PropertyInfo) (v : Value) : M Dto unit :=
  modify (fun data => <[Shared.name p := v]> data).

End Samples.

(** ** The data portal of the editable root model, seen from outside *)

Module Portal.
Import EditableRootModelSync.

(** Only the store differs. *)
Definition only_store {Child} (s s' : Sys Child) : Prop :=
  exists sto, s' = {| self := set_store sto (self s); journal := journal s |}.

(** The states in which [setPropertyValue] marks nothing: [markAsChanged]
    changes the state of a pristine model and throws on a removed one. *)
Definition loadable (st : option MODEL_STATE.t) : Prop :=
  st <> Some MODEL_STATE.pristine /\ st <> Some MODEL_STATE.removed.

(** [isDirty] agrees with [state]: a model without state or in state
    pristine is not dirty itself, a new model and a model marked for removal
    are. *)
Definition agrees {Child} (i : Instance Child) : Prop :=
  match state i with
  | None | Some MODEL_STATE.pristine => isDirty i = false
  | Some MODEL_STATE.created | Some MODEL_STATE.markedForRemoval =>
      isDirty i = true
  | Some MODEL_STATE.changed | Some MODEL_STATE.removed => True
  end.

(** A run that starts from an instance that agrees ends in one. *)
Definition keeps {Child} (s s' : Sys Child) : Prop :=
  agrees (self s) -> agrees (self s').




(** The methods and accessors a caller has on an instance. *)
Inductive Call :=
| Create
| Fetch (filter : Value) (method : option string)
| Save
| Remove
| ChildHasChanged
| IsValid
| CheckRules
| Get (property : PropertyInfo)
| Set_ (property : PropertyInfo) (value : Value).

Definition call {Child} (model : Model Child) (c : Call)
    : M (Sys Child) unit :=
  match c with
  | Create => create model
  | Fetch filter method => fetch model filter method
  | Save => let! r := save model in ret tt
  | Remove => remove model
  | ChildHasChanged => childHasChanged
  | IsValid => let! r := isValid model in ret tt
  | CheckRules => checkRules model
  | Get p => let! r := property_get model p in ret tt
  | Set_ p v => property_set model p v
  end.

(** A caller that makes one call after the other and goes on when a call
    throws: what the instance holds at the [throw] is kept. *)
Fixpoint calls {Child} (model : Model Child) (cs : list Call)
    (s : Sys Child) : Sys Child :=
  match cs with
  | [] => s
  | c :: cs' => calls model cs' (snd (call model c s))
  end.

(** What a [catch] block does to the world: it launches finish events and
    it rolls back or closes. *)
Definition finishing (e : Effect) : Prop :=
  match e with
  | Emit _ _ | RollbackTransaction _ _ | CloseConnection _ _ => True
  | _ => False
  end.

(** Only the connection differs, and the journal grows by what a [catch]
    block does. *)
Definition winds_up {Child} (s s' : Sys Child) : Prop :=
  exists c d,
    s' = {| self := set_connection c (self s); journal := journal s ++ d |}
    /\ Forall finishing d.

(** The events a [catch] block launches before it undoes. *)
Definition reports {Child} (model : Model Child) (a : DataPortalAction.t)
    (method : option string) (finish : list DataPortalEvent.t) (e : Exn)
    (conn : Value) : list Effect :=
  if truthy conn then
    map (fun ev =>
           Emit ev (getEventArgs model a method (Some (wrapError model a e))))
        finish
  else [].

End Portal.

(** ** Removing an editable child object together with what is below it *)

Module Removal.
Import EditableChildObject.

(** Every object of the tree is in state pristine or changed. *)
Fixpoint allLive (o : Obj) : bool :=
  match o with
  | obj v ks =>
      (stateIs (state v) MODEL_STATE.pristine
       || stateIs (state v) MODEL_STATE.changed)
      && (fix every (ks : list (string * Obj)) : bool :=
            match ks with
            | [] => true
            | (_, child) :: ks' => allLive child && every ks'
            end) ks
  end.

(** The tree with every object marked for removal and dirty itself. *)
Fixpoint marked (o : Obj) : Obj :=
  match o with
  | obj v ks =>
      obj (set_isDirty true (set_state (Some MODEL_STATE.markedForRemoval) v))
          ((fix each (ks : list (string * Obj)) : list (string * Obj) :=
              match ks with
              | [] => []
              | (n, child) :: ks' => (n, marked child) :: each ks'
              end) ks)
  end.

End Removal.

(** ** Sample models for the data portal *)

Module PortalSamples.
Import EditableRootModelSync.


(** A blanket order with one required text property and one slot for its
    items, used by a clerk; what differs from sample to sample are the rules
    and the collaborators. *)
Definition BlanketOrderWith (rules : list AuthorizationRule)
    (daoHasCreate : bool)
    (dao : string -> Value -> DaoArg -> Completion Dto)
    (connect : string -> Completion Value)
    (saveItems : Value -> unit -> Completion unit * unit) : Model unit :=
  {| properties := [Examples.vendorName]; properties_name := "BlanketOrder";
     authorizationRules := rules; user := Examples.clerk;
     validate := Examples.required; clear := fun _ => [];
     dataSource := "db";
     toDto_ext := None; fromDto_ext := None; dataCreate := None;
     dataFetch := None; dataInsert := None; dataUpdate := None;
     dataRemove := None;
     hasCreate := daoHasCreate; runMethod := dao;
     openConnection := connect;
     closeConnection := fun _ _ => Normal VNull;
     beginTransaction := fun _ => Normal (VNum 2);
     commitTransaction := fun _ _ => Normal VNull;
     rollbackTransaction := fun _ _ => Normal VNull;
     listeners := fun _ _ => Normal tt;
     child_remove := fun c => (Normal tt, c);
     child_save := saveItems;
     child_fetch := fun _ c => (Normal tt, c) |}.

(** A data access object that hands back what it is given, and a vendor
    name when it is given no data. *)
Definition echo (method : string) (conn : Value) (arg : DaoArg)
    : Completion Dto :=
  match arg with
  | Data dto => Normal dto
  | _ => Normal (<["vendorName" := VStr "Acme"]> ∅)
  end.


Definition connected (dataSource : string) : Completion Value :=
  Normal (VNum 1).
Definition unreachable (dataSource : string) : Completion Value :=
  Throw (ExternalError "no connection").

Definition saved (conn : Value) (items : unit) : Completion unit * unit :=
  (Normal tt, items).
Definition unsaved (conn : Value) (items : unit) : Completion unit * unit :=
  (Throw (ExternalError "items not saved"), items).

Definition Order := BlanketOrderWith [] true echo connected saved.
Definition UnreachableOrder :=
  BlanketOrderWith [] true echo unreachable saved.
Definition PlainOrder := BlanketOrderWith [] false echo connected saved.
Definition StubbornOrder := BlanketOrderWith [] true echo connected unsaved.

(** The blanket order of [Examples] with a listener that cannot cope with a
    failure: it throws when it is handed an error. *)
Definition NoisyOrder : Model unit :=
  {| properties := [Examples.vendorName]; properties_name := "BlanketOrder";
     authorizationRules := []; user := Examples.clerk;
     validate := Examples.required; clear := fun _ => [];
     dataSource := "db";
     toDto_ext := None; fromDto_ext := None; dataCreate := None;
     dataFetch := None; dataInsert := None; dataUpdate := None;
     dataRemove := None;
     hasCreate := true; runMethod := Examples.dao;
     openConnection := connected;
     closeConnection := fun _ _ => Normal VNull;
     beginTransaction := fun _ => Normal (VNum 2);
     commitTransaction := fun _ _ => Normal VNull;
     rollbackTransaction := fun _ _ => Normal VNull;
     listeners := fun _ args =>
                    match eventError args with
                    | Some _ => Throw (ExternalError "listener failed")
                    | None => Normal tt
                    end;
     child_remove := fun c => (Normal tt, c);
     child_save := saved;
     child_fetch := fun _ c => (Normal tt, c) |}.

(** An order in a given state, with its slot of items. *)
Definition order (st : option MODEL_STATE.t) (dirty : bool) (vendor : Value)
    : Instance unit :=
  {| state := st; isDirty := dirty;
     store := <["vendorName" := vendor]> ∅; kids := [("items", tt)];
     brokenRules := []; isValidated := false; connection := VNull |}.

(** An item with one item below it, in given states. *)
Definition itemTree (st below : option MODEL_STATE.t)
    : EditableChildObject.Obj :=
  EditableChildObject.obj
    (Examples.item st false (VStr "bolt"))
    [("parts",
      EditableChildObject.obj (Examples.item below false (VStr "nut")) [])].

End PortalSamples.
(* ===================================================================== *)
(** * Part II. Properties of the embedding                                *)
(* ===================================================================== *)


(** Unfolding the plumbing of the effect monad, and nothing else. *)
Ltac js_run :=
  cbv beta iota zeta
      delta [bind ret throw gets modify when try_catch defined
             EditableRootModelSync.complete
             fst snd negb
             EditableRootModelSync.have EditableRootModelSync.assign
             EditableRootModelSync.perform].

Ltac js_run_in H :=
  cbv beta iota zeta
      delta [bind ret throw gets modify when try_catch defined
             EditableRootModelSync.complete
             fst snd negb
             EditableRootModelSync.have EditableRootModelSync.assign
             EditableRootModelSync.perform] in H.

(** ** The state machine of the editable root model *)

Module RootStateMachine.
Import EditableRootModelSync Table.

Section Facts.
Context {Child : Type}.
Variable model : Model Child.

(** On every pair of the table but (unset, changed) the root model does what
    the table says, as long as the children accept their own removal. *)
Lemma mark_follows_table (i : Instance Child) (jr : list Effect)
    (to : MODEL_STATE.t) (itself : bool) :
  (state i, to) <> (None, MODEL_STATE.changed) ->
  fst (eachChild (child_remove model) (kids i)) = Normal tt ->
  let '(r, s') := mark model to itself {| self := i; journal := jr |} in
  match spec_table (state i) to with
  | forbidden => r = Throw (transitionError (state i) to) /\ self s' = i
  | _ => r = Normal tt /\ state (self s') = spec_target (state i) to
  end.
Proof.
  intros Hne Hkids.
  destruct i as [st d sto ks brs v c]; cbn in *.
  destruct st as [[]|], to; cbn; try (split; reflexivity); try congruence.
  all: unfold markForRemoval, propagateRemoval, overChildren, bind, have,
         assign, gets, modify; cbn;
       destruct (eachChild (child_remove model) ks) as [r ks'];
       cbn in *; subst r; split; reflexivity.
Qed.

(** The same for an editable child object without children of its own,
    below a parent whose [childHasChanged] returns. *)
Lemma child_mark_follows_table {P} (parent_childHasChanged : M P unit)
    (v : EditableChildObject.Vars) (p : P)
    (to : MODEL_STATE.t) (itself : bool) :
  (EditableChildObject.state v, to) <> (None, MODEL_STATE.changed) ->
  fst (parent_childHasChanged p) = Normal tt ->
  let '(r, (o', p')) :=
    child_mark parent_childHasChanged to itself
      (EditableChildObject.obj v [], p) in
  match spec_table (EditableChildObject.state v) to with
  | forbidden =>
      r = Throw (transitionError (EditableChildObject.state v) to)
      /\ o' = EditableChildObject.obj v [] /\ p' = p
  | _ =>
      r = Normal tt
      /\ EditableChildObject.state (EditableChildObject.vars_of o')
         = spec_target (EditableChildObject.state v) to
  end.
Proof.
  intros Hne Hp.
  destruct v as [m st d sto brs vd]; cbn in *.
  destruct (parent_childHasChanged p) as [[[]|e] p1] eqn:E; cbn in Hp;
    try discriminate.
  destruct st as [[]|], to; cbn;
    unfold EditableChildObject.markForRemoval, EditableChildObject.propagateChange;
    cbn; rewrite ?E; cbn; try (repeat split; reflexivity); try congruence.
  all: js_run; unfold EditableChildObject.assign; js_run; cbn; rewrite ?E; cbn;
       repeat split; reflexivity.
Qed.

(** Loading a value into an instance that was just constructed is how the
    state machine receives [markAsChanged(true)] in the unset state: the
    store reports a change, [setPropertyValue] marks, and nothing happens. *)
Lemma load_into_unset_instance (p : PropertyInfo) (v : Value)
    (values : Dto) (children : list (string * Child)) :
  DataStore.getValue values p <> v ->
  setPropertyValue p v (start (fresh values children))
  = (Normal tt, start (fresh (<[Shared.name p := v]> values) children)).
Proof.
  intros Hne. unfold setPropertyValue, store_setValue, DataStore.setValue.
  js_run. cbn. rewrite bool_decide_eq_true_2 by assumption. reflexivity.
Qed.

(** C1. The spec's table marks (unset, changed) forbidden and fatal, and so
    does the table in the comment above the mark functions ("N: impossible
    start up, throws exception").  The code does not throw there:
    [markAsChanged] on an instance whose state is still unset (null) completes
    normally and changes nothing, for either value of its argument, in the
    editable root model and in the editable child object alike. *)
Theorem C1_markAsChanged_on_unset_state_is_silent {P : Type}
    (values : Dto) (children : list (string * Child)) (itself : bool)
    (jr : list Effect)
    (parent_childHasChanged : M P unit) (parent : P)
    (childModel : EditableChildObject.Model) :
  spec_table None MODEL_STATE.changed = forbidden
  /\ markAsChanged itself {| self := fresh values children; journal := jr |}
     = (Normal tt, {| self := fresh values children; journal := jr |})
  /\ EditableChildObject.markAsChanged parent_childHasChanged itself
       (EditableChildObject.fresh childModel values, parent)
     = (Normal tt, (EditableChildObject.fresh childModel values, parent)).
Proof. repeat split. Qed.

End Facts.
End RootStateMachine.

(** ** Saving an editable root model *)

Module RootSave.
Import EditableRootModelSync Frames.

(** Reading a private variable after assignments. *)
Ltac vars :=
  cbn [fst snd self journal state isDirty store kids brokenRules isValidated
       connection set_state set_isDirty set_store set_kids set_brokenRules
       set_isValidated set_connection].

Ltac vars_in H :=
  cbn [fst snd self journal state isDirty store kids brokenRules isValidated
       connection set_state set_isDirty set_store set_kids set_brokenRules
       set_isValidated set_connection] in H.

(** A journal built from effects that are no data access calls. *)
Ltac all_notDao :=
  repeat first
    [ assumption | exact I | apply Forall_app; split
    | match goal with |- context [if ?c then _ else _] => destruct c end
    | constructor ].

Section Facts.
Context {Child : Type}.
Variable model : Model Child.

Local Abbreviation Run := (M (Sys Child)).

(** *** Composing what the parts of a computation preserve *)

Section Preserves.
Variable R : Sys Child -> Sys Child -> Prop.
Hypothesis R_refl : forall s, R s s.
Hypothesis R_trans : forall s1 s2 s3, R s1 s2 -> R s2 s3 -> R s1 s3.

Lemma preserves_ret {A} (a : A) : preserves R (ret a).
Proof. intros s. apply R_refl. Qed.

Lemma preserves_throw {A} (e : Exn) : preserves R (@throw _ A e).
Proof. intros s. apply R_refl. Qed.

Lemma preserves_have {A} (f : Instance Child -> A) : preserves R (have f).
Proof. intros s. apply R_refl. Qed.

Lemma preserves_complete {A} (c : Completion A) : preserves R (complete c).
Proof. intros s. destruct c; apply R_refl. Qed.

Lemma preserves_bind {A B} (m : Run A) (k : A -> Run B) :
  preserves R m -> (forall a, preserves R (k a)) -> preserves R (bind m k).
Proof.
  intros Hm Hk s. unfold bind. specialize (Hm s).
  destruct (m s) as [[a|e] s1]; cbn in *; [|assumption].
  eapply R_trans; [eassumption | apply Hk].
Qed.

Lemma preserves_try_catch {A} (m : Run A) (h : Exn -> Run A) :
  preserves R m -> (forall e, preserves R (h e)) -> preserves R (try_catch m h).
Proof.
  intros Hm Hh s. unfold try_catch. specialize (Hm s).
  destruct (m s) as [[a|e] s1]; cbn in *; [assumption|].
  eapply R_trans; [eassumption | apply Hh].
Qed.

Lemma preserves_when (c : bool) (m : Run unit) :
  preserves R m -> preserves R (when c m).
Proof. intros Hm. destruct c; [exact Hm | apply preserves_ret]. Qed.

Lemma preserves_forEach {A} (f : A -> Run unit) (xs : list A) :
  (forall x, preserves R (f x)) -> preserves R (forEach f xs).
Proof.
  intros Hf. induction xs as [|x xs IH]; cbn [forEach].
  - apply preserves_ret.
  - apply preserves_bind; [apply Hf | intros _; exact IH].
Qed.

End Preserves.

Lemma rules_only_refl (s : Sys Child) : rules_only s s.
Proof.
  exists (brokenRules (self s)), (isValidated (self s)).
  destruct s as [[] j]; reflexivity.
Qed.

Lemma rules_only_trans (s1 s2 s3 : Sys Child) :
  rules_only s1 s2 -> rules_only s2 s3 -> rules_only s1 s3.
Proof.
  intros (b1 & v1 & ->) (b2 & v2 & ->). exists b2, v2. reflexivity.
Qed.

Lemma validate_rules_only p s :
  fst (validate_ model p s) = Normal tt /\ rules_only s (snd (validate_ model p s)).
Proof.
  split; [reflexivity|].
  destruct s as [[st d sto ks brs v c] j].
  exists (validate model p sto brs), v. reflexivity.
Qed.

Lemma forEach_validate_rules_only ps s :
  fst (forEach (validate_ model) ps s) = Normal tt
  /\ rules_only s (snd (forEach (validate_ model) ps s)).
Proof.
  revert s; induction ps as [|p ps IH]; intros s; cbn [forEach].
  - split; [reflexivity | apply rules_only_refl].
  - unfold bind.
    destruct (validate_rules_only p s) as [Hr Hs].
    destruct (validate_ model p s) as [[[]|e] s1]; cbn in *; try discriminate.
    destruct (IH s1) as [Hr' Hs']. split; [exact Hr'|].
    eapply rules_only_trans; [exact Hs | exact Hs'].
Qed.

Lemma checkRules_rules_only s :
  fst (checkRules model s) = Normal tt
  /\ rules_only s (snd (checkRules model s)).
Proof.
  unfold checkRules; js_run.
  match goal with |- context [forEach _ _ ?s1] =>
    destruct (forEach_validate_rules_only (properties model) s1) as [Hr Hs];
    destruct (forEach (validate_ model) (properties model) s1)
      as [[[]|e] s2] eqn:E; cbn in *; try discriminate
  end.
  split; [reflexivity|].
  destruct Hs as (b & v & ->). exists b, true. reflexivity.
Qed.

(** [isValid] always answers, with the verdict of the broken rule list it
    leaves behind. *)
Lemma isValid_answers s :
  exists s', isValid model s
             = (Normal (BrokenRuleList.isValid (brokenRules (self s'))), s')
             /\ rules_only s s'.
Proof.
  unfold isValid; js_run.
  destruct (isValidated (self s)); js_run.
  - eexists; split; [reflexivity | apply rules_only_refl].
  - destruct (checkRules_rules_only s) as [Hr Hs].
    destruct (checkRules model s) as [[[]|e] s1]; cbn in Hr, Hs; try discriminate.
    eexists; split; [reflexivity | assumption].
Qed.

(** *** What the parts of [save] leave alone *)

Lemma steady_refl (s : Sys Child) : steady s s.
Proof. repeat split; auto. Qed.

Lemma steady_trans (s1 s2 s3 : Sys Child) :
  steady s1 s2 -> steady s2 s3 -> steady s1 s3.
Proof.
  intros (H1 & H2 & H3) (H4 & H5 & H6).
  repeat split; [congruence | congruence | auto].
Qed.

Lemma quiet_refl (s : Sys Child) : quiet s s.
Proof. reflexivity. Qed.

Lemma quiet_trans (s1 s2 s3 : Sys Child) :
  quiet s1 s2 -> quiet s2 s3 -> quiet s1 s3.
Proof. unfold quiet; congruence. Qed.

Lemma extends_refl P (s : Sys Child) : extends P s s.
Proof. exists []. split; [symmetry; apply app_nil_r | constructor]. Qed.

Lemma extends_trans P (s1 s2 s3 : Sys Child) :
  extends P s1 s2 -> extends P s2 s3 -> extends P s1 s3.
Proof.
  intros (d1 & E1 & F1) (d2 & E2 & F2). exists (d1 ++ d2). split.
  - rewrite E2, E1. symmetry. apply app_assoc.
  - apply Forall_app; split; assumption.
Qed.

Lemma quiet_extends {A} P (m : Run A) :
  preserves quiet m -> preserves (extends P) m.
Proof.
  intros H s. exists []. split; [|constructor].
  rewrite (H s). symmetry. apply app_nil_r.
Qed.

Lemma steady_quiet {A} (m : Run A) : preserves steady m -> preserves quiet m.
Proof. intros H s. apply (H s). Qed.

Lemma rules_only_quiet (s s' : Sys Child) : rules_only s s' -> quiet s s'.
Proof. intros (b & v & ->). reflexivity. Qed.

Lemma quiet_assign (f : Instance Child -> Instance Child) :
  preserves quiet (assign f).
Proof. intros s. reflexivity. Qed.

Lemma extends_perform (P : Effect -> Prop) (e : Effect) :
  P e -> preserves (extends P) (perform (Child:=Child) e).
Proof.
  intros He s. exists [e]. split; [reflexivity | repeat constructor; exact He].
Qed.

(** The mark functions journal nothing. *)
Lemma quiet_markAsPristine : preserves (@quiet Child) markAsPristine.
Proof.
  intros s. unfold markAsPristine, illegal; js_run.
  repeat match goal with |- context [if ?c then _ else _] => destruct c end;
    reflexivity.
Qed.

Lemma quiet_markAsRemoved : preserves (@quiet Child) markAsRemoved.
Proof.
  intros s. unfold markAsRemoved, illegal; js_run.
  repeat match goal with |- context [if ?c then _ else _] => destruct c end;
    reflexivity.
Qed.

Lemma quiet_markAsCreated : preserves (@quiet Child) markAsCreated.
Proof.
  intros s. unfold markAsCreated, illegal; js_run.
  repeat match goal with |- context [if ?c then _ else _] => destruct c end;
    reflexivity.
Qed.

(** [markAsChanged] journals nothing and keeps a changed model changed. *)
Lemma steady_markAsChanged (itself : bool) :
  preserves (@steady Child) (markAsChanged itself).
Proof.
  intros [[st d sto ks brs v c] j]. unfold markAsChanged, illegal; js_run.
  destruct st as [[]|]; cbn; repeat split; auto; discriminate.
Qed.

Lemma steady_getPropertyValue p : preserves steady (getPropertyValue (Child:=Child) p).
Proof. intros s. apply steady_refl. Qed.

Lemma steady_setPropertyValue p v :
  preserves steady (setPropertyValue (Child:=Child) p v).
Proof.
  unfold setPropertyValue.
  apply preserves_bind; [apply steady_trans | |].
  - intros [[st d sto ks brs vd c] j]. unfold store_setValue; js_run.
    cbn. repeat split; auto.
  - intros ch. apply preserves_when; [apply steady_refl|].
    apply steady_markAsChanged.
Qed.

Lemma steady_getByName ps n :
  preserves steady (TransferContext.getByName (S:=Sys Child) ps n).
Proof.
  induction ps as [|p ps IH]; cbn [TransferContext.getByName].
  - apply preserves_throw, steady_refl.
  - destruct (String.eqb (Shared.name p) n);
      [apply preserves_ret, steady_refl | exact IH].
Qed.

(** An extension point run against [getPropertyValue] and
    [setPropertyValue] journals nothing and keeps a changed model changed. *)
Lemma steady_runScript {R} (sc : Script R) :
  preserves steady
    (TransferContext.runScript (S:=Sys Child) (properties model)
       (Some getPropertyValue) (Some setPropertyValue) sc).
Proof.
  induction sc as [r | n k IH | n v k IH | e]; cbn [TransferContext.runScript].
  - apply preserves_ret, steady_refl.
  - apply preserves_bind; [apply steady_trans | | intros v; apply IH].
    unfold TransferContext.getValue, TransferContext.asMandatoryString.
    apply preserves_bind; [apply steady_trans | |].
    + destruct (blank n);
        [apply preserves_throw | apply preserves_ret]; apply steady_refl.
    + intros n'. apply preserves_bind; [apply steady_trans | |].
      * apply steady_getByName.
      * intros p. apply steady_getPropertyValue.
  - apply preserves_bind; [apply steady_trans | | intros _; exact IH].
    unfold TransferContext.setValue, TransferContext.asMandatoryString.
    apply preserves_bind; [apply steady_trans | |].
    + destruct (blank n);
        [apply preserves_throw | apply preserves_ret]; apply steady_refl.
    + intros n'.
      assert (Hset : preserves steady
                (let! p := TransferContext.getByName (S:=Sys Child)
                             (properties model) n' in
                 setPropertyValue p v)).
      { apply preserves_bind; [apply steady_trans | |].
        - apply steady_getByName.
        - intros p. apply steady_setPropertyValue. }
      destruct v; try exact Hset. apply preserves_ret, steady_refl.
  - apply preserves_throw, steady_refl.
Qed.

Lemma steady_toDto : preserves steady (toDto model).
Proof.
  unfold toDto, withTransferContext.
  destruct (toDto_ext model); [apply steady_runScript|].
  intros s. apply steady_refl.
Qed.

Lemma steady_fromDto dto : preserves steady (fromDto model dto).
Proof.
  unfold fromDto, withTransferContext, baseFromDto.
  destruct (fromDto_ext model); [apply steady_runScript|].
  apply preserves_forEach; [apply steady_refl | apply steady_trans |].
  intros p. destruct (dto !! Shared.name p);
    [apply steady_setPropertyValue | apply preserves_ret, steady_refl].
Qed.

Lemma quiet_overChildren op : preserves quiet (overChildren (Child:=Child) op).
Proof.
  intros s. unfold overChildren.
  destruct (eachChild op (kids (self s))); reflexivity.
Qed.

(** *** The effects of an update, step by step *)

Lemma begin_eq (s : Sys Child) :
  begin model s
  = match beginTransaction model (dataSource model) with
    | Normal c =>
        (Normal tt,
         {| self := set_connection c (self s);
            journal := journal s ++ [BeginTransaction (dataSource model)] |})
    | Throw e =>
        (Throw e,
         {| self := self s;
            journal := journal s ++ [BeginTransaction (dataSource model)] |})
    end.
Proof.
  unfold begin; js_run.
  destruct (beginTransaction model (dataSource model)); reflexivity.
Qed.

Lemma emit_eq ev args (s : Sys Child) :
  emit model ev args s
  = (listeners model ev args,
     {| self := self s; journal := journal s ++ [Emit ev args] |}).
Proof.
  unfold emit; js_run. destruct (listeners model ev args) as [[]|]; reflexivity.
Qed.

Lemma emit_notDao ev args : preserves (extends notDao) (emit model ev args).
Proof.
  intros s. rewrite emit_eq. exists [Emit ev args].
  split; [reflexivity | repeat constructor].
Qed.

Lemma rollback_eq (s : Sys Child) :
  rollback model s
  = match rollbackTransaction model (dataSource model) (connection (self s))
    with
    | Normal c =>
        (Normal tt,
         {| self := set_connection c (self s);
            journal := journal s
                       ++ [RollbackTransaction (dataSource model)
                             (connection (self s))] |})
    | Throw e =>
        (Throw e,
         {| self := self s;
            journal := journal s
                       ++ [RollbackTransaction (dataSource model)
                             (connection (self s))] |})
    end.
Proof.
  unfold rollback; js_run.
  destruct (rollbackTransaction model (dataSource model) (connection (self s)));
    reflexivity.
Qed.

Lemma rollback_notDao : preserves (extends notDao) (rollback model).
Proof.
  intros s. rewrite rollback_eq.
  exists [RollbackTransaction (dataSource model) (connection (self s))].
  destruct (rollbackTransaction model (dataSource model) (connection (self s)));
    (split; [reflexivity | repeat constructor]).
Qed.

Lemma dao_runMethod_eq method arg (s : Sys Child) :
  dao_runMethod model method arg s
  = (runMethod model method (connection (self s)) arg,
     {| self := self s;
        journal := journal s ++ [RunMethod method (connection (self s)) arg] |}).
Proof.
  unfold dao_runMethod; js_run.
  destruct (runMethod model method (connection (self s)) arg); reflexivity.
Qed.

(** The [catch] block of an update, whatever the listeners and the rollback
    do: it emits events and rolls back, and does nothing else to the world;
    it throws; it leaves the state of the model alone. *)
Lemma failed_update_effects {A} e :
  preserves (extends reportsOrUndoes)
    (failed (A:=A) model DataPortalAction.update None
       [DataPortalEvent.postUpdate; DataPortalEvent.postSave]
       (rollback model) e).
Proof.
  unfold failed.
  apply preserves_bind; [apply extends_trans | apply preserves_have, extends_refl |].
  intros conn. apply preserves_bind; [apply extends_trans | |].
  { apply preserves_when; [apply extends_refl|].
    apply preserves_forEach; [apply extends_refl | apply extends_trans |].
    intros ev s. rewrite emit_eq. eexists.
    split; [reflexivity | repeat constructor]. }
  intros _. apply preserves_bind; [apply extends_trans | |].
  { intros s. rewrite rollback_eq.
    destruct (rollbackTransaction model _ _); eexists;
      (split; [reflexivity | repeat constructor]). }
  intros _. apply preserves_throw, extends_refl.
Qed.

Lemma reportsOrUndoes_notDao (d : list Effect) :
  Forall reportsOrUndoes d -> Forall notDao d.
Proof.
  intros H. eapply Forall_impl; [exact H|]. intros []; cbn; tauto.
Qed.

Lemma reportsOrUndoes_no_commit (d : list Effect) ds c :
  Forall reportsOrUndoes d -> ~ In (CommitTransaction ds c) d.
Proof.
  intros H Hin. rewrite Forall_forall in H.
  apply list_elem_of_In in Hin. exact (H _ Hin).
Qed.

Lemma failed_update_throws {A} e (s : Sys Child) :
  let out :=
    failed (A:=A) model DataPortalAction.update None
      [DataPortalEvent.postUpdate; DataPortalEvent.postSave]
      (rollback model) e s in
  threw (fst out) = true /\ state (self (snd out)) = state (self s).
Proof.
  cbv zeta.
  destruct (failed _ _ _ _ _ e s) as [r sf] eqn:E. cbn [fst snd].
  unfold failed in E. unfold bind at 1 in E.
  change (have connection s) with (Normal (connection (self s)), s) in E.
  cbv beta iota in E. unfold bind at 1 in E.
  destruct (truthy (connection (self s))); cbn [when forEach] in E.
  - unfold bind at 1 in E. rewrite emit_eq in E.
    destruct (listeners model _ _) as [[]|];
      [|injection E as <- <-; split; reflexivity].
    unfold bind at 1 in E. rewrite emit_eq in E.
    destruct (listeners model _ _) as [[]|];
      [|injection E as <- <-; split; reflexivity].
    change (ret tt ?st) with (Normal tt, st) in E. cbv beta iota in E.
    unfold bind at 1 in E. rewrite rollback_eq in E.
    destruct (rollbackTransaction model _ _);
      injection E as <- <-; split; reflexivity.
  - change (ret tt ?st) with (Normal tt, st) in E. cbv beta iota in E.
    unfold bind at 1 in E. rewrite rollback_eq in E.
    destruct (rollbackTransaction model _ _);
      injection E as <- <-; split; reflexivity.
Qed.

(** The [catch] block of an update when the listeners of its two events and
    the rollback return. *)
Lemma failed_update_eq {A} e c' (s : Sys Child) :
  (forall ev args,
     eventError args = Some (wrapError model DataPortalAction.update e) ->
     listeners model ev args = Normal tt) ->
  rollbackTransaction model (dataSource model) (connection (self s))
  = Normal c' ->
  failed (A:=A) model DataPortalAction.update None
    [DataPortalEvent.postUpdate; DataPortalEvent.postSave] (rollback model) e s
  = (Throw (wrapError model DataPortalAction.update e),
     {| self := set_connection c' (self s);
        journal :=
          journal s
          ++ (if truthy (connection (self s)) then
                [Emit DataPortalEvent.postUpdate
                   (getEventArgs model DataPortalAction.update None
                      (Some (wrapError model DataPortalAction.update e)));
                 Emit DataPortalEvent.postSave
                   (getEventArgs model DataPortalAction.update None
                      (Some (wrapError model DataPortalAction.update e)))]
              else [])
          ++ [RollbackTransaction (dataSource model) (connection (self s))] |}).
Proof.
  intros Hl Hrb. unfold failed. unfold bind at 1.
  change (have connection s) with (Normal (connection (self s)), s).
  cbv beta iota. unfold bind at 1.
  destruct (truthy (connection (self s))); cbn [when forEach].
  - unfold bind at 1. rewrite emit_eq, Hl by reflexivity.
    unfold bind at 1. rewrite emit_eq, Hl by reflexivity.
    change (ret tt ?st) with (Normal tt, st). cbv beta iota.
    unfold bind at 1. rewrite rollback_eq. vars. rewrite Hrb.
    unfold throw. vars. rewrite <- !app_assoc. reflexivity.
  - change (ret tt ?st) with (Normal tt, st). cbv beta iota.
    unfold bind at 1. rewrite rollback_eq, Hrb. reflexivity.
Qed.

Lemma canDo_eq a (s : Sys Child) :
  exists ok brs,
    canDo model a s
    = (Normal ok,
       {| self := set_brokenRules brs (self s); journal := journal s |}).
Proof.
  unfold canDo, hasPermission; js_run.
  destruct (RuleManager.hasPermission _ _ _ _ _) as [ok brs].
  exists ok, brs. reflexivity.
Qed.

Lemma hook_notDao {R} (extension : string) (sc : Script R) :
  preserves (extends notDao) (withDataContext model extension sc).
Proof.
  unfold withDataContext.
  apply preserves_bind; [apply extends_trans | |].
  - apply extends_perform. exact I.
  - intros _. apply quiet_extends, steady_quiet, steady_runScript.
Qed.

(** What follows the data access call inside the [try] block. *)
Lemma update_rest_notDao :
  preserves (extends notDao)
    (let! conn := have connection in
     do! updateChildren model conn in
     do! markAsPristine in
     do! emit model DataPortalEvent.postUpdate
           (getEventArgs model DataPortalAction.update None None) in
     do! emit model DataPortalEvent.postSave
           (getEventArgs model DataPortalAction.update None None) in
     commit model).
Proof.
  apply preserves_bind; [apply extends_trans | apply preserves_have, extends_refl |].
  intros conn.
  apply preserves_bind; [apply extends_trans | |].
  { apply quiet_extends, quiet_overChildren. }
  intros _. apply preserves_bind; [apply extends_trans | |].
  { apply quiet_extends, quiet_markAsPristine. }
  intros _. apply preserves_bind; [apply extends_trans | apply emit_notDao |].
  intros _. apply preserves_bind; [apply extends_trans | apply emit_notDao |].
  intros _. unfold commit.
  apply preserves_bind; [apply extends_trans | apply preserves_have, extends_refl |].
  intros c. apply preserves_bind; [apply extends_trans | |].
  { apply extends_perform. exact I. }
  intros _. apply preserves_bind; [apply extends_trans | |].
  { apply preserves_complete, extends_refl. }
  intros c'. apply quiet_extends, quiet_assign.
Qed.

(** The data access call and what follows it, once [toDto] has answered. *)
Lemma update_tail_notDao dto :
  preserves (extends notDao)
    (do! fromDto model dto in
     let! conn := have connection in
     do! updateChildren model conn in
     do! markAsPristine in
     do! emit model DataPortalEvent.postUpdate
           (getEventArgs model DataPortalAction.update None None) in
     do! emit model DataPortalEvent.postSave
           (getEventArgs model DataPortalAction.update None None) in
     commit model).
Proof.
  apply preserves_bind; [apply extends_trans | |].
  - apply quiet_extends, steady_quiet, steady_fromDto.
  - intros _. apply update_rest_notDao.
Qed.

Lemma In_notDao method c arg (d : list Effect) :
  Forall notDao d -> ~ In (RunMethod method c arg) d.
Proof.
  intros H Hin. rewrite Forall_forall in H.
  apply list_elem_of_In in Hin. exact (H _ Hin).
Qed.

(** Reading off what a run of the [catch] block added to the journal. *)
Ltac via_catch E df Hjf Hdf :=
  match type of E with
  | failed _ _ _ _ _ ?e ?st = _ =>
      pose proof (failed_update_effects (A:=unit) e st) as (df & Hjf & Hdf);
      rewrite E in Hjf; cbn [snd] in Hjf; vars_in Hjf;
      pose proof (reportsOrUndoes_notDao _ Hdf)
  end.

Lemma data_update_spec (s : Sys Child) :
  state (self s) = Some MODEL_STATE.changed ->
  exists d,
    journal (snd (data_update model s)) = journal s ++ d
    /\ (Forall notDao d
        \/ exists d1 d2 c dto,
             d = d1 ++ [RunMethod "update" c (Data dto)] ++ d2
             /\ Forall notDao d1 /\ Forall notDao d2
             /\ forall e,
                  runMethod model "update" c (Data dto) = Throw e ->
                  threw (fst (data_update model s)) = true
                  /\ (forall c', ~ In (CommitTransaction (dataSource model) c') d)
                  /\ state (self (snd (data_update model s)))
                     = Some MODEL_STATE.changed
                  /\ forall c',
                       (forall ev args,
                          eventError args
                          = Some (wrapError model DataPortalAction.update e) ->
                          listeners model ev args = Normal tt) ->
                       rollbackTransaction model (dataSource model) c
                       = Normal c' ->
                       fst (data_update model s)
                       = Throw (wrapError model DataPortalAction.update e)
                       /\ In (RollbackTransaction (dataSource model) c) d2).
Proof.
  intros Hst.
  destruct (data_update model s) as [r s'] eqn:E.
  unfold data_update in E. unfold bind at 1 in E.
  destruct (canDo_eq AuthorizationAction.updateObject s) as (ok & brs & Hc).
  rewrite Hc in E. clear Hc.
  destruct ok.
  2:{ injection E as <- <-. exists []. split; [symmetry; apply app_nil_r|].
      left; constructor. }
  unfold try_catch in E. unfold bind at 1 in E. rewrite begin_eq in E.
  destruct (beginTransaction model (dataSource model)) as [c0|e0].
  2:{ via_catch E df Hjf Hdf. eexists. split.
      - cbn [snd]. rewrite Hjf, <- !app_assoc. reflexivity.
      - left. all_notDao. }
  unfold bind at 1 in E. rewrite emit_eq in E.
  destruct (listeners model DataPortalEvent.preSave _) as [[]|el].
  2:{ via_catch E df Hjf Hdf. eexists. split.
      - cbn [snd]. rewrite Hjf, <- !app_assoc. reflexivity.
      - left. all_notDao. }
  unfold bind at 1 in E. rewrite emit_eq in E.
  destruct (listeners model DataPortalEvent.preUpdate _) as [[]|el].
  2:{ via_catch E df Hjf Hdf. eexists. split.
      - cbn [snd]. rewrite Hjf, <- !app_assoc. reflexivity.
      - left. all_notDao. }
  vars_in E.
  assert (Hpre : Forall notDao
            [BeginTransaction (dataSource model);
             Emit DataPortalEvent.preSave
               (getEventArgs model DataPortalAction.update None None);
             Emit DataPortalEvent.preUpdate
               (getEventArgs model DataPortalAction.update None None)])
    by (repeat constructor).
  destruct (dataUpdate model) as [hook|].
  { (* a custom update: the data access object is not called by the model *)
    match type of E with (let (_, _) := ?m ?st in _) = _ =>
      assert (Hx : extends notDao st (snd (m st)))
        by (apply preserves_bind;
            [apply extends_trans | apply hook_notDao
            | intros _; apply update_rest_notDao]);
      destruct (m st) as [[a|e1] s4]
    end; destruct Hx as (dx & Hj & Hdx); vars_in Hj.
    - injection E as <- <-. eexists. split.
      + cbn [snd]. rewrite Hj, <- !app_assoc. reflexivity.
      + left. all_notDao.
    - via_catch E df Hjf Hdf. eexists. split.
      + cbn [snd]. rewrite Hjf, Hj, <- !app_assoc. reflexivity.
      + left. all_notDao. }
  unfold bind at 1 in E. unfold bind at 1 in E.
  change (have isDirty ?st) with (Normal (isDirty (self st)), st) in E.
  cbv beta iota in E. vars_in E.
  destruct (isDirty (self s)).
  2:{ (* nothing to update on the model itself *)
    change (ret tt ?st) with (Normal tt, st) in E. cbv beta iota in E.
    match type of E with (let (_, _) := ?m ?st in _) = _ =>
      pose proof (update_rest_notDao st) as Hx;
      destruct (m st) as [[a|e1] s4]
    end; destruct Hx as (dx & Hj & Hdx); vars_in Hj.
    - injection E as <- <-. eexists. split.
      + cbn [snd]. rewrite Hj, <- !app_assoc. reflexivity.
      + left. all_notDao.
    - via_catch E df Hjf Hdf. eexists. split.
      + cbn [snd]. rewrite Hjf, Hj, <- !app_assoc. reflexivity.
      + left. all_notDao. }
  (* the standard update *)
  unfold bind at 1 in E.
  match type of E with context [toDto model ?st] =>
    destruct (steady_toDto st) as (Hj3 & Hc3 & Hst3);
    destruct (toDto model st) as [[dto|e1] s3]
  end; vars_in Hj3; vars_in Hc3; vars_in Hst3; specialize (Hst3 Hst).
  2:{ via_catch E df Hjf Hdf. eexists. split.
      + cbn [snd]. rewrite Hjf, Hj3, <- !app_assoc. reflexivity.
      + left. all_notDao. }
  unfold bind at 1 in E. rewrite dao_runMethod_eq in E. cbv beta iota in E.
  destruct (runMethod model "update" (connection (self s3)) (Data dto))
    as [dto'|e2] eqn:Hrun.
  - (* the data access object answered *)
    match type of E with context [fromDto model dto' ?st] =>
      pose proof (steady_quiet _ (steady_fromDto dto') st) as Hj4;
      destruct (fromDto model dto' st) as [[a|e1] s4]
    end; unfold quiet in Hj4; vars_in Hj4.
    + match type of E with (let (_, _) := ?m ?st in _) = _ =>
        pose proof (update_rest_notDao st) as Hx;
        destruct (m st) as [[a'|e1] s5]
      end; destruct Hx as (dx & Hj & Hdx); vars_in Hj.
      * injection E as <- <-. eexists. split.
        { vars. rewrite Hj, Hj4, Hj3, <- !app_assoc. reflexivity. }
        right. exists [BeginTransaction (dataSource model);
                       Emit DataPortalEvent.preSave
                         (getEventArgs model DataPortalAction.update None None);
                       Emit DataPortalEvent.preUpdate
                         (getEventArgs model DataPortalAction.update None None)],
                 dx, (connection (self s3)), dto.
        repeat split; [assumption | assumption | congruence ..].
      * via_catch E df Hjf Hdf. eexists. split.
        { vars. rewrite Hjf, Hj, Hj4, Hj3, <- !app_assoc. reflexivity. }
        right. eexists [BeginTransaction (dataSource model);
                        Emit DataPortalEvent.preSave
                          (getEventArgs model DataPortalAction.update None None);
                        Emit DataPortalEvent.preUpdate
                          (getEventArgs model DataPortalAction.update None None)],
                 _, (connection (self s3)), dto.
        split; [reflexivity|]. split; [assumption|].
        split; [all_notDao | congruence].
    + via_catch E df Hjf Hdf. eexists. split.
      { vars. rewrite Hjf, Hj4, Hj3, <- !app_assoc. reflexivity. }
      right. eexists [BeginTransaction (dataSource model);
                      Emit DataPortalEvent.preSave
                        (getEventArgs model DataPortalAction.update None None);
                      Emit DataPortalEvent.preUpdate
                        (getEventArgs model DataPortalAction.update None None)],
               _, (connection (self s3)), dto.
      split; [reflexivity|]. split; [assumption|].
      split; [all_notDao | congruence].
  - (* the data access object threw *)
    pose proof E as E'. via_catch E' df Hjf Hdf. eexists. split.
    { vars. rewrite Hjf, Hj3, <- !app_assoc. reflexivity. }
    right. eexists [BeginTransaction (dataSource model);
                    Emit DataPortalEvent.preSave
                      (getEventArgs model DataPortalAction.update None None);
                    Emit DataPortalEvent.preUpdate
                      (getEventArgs model DataPortalAction.update None None)],
             df, (connection (self s3)), dto.
    split; [reflexivity|]. split; [assumption|].
    split; [assumption|].
    intros e He. rewrite Hrun in He. injection He as <-.
    match type of E with ?m ?st = _ =>
      destruct (failed_update_throws (A:=unit) e2 st) as (Hthrew & Hkept)
    end.
    rewrite E in Hthrew, Hkept. cbn [fst snd] in Hthrew, Hkept. vars_in Hkept.
    split; [exact Hthrew|]. split.
    { intros c' Hin. cbn in Hin.
      repeat (destruct Hin as [Hin | Hin]; [discriminate|]).
      exact (reportsOrUndoes_no_commit _ _ _ Hdf Hin). }
    split; [vars; congruence|].
    intros c' Hl Hrb.
    rewrite (failed_update_eq e2 c') in E by (vars; assumption).
    injection E as <- <-. vars_in Hjf.
    apply app_inv_head in Hjf. subst df. vars.
    split; [reflexivity|].
    apply in_or_app. right. left. reflexivity.
Qed.

End Facts.
End RootSave.

Module RootLifecycle.
Import EditableRootModelSync Frames RootSave.

Section Facts.
Context {Child : Type}.
Variable model : Model Child.

(** C5, amended. On a pristine editable root model [save()] performs no
    data access call (it has no effect on the outside at all) and leaves the
    state pristine; it returns the same instance when the model is valid and
    [undefined] when it is not. *)
Theorem C5_save_on_pristine (i : Instance Child) (jr : list Effect) :
  state i = Some MODEL_STATE.pristine ->
  let out := save model {| self := i; journal := jr |} in
  fst out = Normal (if BrokenRuleList.isValid (brokenRules (self (snd out)))
                    then This else Undefined)
  /\ journal (snd out) = jr
  /\ state (self (snd out)) = Some MODEL_STATE.pristine.
Proof.
  intros Hst. destruct i as [st d sto ks brs0 v0 c]; cbn in Hst; subst st.
  unfold save; js_run.
  match goal with |- context [isValid model ?s] =>
    destruct (isValid_answers model s) as (s' & -> & brs & v & ->)
  end.
  vars. destruct (BrokenRuleList.isValid brs) eqn:E; js_run; vars;
    rewrite E; auto.
Qed.

(** C6. On an editable root model in state created, [remove()] sets the
    state to removed at once and does nothing else (no data access call, no
    transaction, no event, no call on a child); a [save()] after it answers
    without any effect on the outside either. *)
Theorem C6_remove_on_created (i : Instance Child) (jr : list Effect) :
  state i = Some MODEL_STATE.created ->
  remove model {| self := i; journal := jr |}
  = (Normal tt,
     {| self := set_state (Some MODEL_STATE.removed) i; journal := jr |})
  /\ exists r s2,
       save model {| self := set_state (Some MODEL_STATE.removed) i;
                     journal := jr |}
       = (Normal r, s2)
       /\ journal s2 = jr
       /\ state (self s2) = Some MODEL_STATE.removed.
Proof.
  intros Hst. destruct i as [st d sto ks brs0 v0 c]; cbn in Hst; subst st.
  split.
  - reflexivity.
  - unfold save; js_run.
    match goal with |- context [isValid model ?s] =>
      destruct (isValid_answers model s) as (s' & -> & brs & v & ->)
    end.
    vars. destruct (BrokenRuleList.isValid brs); js_run; vars;
      eexists _, _; (split; [reflexivity | split; reflexivity]).
Qed.

(** What a failing [update] call of the data access object leaves behind.
    Whatever the listeners and the connection manager do in the [catch]
    block, [save()] throws, nothing was committed and the state is still
    changed; when the listeners of the two finish events return, the
    rollback was called on the connection of the update, and when the
    rollback returns too, the error thrown is the data portal error. *)
Lemma save_update_failure (i : Instance Child) (conn : Value) (arg : DaoArg)
    (e : Exn) :
  state i = Some MODEL_STATE.changed ->
  let out := save model (start i) in
  In (RunMethod "update" conn arg) (journal (snd out)) ->
  runMethod model "update" conn arg = Throw e ->
  threw (fst out) = true
  /\ (forall c, ~ In (CommitTransaction (dataSource model) c) (journal (snd out)))
  /\ state (self (snd out)) = Some MODEL_STATE.changed
  /\ forall conn',
       (forall ev args,
          eventError args = Some (wrapError model DataPortalAction.update e) ->
          listeners model ev args = Normal tt) ->
       rollbackTransaction model (dataSource model) conn = Normal conn' ->
       fst out = Throw (wrapError model DataPortalAction.update e)
       /\ In (RollbackTransaction (dataSource model) conn) (journal (snd out)).
Proof.
  intros Hst out Hin Hthrow. subst out.
  destruct i as [st dirty sto ks brs0 v0 c0]; cbn [state] in Hst; subst st.
  destruct (save model _) as [r sf] eqn:E. vars. vars_in Hin.
  unfold save, start in E. unfold bind at 1 in E.
  match type of E with context [isValid model ?st] =>
    destruct (isValid_answers model st) as (s1 & Hv & brs & v & ->);
    rewrite Hv in E; clear Hv
  end.
  vars_in E. destruct (BrokenRuleList.isValid brs).
  2:{ injection E as <- <-. destruct Hin. }
  unfold bind at 1 in E.
  change (have state ?st) with (Normal (state (self st)), st) in E.
  cbv beta iota in E. vars_in E.
  unfold bind at 1 in E.
  match type of E with context [data_update model ?st] =>
    destruct (data_update_spec model st) as (d & Hj & Hd); [reflexivity|];
    destruct (data_update model st) as [[[]|e0] s2]
  end; vars_in Hj; vars_in Hd; cbn [app] in Hj; injection E as <- <-;
    vars; rewrite Hj in *.
  - destruct Hd as [Hd | (d1 & d2 & c & dto & -> & H1 & H2 & Hd)].
    + exfalso. exact (In_notDao _ _ _ _ Hd Hin).
    + apply in_app_or in Hin. destruct Hin as [Hin | [Hin | Hin]].
      * exfalso. exact (In_notDao _ _ _ _ H1 Hin).
      * injection Hin as <- <-. destruct (Hd e Hthrow) as (Hr & _). discriminate.
      * exfalso. exact (In_notDao _ _ _ _ H2 Hin).
  - destruct Hd as [Hd | (d1 & d2 & c & dto & -> & H1 & H2 & Hd)].
    + exfalso. exact (In_notDao _ _ _ _ Hd Hin).
    + apply in_app_or in Hin. destruct Hin as [Hin | [Hin | Hin]].
      * exfalso. exact (In_notDao _ _ _ _ H1 Hin).
      * injection Hin as <- <-.
        destruct (Hd e Hthrow) as (Hr & Hnc & Hs & Hrest).
        split; [exact Hr|]. split; [exact Hnc|]. split; [exact Hs|].
        intros conn' Hl Hrb.
        destruct (Hrest conn' Hl Hrb) as (Hthrown & Hback).
        split; [injection Hthrown as ->; reflexivity|].
        apply in_or_app. right. right. exact Hback.
      * exfalso. exact (In_notDao _ _ _ _ H2 Hin).
Qed.

(** C3, amended. On an editable root model in state changed, when the
    [update] call that [save()] makes to the data access object throws, and
    the listeners of the finish events return when they are handed the error
    and the rollback of the connection manager returns, [save()] throws a
    data portal error with action update around that error, the transaction
    was rolled back on the connection of the call and never committed, and
    the state of the model is still changed.  The [catch] block calls those
    listeners and the rollback, in this order and unguarded, before it
    rethrows. *)
Theorem C3_update_failure (i : Instance Child) (conn conn' : Value)
    (arg : DaoArg) (e : Exn) :
  state i = Some MODEL_STATE.changed ->
  let out := save model (start i) in
  In (RunMethod "update" conn arg) (journal (snd out)) ->
  runMethod model "update" conn arg = Throw e ->
  (forall ev args,
     eventError args
     = Some (DataPortalError MODEL_DESC (properties_name model)
               DataPortalAction.update e) ->
     listeners model ev args = Normal tt) ->
  rollbackTransaction model (dataSource model) conn = Normal conn' ->
  fst out = Throw (DataPortalError MODEL_DESC (properties_name model)
                     DataPortalAction.update e)
  /\ In (RollbackTransaction (dataSource model) conn) (journal (snd out))
  /\ (forall c, ~ In (CommitTransaction (dataSource model) c) (journal (snd out)))
  /\ state (self (snd out)) = Some MODEL_STATE.changed.
Proof.
  intros Hst out Hin Hthrow Hl Hrb.
  destruct (save_update_failure i conn arg e Hst Hin Hthrow)
    as (_ & Hnc & Hs & Hrest).
  destruct (Hrest conn' Hl Hrb) as (Hthrown & Hback).
  repeat split; assumption.
Qed.

(** The state part of C3 needs no assumption on the listeners or on the
    rollback: a failing update never ends in state pristine, and never in a
    commit. *)
Lemma update_failure_keeps_changed (i : Instance Child) (conn : Value)
    (arg : DaoArg) (e : Exn) :
  state i = Some MODEL_STATE.changed ->
  let out := save model (start i) in
  In (RunMethod "update" conn arg) (journal (snd out)) ->
  runMethod model "update" conn arg = Throw e ->
  threw (fst out) = true
  /\ (forall c, ~ In (CommitTransaction (dataSource model) c) (journal (snd out)))
  /\ state (self (snd out)) = Some MODEL_STATE.changed.
Proof.
  intros Hst out Hin Hthrow.
  destruct (save_update_failure i conn arg e Hst Hin Hthrow)
    as (Ht & Hnc & Hs & _).
  repeat split; assumption.
Qed.

End Facts.

(** The editable child object in state created: [remove()] sets its state
    to removed and tells neither its children nor its parent. *)
Lemma child_remove_on_created {P : Type} (parent_childHasChanged : M P unit)
    (parent : P) (v : EditableChildObject.Vars)
    (ks : list (string * EditableChildObject.Obj)) :
  EditableChildObject.state v = Some MODEL_STATE.created ->
  EditableChildObject.remove parent_childHasChanged
    (EditableChildObject.obj v ks, parent)
  = (Normal tt,
     (EditableChildObject.obj
        (EditableChildObject.set_state (Some MODEL_STATE.removed) v) ks,
      parent)).
Proof.
  intros Hst. destruct v as [m st d sto brs vd]; cbn in Hst; subst st.
  reflexivity.
Qed.

(** The counterexample to C5 as stated: a pristine order whose required
    vendor name is empty.  [save()] hands back [undefined], not the
    instance. *)
Lemma C5_counterexample :
  state (Examples.order (Some MODEL_STATE.pristine) false (VStr ""))
    = Some MODEL_STATE.pristine
  /\ fst (save Examples.BlanketOrder
            (start (Examples.order (Some MODEL_STATE.pristine) false (VStr ""))))
     = Normal Undefined
  /\ Normal Undefined <> Normal This.
Proof. split; [reflexivity | split; [vm_compute; reflexivity | discriminate]]. Qed.

(** The counterexample to C3 as stated: an order whose listeners throw when
    they are handed an error.  The update of the data access object throws
    inside [save()]; the [catch] block launches postUpdate with the wrapped
    error, the listener throws, and that ends the block: the last thing done
    is that event, the rollback is not invoked, and the caller gets the error
    of the listener, which is no data portal error. *)
Lemma C3_counterexample :
  let i := Examples.order (Some MODEL_STATE.changed) true (VStr "Acme") in
  let out := save PortalSamples.NoisyOrder (start i) in
  let failure :=
    DataPortalError MODEL_DESC "BlanketOrder" DataPortalAction.update
      (ExternalError "update failed") in
  state i = Some MODEL_STATE.changed
  /\ runMethod PortalSamples.NoisyOrder "update" (VNum 2)
       (Data (<["vendorName" := VStr "Acme"]> ∅))
     = Throw (ExternalError "update failed")
  /\ journal (snd out)
     = [BeginTransaction "db";
        Emit DataPortalEvent.preSave
          (getEventArgs PortalSamples.NoisyOrder DataPortalAction.update
             None None);
        Emit DataPortalEvent.preUpdate
          (getEventArgs PortalSamples.NoisyOrder DataPortalAction.update
             None None);
        RunMethod "update" (VNum 2) (Data (<["vendorName" := VStr "Acme"]> ∅));
        Emit DataPortalEvent.postUpdate
          (getEventArgs PortalSamples.NoisyOrder DataPortalAction.update
             None (Some failure))]
  /\ ~ In (RollbackTransaction "db" (VNum 2)) (journal (snd out))
  /\ fst out = Throw (ExternalError "listener failed")
  /\ fst out <> Throw failure.
Proof.
  cbv zeta.
  assert (E : save PortalSamples.NoisyOrder
                (start (Examples.order (Some MODEL_STATE.changed) true
                          (VStr "Acme")))
              = (Throw (ExternalError "listener failed"),
                 {| self := set_connection (VNum 2)
                              (set_isValidated true
                                 (Examples.order (Some MODEL_STATE.changed)
                                    true (VStr "Acme")));
                    journal :=
                      [BeginTransaction "db";
                       Emit DataPortalEvent.preSave
                         (getEventArgs PortalSamples.NoisyOrder
                            DataPortalAction.update None None);
                       Emit DataPortalEvent.preUpdate
                         (getEventArgs PortalSamples.NoisyOrder
                            DataPortalAction.update None None);
                       RunMethod "update" (VNum 2)
                         (Data (<["vendorName" := VStr "Acme"]> ∅));
                       Emit DataPortalEvent.postUpdate
                         (getEventArgs PortalSamples.NoisyOrder
                            DataPortalAction.update None
                            (Some (DataPortalError MODEL_DESC "BlanketOrder"
                                     DataPortalAction.update
                                     (ExternalError "update failed"))))] |}))
    by (vm_compute; reflexivity).
  rewrite E. cbn [fst snd journal].
  split; [reflexivity|]. split; [reflexivity|]. split; [reflexivity|].
  split.
  - intros H. cbn in H.
    repeat (destruct H as [H | H]; [discriminate|]). exact H.
  - split; [reflexivity | discriminate].
Qed.

Lemma C5_witness :
  let out :=
    save Examples.BlanketOrder
      {| self := Examples.order (Some MODEL_STATE.pristine) false (VStr "Acme");
         journal := [] |} in
  fst out = Normal (if BrokenRuleList.isValid (brokenRules (self (snd out)))
                    then This else Undefined)
  /\ journal (snd out) = []
  /\ state (self (snd out)) = Some MODEL_STATE.pristine.
Proof.
  apply (C5_save_on_pristine Examples.BlanketOrder
           (Examples.order (Some MODEL_STATE.pristine) false (VStr "Acme")) []).
  reflexivity.
Defined.

Lemma C6_witness :
  remove Examples.BlanketOrder
    {| self := Examples.order (Some MODEL_STATE.created) true (VStr "Acme");
       journal := [] |}
  = (Normal tt,
     {| self := set_state (Some MODEL_STATE.removed)
                  (Examples.order (Some MODEL_STATE.created) true (VStr "Acme"));
        journal := [] |})
  /\ exists r s2,
       save Examples.BlanketOrder
         {| self := set_state (Some MODEL_STATE.removed)
                      (Examples.order (Some MODEL_STATE.created) true (VStr "Acme"));
            journal := [] |}
       = (Normal r, s2)
       /\ journal s2 = []
       /\ state (self s2) = Some MODEL_STATE.removed.
Proof.
  apply (C6_remove_on_created Examples.BlanketOrder
           (Examples.order (Some MODEL_STATE.created) true (VStr "Acme")) []).
  reflexivity.
Defined.

Lemma C3_witness :
  let out :=
    save Examples.BlanketOrder
      (start (Examples.order (Some MODEL_STATE.changed) true (VStr "Acme"))) in
  fst out = Throw (DataPortalError MODEL_DESC
                     (properties_name Examples.BlanketOrder)
                     DataPortalAction.update (ExternalError "update failed"))
  /\ In (RollbackTransaction (dataSource Examples.BlanketOrder) (VNum 2))
        (journal (snd out))
  /\ (forall c, ~ In (CommitTransaction (dataSource Examples.BlanketOrder) c)
                   (journal (snd out)))
  /\ state (self (snd out)) = Some MODEL_STATE.changed.
Proof.
  apply (C3_update_failure Examples.BlanketOrder
           (Examples.order (Some MODEL_STATE.changed) true (VStr "Acme"))
           (VNum 2) VNull (Data (<["vendorName" := VStr "Acme"]> ∅))
           (ExternalError "update failed")).
  - reflexivity.
  - vm_compute. auto 10.
  - reflexivity.
  - reflexivity.
  - reflexivity.
Defined.

End RootLifecycle.

(** ** The accessor property isSavable *)

Module RootSavable.
Import EditableRootModelSync.

Section Facts.
Context {Child : Type}.
Variable model : Model Child.

(** C9. Reading [isSavable] never yields a boolean: on every instance its
    getter throws a [TypeError] and changes nothing, at its first step, the
    call [self.isDeleted()].  The reason is that [isDeleted], [isNew] and
    [isDirty] are accessor properties whose getters return booleans, so
    calling any of them as a function throws. *)
Theorem C9_isSavable_always_throws (s : Sys Child) :
  get_isSavable model s
  = (Throw (TypeError "self.isDeleted is not a function"), s)
  /\ (forall m, In m ["isDeleted"; "isNew"; "isDirty"] ->
        (exists b, member model m = Some (Accessor (have (fun i => VBool (b i)))))
        /\ callMember model m s
           = (Throw (TypeError ("self." ++ m ++ " is not a function")%string), s)).
Proof.
  split; [reflexivity|].
  intros m [<- | [<- | [<- | []]]]; (split; [eexists; reflexivity | reflexivity]).
Qed.

End Facts.
End RootSavable.

(** ** The broken rules of a read-only root collection *)

Module RootCollection.
Import ReadOnlyRootCollectionSync.

Section Facts.
Context {Item Output : Type}.
Variable output : list BrokenRule -> option string -> Output.
Variable addChild : Value -> Output -> Output -> Output.
Variable length_ : Output -> nat.
Variable item_getBrokenRules : option string -> Item -> option Output.
Variable globalThis : Dto.

(** As long as no item reports broken rules the loop passes [bro] on. *)
Lemma mergeChildren_silent namespace items bro :
  (forall item, In item items -> item_getBrokenRules namespace item = None) ->
  mergeChildren addChild item_getBrokenRules globalThis namespace items bro
  = Normal bro.
Proof.
  induction items as [|item items IH]; intros H; cbn [mergeChildren].
  - reflexivity.
  - rewrite (H item) by (left; reflexivity).
    apply IH. intros item' Hin. apply H. right. exact Hin.
Qed.

(** The first item that reports broken rules ends the loop with a
    [ReferenceError]. *)
Lemma mergeChildren_throws namespace items bro :
  globalThis !! "property" = None ->
  (exists item, In item items /\ item_getBrokenRules namespace item <> None) ->
  mergeChildren addChild item_getBrokenRules globalThis namespace items bro
  = Throw (ReferenceError "property").
Proof.
  intros Hg. induction items as [|item items IH]; intros (it & Hin & Hrep).
  - destruct Hin.
  - cbn [mergeChildren].
    destruct (item_getBrokenRules namespace item) as [cbr|] eqn:E.
    + unfold identifier. rewrite Hg. reflexivity.
    + apply IH. destruct Hin as [<- | Hin]; [congruence|].
      exists it. split; assumption.
Qed.

(** When no item reports broken rules the merge step is never reached and
    the call returns. *)
Lemma getBrokenRules_without_reports
    (items : list Item) (brokenRules : list BrokenRule)
    (namespace : option string) :
  (forall item, In item items -> item_getBrokenRules namespace item = None) ->
  getBrokenRules output addChild length_ item_getBrokenRules globalThis
    items brokenRules namespace
  = Normal (if Nat.eqb (length_ (output brokenRules namespace)) 0 then None
            else Some (output brokenRules namespace)).
Proof.
  intros Hnone. unfold getBrokenRules.
  rewrite mergeChildren_silent by assumption. reflexivity.
Qed.

(** C10. In [getBrokenRules] of the read-only root collection the identifier
    [property] is declared by none of the enclosing scopes.  So, with no
    global of that name either, as soon as one item reports broken rules the
    call throws a [ReferenceError] instead of returning the merged output. *)
Theorem C10_getBrokenRules_reads_undeclared_property
    (items : list Item) (brokenRules : list BrokenRule)
    (namespace : option string) :
  globalThis !! "property" = None ->
  (exists item, In item items /\ item_getBrokenRules namespace item <> None) ->
  declared "property" = false
  /\ getBrokenRules output addChild length_ item_getBrokenRules globalThis
       items brokenRules namespace
     = Throw (ReferenceError "property").
Proof.
  intros Hg Hrep. split; [reflexivity|].
  unfold getBrokenRules.
  rewrite mergeChildren_throws by assumption. reflexivity.
Qed.

End Facts.

(** Two items, the second of which reports one broken rule; an output is
    counted by the rules it holds. *)
Lemma C10_witness :
  declared "property" = false
  /\ getBrokenRules (fun brs _ => List.length brs)
       (fun _ child bro => child + bro) (fun n => n)
       Examples.reported (∅ : Dto) [[]; ["Required"]] [] None
     = Throw (ReferenceError "property").
Proof.
  apply (C10_getBrokenRules_reads_undeclared_property
           (fun brs _ => List.length brs) (fun _ child bro => child + bro)
           (fun n => n) Examples.reported (∅ : Dto)
           [[]; ["Required"]] [] None).
  - reflexivity.
  - exists ["Required"]. split; [right; left; reflexivity | discriminate].
Defined.

End RootCollection.

(** ** The counting join of the fetch cascades *)

Module FetchCascade.
Import Cascade.
Local Open Scope nat_scope.

Lemma firstError_app (a b : list (option Exn)) :
  firstError (a ++ b) = ReadOnlyChildModel.or_else (firstError a) (firstError b).
Proof.
  induction a as [|[e|] a IH]; cbn; [reflexivity | reflexivity | exact IH].
Qed.

Lemma or_else_assoc (a b c : option Exn) :
  ReadOnlyChildModel.or_else (ReadOnlyChildModel.or_else a b) c
  = ReadOnlyChildModel.or_else a (ReadOnlyChildModel.or_else b c).
Proof. destruct a; reflexivity. Qed.

Lemma or_else_None_r (a : option Exn) : ReadOnlyChildModel.or_else a None = a.
Proof. destruct a; reflexivity. Qed.

Section ChildModel.
Import ReadOnlyChildModel.

(** While fewer than [childCount] children have completed, [finish] only
    counts and remembers the first error. *)
Lemma finish_pending (childCount : nat) (cs : list (option Exn)) (j : Join) :
  count j + List.length cs < childCount ->
  foldl (fun j err => finish childCount err j) j cs
  = {| count := count j + List.length cs;
       error := or_else (error j) (firstError cs);
       called := called j |}.
Proof.
  revert j. induction cs as [|c cs IH]; intros j Hlt; cbn [foldl].
  - rewrite or_else_None_r, Nat.add_0_r. destruct j; reflexivity.
  - cbn [List.length] in Hlt. rewrite IH.
    + unfold finish; cbn [count error called].
      replace (S (count j) =? childCount) with false
        by (symmetry; apply Nat.eqb_neq; lia).
      f_equal.
      * cbn [List.length]. lia.
      * rewrite or_else_assoc. f_equal. destruct c; reflexivity.
    + unfold finish; cbn [count]. lia.
Qed.

(** The completion that brings the count to [childCount] calls back, once,
    with the first error. *)
Lemma fetchChildren_joined (childCount : nat) (cs : list (option Exn)) :
  1 <= childCount ->
  List.length cs = childCount ->
  called (fetchChildren childCount cs) = [firstError cs].
Proof.
  intros Hpos Hlen. unfold fetchChildren.
  replace (childCount =? 0) with false by (symmetry; apply Nat.eqb_neq; lia).
  destruct (exists_last (l := cs)) as (cs' & c & ->).
  { intros ->. cbn in Hlen. lia. }
  rewrite length_app in Hlen. cbn in Hlen.
  rewrite foldl_app. cbn [foldl].
  rewrite finish_pending by (cbn; lia).
  unfold finish; cbn [count error called started].
  replace (S (0 + List.length cs') =? childCount) with true
    by (symmetry; apply Nat.eqb_eq; lia).
  rewrite firstError_app. cbn.
  f_equal. destruct (firstError cs'), c; reflexivity.
Qed.

Lemma fetchChildren_pending (childCount k : nat) (cs : list (option Exn)) :
  List.length cs = childCount ->
  k < childCount ->
  called (fetchChildren childCount (take k cs)) = [].
Proof.
  intros Hlen Hk. unfold fetchChildren.
  replace (childCount =? 0) with false by (symmetry; apply Nat.eqb_neq; lia).
  rewrite finish_pending; [reflexivity|].
  rewrite length_take. cbn. lia.
Qed.

End ChildModel.

Section Collection.
Import EditableCollection.
Context {Item : Type}.

Lemma loaded_pending (dataLength : nat) (cs : list (option Exn * Item))
    (j : Join Item) :
  count j + List.length cs < dataLength ->
  foldl (fun j c => loaded dataLength (fst c) (snd c) j) j cs
  = {| items := items j ++ loadedItems cs;
       count := count j + List.length cs;
       error := ReadOnlyChildModel.or_else (error j) (firstError (map fst cs));
       called := called j |}.
Proof.
  revert j. induction cs as [|[err item] cs IH]; intros j Hlt; cbn [foldl].
  - cbn. rewrite or_else_None_r, Nat.add_0_r, app_nil_r.
    destruct j; reflexivity.
  - cbn [List.length] in Hlt. rewrite IH.
    + unfold loaded; cbn [items count error called fst snd].
      replace (S (count j) =? dataLength) with false
        by (symmetry; apply Nat.eqb_neq; lia).
      f_equal.
      * destruct err; cbn; [reflexivity|].
        rewrite <- app_assoc. reflexivity.
      * cbn [List.length]. lia.
      * destruct err, (error j); reflexivity.
    + unfold loaded; cbn [count]. lia.
Qed.

Lemma fetch_joined (items0 : list Item) (dataLength : nat)
    (cs : list (option Exn * Item)) :
  1 <= dataLength ->
  List.length cs = dataLength ->
  called (fetch items0 dataLength cs) = [firstError (map fst cs)]
  /\ items (fetch items0 dataLength cs) = items0 ++ loadedItems cs.
Proof.
  intros Hpos Hlen. unfold fetch.
  replace (dataLength =? 0) with false by (symmetry; apply Nat.eqb_neq; lia).
  destruct (exists_last (l := cs)) as (cs' & [err item] & ->).
  { intros ->. cbn in Hlen. lia. }
  rewrite length_app in Hlen. cbn in Hlen.
  rewrite foldl_app. cbn [foldl].
  rewrite loaded_pending by (cbn; lia).
  unfold loaded; cbn [items count error called started fst snd].
  replace (S (0 + List.length cs') =? dataLength) with true
    by (symmetry; apply Nat.eqb_eq; lia).
  rewrite map_app, firstError_app. unfold loadedItems.
  rewrite flat_map_app. cbn. split.
  - f_equal. destruct (firstError (map fst cs')), err; reflexivity.
  - destruct err; cbn; rewrite ?app_nil_r, ?app_assoc; reflexivity.
Qed.

Lemma fetch_pending (items0 : list Item) (dataLength k : nat)
    (cs : list (option Exn * Item)) :
  List.length cs = dataLength ->
  k < dataLength ->
  called (fetch items0 dataLength (take k cs)) = [].
Proof.
  intros Hlen Hk. unfold fetch.
  replace (dataLength =? 0) with false by (symmetry; apply Nat.eqb_neq; lia).
  rewrite loaded_pending; [reflexivity|].
  rewrite length_take. cbn. lia.
Qed.

End Collection.

(** C8. In a fetch cascade over N >= 1 children, told by the completions of
    the N child operations in the order they arrive: the completion callback
    has not been called after any k < N of them, and after all N it has been
    called exactly once, with the first error among them (null when all
    succeeded).  This holds for [fetchChildren] of a model and for [fetch] of
    a collection. *)
Theorem C8_join_fires_once_after_all {Item : Type}
    (N : nat) (children : list (option Exn))
    (items0 : list Item) (loads : list (option Exn * Item)) :
  1 <= N ->
  List.length children = N ->
  List.length loads = N ->
  ((forall k, k < N ->
      ReadOnlyChildModel.called
        (ReadOnlyChildModel.fetchChildren N (take k children)) = [])
   /\ ReadOnlyChildModel.called (ReadOnlyChildModel.fetchChildren N children)
      = [firstError children])
  /\ ((forall k, k < N ->
         EditableCollection.called
           (EditableCollection.fetch items0 N (take k loads)) = [])
      /\ EditableCollection.called (EditableCollection.fetch items0 N loads)
         = [firstError (map fst loads)]).
Proof.
  intros Hpos Hc Hl. repeat split.
  - intros k Hk. apply fetchChildren_pending; assumption.
  - apply fetchChildren_joined; assumption.
  - intros k Hk. apply fetch_pending; assumption.
  - apply fetch_joined; assumption.
Qed.

(** Three children: the first succeeds, the second and the third fail. *)
Lemma C8_witness :
  ((forall k, k < 3 ->
      ReadOnlyChildModel.called
        (ReadOnlyChildModel.fetchChildren 3
           (take k [None; Some (ExternalError "b"); Some (ExternalError "c")]))
      = [])
   /\ ReadOnlyChildModel.called
        (ReadOnlyChildModel.fetchChildren 3
           [None; Some (ExternalError "b"); Some (ExternalError "c")])
      = [firstError [None; Some (ExternalError "b"); Some (ExternalError "c")]])
  /\ ((forall k, k < 3 ->
         EditableCollection.called
           (EditableCollection.fetch [] 3
              (take k [(None, 1); (Some (ExternalError "b"), 2);
                       (Some (ExternalError "c"), 3)])) = [])
      /\ EditableCollection.called
           (EditableCollection.fetch [] 3
              [(None, 1); (Some (ExternalError "b"), 2);
               (Some (ExternalError "c"), 3)])
         = [firstError (map fst [(None, 1); (Some (ExternalError "b"), 2);
                                 (Some (ExternalError "c"), 3)])]).
Proof.
  apply (C8_join_fires_once_after_all 3
           [None; Some (ExternalError "b"); Some (ExternalError "c")]
           [] [(None, 1); (Some (ExternalError "b"), 2);
               (Some (ExternalError "c"), 3)]).
  - lia.
  - reflexivity.
  - reflexivity.
Defined.

End FetchCascade.

(** ** Changes of a child reach the parent *)

Module ChangePropagation.
Import EditableChildObject.

(** Every mark function of the root model keeps a pristine model clean:
    whenever the state is pristine, the private [isDirty] is false. *)
Lemma root_pristine_is_clean {Child} (model : EditableRootModelSync.Model Child)
    (to : MODEL_STATE.t) (itself : bool) (s : EditableRootModelSync.Sys Child) :
  (EditableRootModelSync.state (EditableRootModelSync.self s)
     = Some MODEL_STATE.pristine ->
   EditableRootModelSync.isDirty (EditableRootModelSync.self s) = false) ->
  let s' := snd (Table.mark model to itself s) in
  EditableRootModelSync.state (EditableRootModelSync.self s')
    = Some MODEL_STATE.pristine ->
  EditableRootModelSync.isDirty (EditableRootModelSync.self s') = false.
Proof.
  destruct s as [[st d sto ks brs v c] j]. cbn. intros Hinv.
  destruct to, st as [[]|]; cbn; try (intros; auto; discriminate).
  all: unfold EditableRootModelSync.markForRemoval,
         EditableRootModelSync.propagateRemoval,
         EditableRootModelSync.overChildren; js_run; cbn;
       try destruct (EditableRootModelSync.eachChild _ ks);
       cbn; intros; auto; discriminate.
Qed.

(** C7. A parent in state pristine (whose own dirty flag is therefore
    false) has a child object in state pristine.  When the child is marked
    as changed, whether by itself or by one of its own children, the child
    is in state changed and so is the parent: the parent's [isDirty] is true
    while its [isSelfDirty] is still false.  The parent is an editable root
    model (first part) or an editable child object below any parent of its
    own (second part). *)
Theorem C7_child_change_reaches_parent {Child P : Type}
    (root : EditableRootModelSync.Sys Child)
    (parent : Vars) (beyond : P) (grandparent_childHasChanged : M P unit)
    (child : Vars) (itself : bool) :
  state child = Some MODEL_STATE.pristine ->
  EditableRootModelSync.state (EditableRootModelSync.self root)
    = Some MODEL_STATE.pristine ->
  EditableRootModelSync.get_isSelfDirty (EditableRootModelSync.self root)
    = false ->
  state parent = Some MODEL_STATE.pristine ->
  isSelfDirty parent = false ->
  (let out := markAsChanged EditableRootModelSync.childHasChanged itself
                (child, root) in
   fst out = Normal tt
   /\ state (fst (snd out)) = Some MODEL_STATE.changed
   /\ EditableRootModelSync.get_isDirty
        (EditableRootModelSync.self (snd (snd out))) = true
   /\ EditableRootModelSync.get_isSelfDirty
        (EditableRootModelSync.self (snd (snd out))) = false)
  /\ (let out := markAsChanged (childHasChanged grandparent_childHasChanged)
                   itself (child, (parent, beyond)) in
      state (fst (snd out)) = Some MODEL_STATE.changed
      /\ isDirty_ (fst (snd (snd out))) = true
      /\ isSelfDirty (fst (snd (snd out))) = false).
Proof.
  intros Hc Hr Hrd Hp Hpd.
  destruct child as [cm cst cd csto cbrs cv]; cbn in Hc; subst cst.
  split.
  - destruct root as [[st d sto ks brs v c] j]; cbn in Hr, Hrd; subst st d.
    cbn. repeat split.
  - destruct parent as [pm pst pd psto pbrs pv]; cbn in Hp, Hpd; subst pst pd.
    unfold markAsChanged, childHasChanged, markAsChanged, propagateChange,
      have, assign; js_run; cbn.
    destruct (grandparent_childHasChanged beyond) as [[[]|e] p']; cbn;
      repeat split.
Qed.

(** A child in state created passes the mark on as well: it stays created,
    and the pristine parent becomes changed without becoming self-dirty. *)
Lemma created_child_change_reaches_parent {Child : Type}
    (root : EditableRootModelSync.Sys Child) (child : Vars) (itself : bool) :
  state child = Some MODEL_STATE.created ->
  EditableRootModelSync.state (EditableRootModelSync.self root)
    = Some MODEL_STATE.pristine ->
  let out := markAsChanged EditableRootModelSync.childHasChanged itself
               (child, root) in
  fst out = Normal tt
  /\ state (fst (snd out)) = Some MODEL_STATE.created
  /\ EditableRootModelSync.get_isDirty
       (EditableRootModelSync.self (snd (snd out))) = true
  /\ EditableRootModelSync.get_isSelfDirty
       (EditableRootModelSync.self (snd (snd out)))
     = EditableRootModelSync.get_isSelfDirty (EditableRootModelSync.self root).
Proof.
  intros Hc Hr.
  destruct child as [cm cst cd csto cbrs cv]; cbn in Hc; subst cst.
  destruct root as [[st d sto ks brs v c] j]; cbn in Hr; subst st.
  cbn. rewrite orb_false_r. repeat split.
Qed.

(** In the states where [markAsChanged] does nothing (unset, changed,
    marked for removal) the parent is not told. *)
Lemma idle_child_change_stays_below {P : Type}
    (parent_childHasChanged : M P unit) (parent : P)
    (child : Vars) (itself : bool) :
  state child = None \/ state child = Some MODEL_STATE.changed
  \/ state child = Some MODEL_STATE.markedForRemoval ->
  markAsChanged parent_childHasChanged itself (child, parent)
  = (Normal tt, (child, parent)).
Proof.
  destruct child as [cm cst cd csto cbrs cv]; cbn.
  intros [-> | [-> | ->]]; reflexivity.
Qed.

Lemma C7_witness :
  (let out :=
     markAsChanged EditableRootModelSync.childHasChanged true
       (Examples.item (Some MODEL_STATE.pristine) false (VStr "bolt"),
        EditableRootModelSync.start
          (Examples.order (Some MODEL_STATE.pristine) false (VStr "Acme"))) in
   fst out = Normal tt
   /\ state (fst (snd out)) = Some MODEL_STATE.changed
   /\ EditableRootModelSync.get_isDirty
        (EditableRootModelSync.self (snd (snd out))) = true
   /\ EditableRootModelSync.get_isSelfDirty
        (EditableRootModelSync.self (snd (snd out))) = false)
  /\ (let out :=
        markAsChanged (childHasChanged EditableRootModelSync.childHasChanged)
          true
          (Examples.item (Some MODEL_STATE.pristine) false (VStr "bolt"),
           (Examples.item (Some MODEL_STATE.pristine) false (VStr "kit"),
            EditableRootModelSync.start
              (Examples.order (Some MODEL_STATE.pristine) false (VStr "Acme")))) in
      state (fst (snd out)) = Some MODEL_STATE.changed
      /\ isDirty_ (fst (snd (snd out))) = true
      /\ isSelfDirty (fst (snd (snd out))) = false).
Proof.
  apply (C7_child_change_reaches_parent
           (EditableRootModelSync.start
              (Examples.order (Some MODEL_STATE.pristine) false (VStr "Acme")))
           (Examples.item (Some MODEL_STATE.pristine) false (VStr "kit"))
           (EditableRootModelSync.start
              (Examples.order (Some MODEL_STATE.pristine) false (VStr "Acme")))
           EditableRootModelSync.childHasChanged
           (Examples.item (Some MODEL_STATE.pristine) false (VStr "bolt"))
           true); reflexivity.
Defined.

End ChangePropagation.

(** ** Reading a property that an authorization rule denies *)

Module PropertyReads.
Import RuleManager.

Lemma add_all (brs : list BrokenRule) (bs : list BrokenRule) :
  foldl BrokenRuleList.add brs bs = brs ++ bs.
Proof.
  revert brs. induction bs as [|b bs IH]; intros brs; cbn [foldl].
  - symmetry. apply app_nil_r.
  - rewrite IH. unfold BrokenRuleList.add. rewrite <- app_assoc. reflexivity.
Qed.

Lemma insertRule_perm r rs : insertRule r rs ≡ₚ r :: rs.
Proof.
  induction rs as [|r' rs IH]; cbn; [reflexivity|].
  destruct (priority r' <=? priority r)%Z; [reflexivity|].
  rewrite IH. apply Permutation_swap.
Qed.

Lemma byPriority_perm rs : byPriority rs ≡ₚ rs.
Proof.
  induction rs as [|r rs IH]; cbn; [reflexivity|].
  unfold byPriority in *. cbn. rewrite insertRule_perm, IH. reflexivity.
Qed.

(** Rules of one priority are run in the order of their definition. *)
Lemma byPriority_keeps_ties rs :
  (forall r r', In r rs -> In r' rs -> priority r = priority r') ->
  byPriority rs = rs.
Proof.
  induction rs as [|r rs IH]; intros H; [reflexivity|].
  unfold byPriority in *. cbn [foldr]. rewrite IH.
  - destruct rs as [|r' rs']; [reflexivity|]. cbn [insertRule].
    rewrite (H r r') by (cbn; auto). rewrite Z.leb_refl. reflexivity.
  - intros a b Ha Hb. apply H; right; assumption.
Qed.

Lemma denials_nonempty user rs r :
  In r rs -> execute r user = true -> denials user rs <> [].
Proof.
  induction rs as [|r' rs IH]; intros Hin He; [destruct Hin|].
  cbn. destruct (execute r' user) eqn:E; [discriminate|].
  destruct Hin as [-> | Hin]; [congruence | auto].
Qed.

Lemma denials_only user rs r :
  filter (fun r' => execute r' user = true) rs = [r] ->
  denials user rs = [r].
Proof.
  induction rs as [|r' rs IH]; intros Hf; [discriminate|].
  cbn. rewrite filter_cons in Hf.
  destruct (decide (execute r' user = true)) as [E|E].
  - rewrite E. injection Hf as -> Hf. f_equal.
    destruct (stops r); [reflexivity|].
    clear IH. induction rs as [|r'' rs IH]; [reflexivity|].
    rewrite filter_cons in Hf.
    destruct (decide (execute r'' user = true)) as [E'|E']; [discriminate|].
    cbn. apply not_true_is_false in E'. rewrite E'. auto.
  - apply not_true_is_false in E. rewrite E. auto.
Qed.

Lemma denies_guards user a t r : denies user a t r = true -> guards a t r = true.
Proof. unfold denies. intros H. apply andb_prop in H. tauto. Qed.

Lemma denies_execute user a t r : denies user a t r = true -> execute r user = true.
Proof. unfold denies. intros H. apply andb_prop in H. tauto. Qed.

(** What [hasPermission] records when a rule of the pair denies. *)
Lemma hasPermission_denied rules user a t brs r :
  In r rules -> denies user a t r = true ->
  exists ds,
    RuleManager.hasPermission rules user a t brs
    = (false, brs ++ map toBrokenRule ds)
    /\ ds <> []
    /\ (filter (fun r' => denies user a t r' = true) rules = [r] -> ds = [r]).
Proof.
  intros Hin Hd.
  set (G := filter (fun r => guards a t r = true) rules).
  exists (denials user (byPriority G)).
  assert (HinG : In r (byPriority G)).
  { apply list_elem_of_In. rewrite byPriority_perm. unfold G.
    apply list_elem_of_filter. split.
    - eapply denies_guards; eassumption.
    - apply list_elem_of_In; assumption. }
  assert (Hne : denials user (byPriority G) <> []).
  { eapply denials_nonempty; [eassumption | eapply denies_execute; eassumption]. }
  split; [|split; [exact Hne|]].
  - unfold RuleManager.hasPermission. fold G. rewrite add_all.
    destruct (denials user (byPriority G)); [congruence | reflexivity].
  - intros Hf. apply denials_only.
    apply Permutation_singleton_r.
    rewrite byPriority_perm. unfold G. rewrite list_filter_filter.
    rewrite <- Hf. erewrite list_filter_iff; [reflexivity|].
    intros r'. unfold denies. rewrite andb_true_iff. tauto.
Qed.

Lemma toBrokenRule_error ds :
  Forall (fun b => severity b = RuleSeverity.error) (map toBrokenRule ds).
Proof. apply Forall_map. apply Forall_forall. intros r _. reflexivity. Qed.

(** What the claim asks holds where the accessor checks the permission.
    When the read of a property is denied by an authorization rule, and the
    property has no custom getter (or the model is a read-only child model,
    whose accessor knows none), reading it through the public accessor
    returns null and does not throw; the broken rules of the instance gain
    the entries of the rules that were run and denied, at least one, all of
    severity error, and nothing else changes.  When a single rule of the
    catalog denies the read, exactly one entry is gained, the one of that
    rule. *)
Lemma denied_read_returns_null {Child : Type}
    (rm : EditableRootModelSync.Model Child) (cm : ReadOnlyChildModel.Model)
    (p : PropertyInfo) (r r' : AuthorizationRule)
    (s : EditableRootModelSync.Sys Child) (i : ReadOnlyChildModel.Instance) :
  getter p = None ->
  readDeniedBy (EditableRootModelSync.authorizationRules rm)
    (EditableRootModelSync.user rm) p r ->
  readDeniedBy (ReadOnlyChildModel.authorizationRules cm)
    (ReadOnlyChildModel.user cm) p r' ->
  (exists ds,
     EditableRootModelSync.property_get rm p s
     = (Normal VNull,
        {| EditableRootModelSync.self :=
             EditableRootModelSync.set_brokenRules
               (EditableRootModelSync.brokenRules (EditableRootModelSync.self s)
                ++ map toBrokenRule ds)
               (EditableRootModelSync.self s);
           EditableRootModelSync.journal := EditableRootModelSync.journal s |})
     /\ ds <> []
     /\ Forall (fun b => severity b = RuleSeverity.error) (map toBrokenRule ds)
     /\ (filter (fun x => denies (EditableRootModelSync.user rm)
                            AuthorizationAction.readProperty (Shared.name p) x
                          = true)
           (EditableRootModelSync.authorizationRules rm) = [r] ->
         ds = [r]))
  /\ (exists ds,
        ReadOnlyChildModel.property_get cm p i
        = (Normal VNull,
           {| ReadOnlyChildModel.store := ReadOnlyChildModel.store i;
              ReadOnlyChildModel.brokenRules :=
                ReadOnlyChildModel.brokenRules i ++ map toBrokenRule ds |})
        /\ ds <> []
        /\ Forall (fun b => severity b = RuleSeverity.error) (map toBrokenRule ds)
        /\ (filter (fun x => denies (ReadOnlyChildModel.user cm)
                               AuthorizationAction.readProperty (Shared.name p) x
                             = true)
              (ReadOnlyChildModel.authorizationRules cm) = [r'] ->
            ds = [r'])).
Proof.
  intros Hg [Hin Hd] [Hin' Hd']. split.
  - destruct (hasPermission_denied _ _ _ _
                (EditableRootModelSync.brokenRules (EditableRootModelSync.self s))
                r Hin Hd) as (ds & Hp & Hne & Hone).
    exists ds. split; [|split; [exact Hne | split; [apply toBrokenRule_error | exact Hone]]].
    unfold EditableRootModelSync.property_get. rewrite Hg.
    unfold EditableRootModelSync.readPropertyValue,
      EditableRootModelSync.canBeRead, EditableRootModelSync.hasPermission.
    js_run. rewrite Hp. reflexivity.
  - destruct (hasPermission_denied _ _ _ _ (ReadOnlyChildModel.brokenRules i)
                r' Hin' Hd') as (ds & Hp & Hne & Hone).
    exists ds. split; [|split; [exact Hne | split; [apply toBrokenRule_error | exact Hone]]].
    unfold ReadOnlyChildModel.property_get, ReadOnlyChildModel.readPropertyValue,
      ReadOnlyChildModel.canBeRead, ReadOnlyChildModel.hasPermission.
    js_run. rewrite Hp. reflexivity.
Qed.

(** C4. In the editable root model the accessor of a property that has a
    custom getter hands the read to the getter and never asks whether the
    property may be read.  Also when an authorization rule denies the read
    of the property, the read is the run of the getter in the property
    context, with its result and its effects and nothing besides: a getter
    that returns a value of its own returns it to the caller, not null, and
    no broken rule is recorded. *)
Theorem C4_custom_getter_skips_the_read_permission {Child : Type}
    (rm : EditableRootModelSync.Model Child) (p : PropertyInfo)
    (g : Script Value) (r : AuthorizationRule)
    (s : EditableRootModelSync.Sys Child) :
  getter p = Some g ->
  readDeniedBy (EditableRootModelSync.authorizationRules rm)
    (EditableRootModelSync.user rm) p r ->
  EditableRootModelSync.property_get rm p s
  = EditableRootModelSync.withPropertyContext rm g s
  /\ (forall v, g = Return v ->
                EditableRootModelSync.property_get rm p s = (Normal v, s)).
Proof.
  intros Hg _. unfold EditableRootModelSync.property_get. rewrite Hg.
  split; [reflexivity|]. intros v ->. reflexivity.
Qed.

(** The clerk reads the display name, which only managers may read and
    whose getter answers with the vendor name: the clerk receives the vendor
    name, and no broken rule is recorded. *)
Lemma C4_witness :
  let s := EditableRootModelSync.start
             (Examples.order (Some MODEL_STATE.pristine) false (VStr "Acme")) in
  let g := GetValue "vendorName" (fun v => Return v) in
  EditableRootModelSync.property_get (Examples.BlanketOrderOf unit)
    Examples.displayName s
  = EditableRootModelSync.withPropertyContext (Examples.BlanketOrderOf unit)
      g s
  /\ (forall v, g = Return v ->
                EditableRootModelSync.property_get
                  (Examples.BlanketOrderOf unit) Examples.displayName s
                = (Normal v, s))
  /\ EditableRootModelSync.property_get (Examples.BlanketOrderOf unit)
       Examples.displayName s
     = (Normal (VStr "Acme"), s).
Proof.
  cbv zeta.
  destruct (C4_custom_getter_skips_the_read_permission
              (Examples.BlanketOrderOf unit) Examples.displayName
              (GetValue "vendorName" (fun v => Return v))
              (Examples.isInRole "displayName" "managers")
              (EditableRootModelSync.start
                 (Examples.order (Some MODEL_STATE.pristine) false
                    (VStr "Acme"))))
    as [H1 H2].
  - reflexivity.
  - split; [right; left; reflexivity | reflexivity].
  - split; [exact H1|]. split; [exact H2|]. vm_compute. reflexivity.
Defined.

(** The clerk reads the total price, which only managers may read and which
    has no getter. *)
Lemma denied_read_of_the_total_price :
  exists ds,
    EditableRootModelSync.property_get (Examples.BlanketOrderOf unit)
      Examples.totalPrice
      (EditableRootModelSync.start
         (Examples.order (Some MODEL_STATE.pristine) false (VStr "Acme")))
    = (Normal VNull,
       {| EditableRootModelSync.self :=
            EditableRootModelSync.set_brokenRules
              ([] ++ map toBrokenRule ds)
              (Examples.order (Some MODEL_STATE.pristine) false (VStr "Acme"));
          EditableRootModelSync.journal := [] |})
    /\ ds <> [].
Proof.
  destruct (denied_read_returns_null (Examples.BlanketOrderOf unit)
              Examples.BlanketOrderView Examples.totalPrice
              (Examples.isInRole "totalPrice" "managers")
              (Examples.isInRole "totalPrice" "managers")
              (EditableRootModelSync.start
                 (Examples.order (Some MODEL_STATE.pristine) false
                    (VStr "Acme")))
              {| ReadOnlyChildModel.store := <["totalPrice" := VNum 10]> ∅;
                 ReadOnlyChildModel.brokenRules := [] |})
    as [(ds & H & Hne & _) _].
  - reflexivity.
  - split; [left; reflexivity | reflexivity].
  - split; [left; reflexivity | reflexivity].
  - exists ds. split; assumption.
Qed.

End PropertyReads.

(** ** Validity of an object and its descendants *)

Module ObjectValidity.
Import EditableChildObject Validity.

(** Induction over an object and the objects below it. *)
Lemma Obj_tree_ind (Q : Obj -> Prop) :
  (forall v ks, Forall (fun k => Q (snd k)) ks -> Q (obj v ks)) ->
  forall o, Q o.
Proof.
  intros H. fix IH 1. intros [v ks]. apply H.
  induction ks as [|[n k] ks IHks]; constructor; [apply IH | exact IHks].
Qed.

Lemma isValid_list_spec (brs : list BrokenRule) :
  BrokenRuleList.isValid brs = true
  <-> Forall (fun b => severity b <> RuleSeverity.error) brs.
Proof.
  unfold BrokenRuleList.isValid. rewrite forallb_forall, Forall_forall.
  split; intros H b Hb.
  - apply list_elem_of_In in Hb. specialize (H b Hb).
    unfold isError in H. apply negb_true_iff, bool_decide_eq_false in H. exact H.
  - apply list_elem_of_In in Hb. specialize (H b Hb).
    unfold isError. apply negb_true_iff, bool_decide_eq_false. exact H.
Qed.

(** On any object, [isValid_checked] says whether the recorded rules of the
    object and its descendants are free of errors. *)
Lemma isValid_checked_spec (o : Obj) : isValid_checked o = true <-> errorFree o.
Proof.
  induction o as [v ks IH] using Obj_tree_ind.
  unfold errorFree. cbn [isValid_checked recordedRules].
  rewrite andb_true_iff, Forall_app, isValid_list_spec.
  apply and_iff_compat_l.
  induction ks as [|[n k] ks IHks]; [split; [constructor | reflexivity]|].
  inversion IH as [|? ? Hk Hks]; subst. cbn [snd] in Hk.
  rewrite andb_true_iff, Forall_app, Hk, (IHks Hks). reflexivity.
Qed.

(** [checkRules] leaves every object of the graph validated, and on such a
    graph the calls of [isValid] change nothing and answer
    [isValid_checked]: running [isValid] after [checkRules] is what the
    embedding of [isValid] writes down for an object not yet validated. *)
Lemma checkRules_allValidated (o : Obj) : allValidated (checkRules o) = true.
Proof.
  induction o as [v ks IH] using Obj_tree_ind.
  cbn [checkRules allValidated]. cbn [isValidated set_isValidated andb].
  induction ks as [|[n k] ks IHks]; [reflexivity|].
  inversion IH as [|? ? Hk Hks]; subst. cbn [snd] in Hk.
  rewrite Hk. exact (IHks Hks).
Qed.

Lemma isValid_allValidated (o : Obj) :
  allValidated o = true -> isValid o = (isValid_checked o, o).
Proof.
  induction o as [v ks IH] using Obj_tree_ind.
  cbn [allValidated isValid isValid_checked].
  intros H. apply andb_true_iff in H as [Hv Hks]. rewrite Hv.
  destruct (BrokenRuleList.isValid (brokenRules v)); [|reflexivity].
  cbn [andb].
  match goal with |- context [let '(_, _) := ?every ks in _] =>
    set (childrenAreValid := every)
  end.
  match goal with |- context [(?every ks, _)] =>
    set (checked := every)
  end.
  assert (E : childrenAreValid ks = (checked ks, ks)).
  { clear Hv. induction ks as [|[n k] ks IHks]; [reflexivity|].
    inversion IH as [|? ? Hk Hrest]; subst. cbn [snd] in Hk.
    cbn [childrenAreValid checked]. fold childrenAreValid. fold checked.
    apply andb_true_iff in Hks as [Hk1 Hks1].
    rewrite (Hk Hk1).
    destruct (isValid_checked k); [|reflexivity].
    rewrite (IHks Hrest Hks1). reflexivity. }
  rewrite E. reflexivity.
Qed.

Lemma isValid_after_checkRules (o : Obj) :
  isValid (checkRules o) = (isValid_checked (checkRules o), checkRules o).
Proof. apply isValid_allValidated, checkRules_allValidated. Qed.

(** The editable child object: [isValid()] is true iff, in the object graph
    it leaves behind, no broken rule of severity error is recorded on the
    object or on any of its descendants. *)
Lemma child_isValid_spec (o : Obj) :
  fst (isValid o) = true <-> errorFree (snd (isValid o)).
Proof.
  induction o as [v ks IH] using Obj_tree_ind.
  cbn [isValid]. destruct (isValidated v).
  2:{ cbn [fst snd]. apply isValid_checked_spec. }
  destruct (BrokenRuleList.isValid (brokenRules v)) eqn:Hown.
  2:{ cbn [fst snd]. split; [discriminate|].
      unfold errorFree. cbn [recordedRules]. rewrite Forall_app.
      intros [H _]. apply isValid_list_spec in H. congruence. }
  apply isValid_list_spec in Hown.
  match goal with |- context [let '(_, _) := ?every ks in _] =>
    set (childrenAreValid := every)
  end.
  assert (Hks : forall ks0, Forall (fun k => fst (isValid (snd k)) = true
                          <-> errorFree (snd (isValid (snd k)))) ks0 ->
            fst (childrenAreValid ks0) = true
            <-> Forall (fun b => severity b <> RuleSeverity.error)
                  ((fix below (ks : list (string * Obj)) : list BrokenRule :=
                      match ks with
                      | [] => []
                      | (_, child) :: ks' => recordedRules child ++ below ks'
                      end) (snd (childrenAreValid ks0)))).
  { clear. induction ks0 as [|[n k] ks0 IHks]; intros H.
    - cbn. split; [constructor | reflexivity].
    - inversion H as [|? ? Hk Hrest]; subst. cbn [snd] in Hk.
      cbn [childrenAreValid]. fold childrenAreValid.
      destruct (isValid k) as [ok k'] eqn:Ek. cbn [fst snd] in Hk.
      destruct ok.
      + specialize (IHks Hrest).
        destruct (childrenAreValid ks0) as [r ks1]. cbn [fst snd] in *.
        rewrite Forall_app, <- IHks.
        unfold errorFree in Hk. rewrite <- Hk. tauto.
      + cbn [fst snd]. split; [discriminate|].
        rewrite Forall_app. intros [Hbad _].
        unfold errorFree in Hk. apply Hk in Hbad. discriminate. }
  specialize (Hks ks IH).
  destruct (childrenAreValid ks) as [r ks']. cbn [fst snd] in *.
  unfold errorFree. cbn [recordedRules]. rewrite Forall_app. tauto.
Qed.

Section Root.
Import EditableRootModelSync.
Context {Child : Type}.
Variable model : Model Child.

Lemma forEach_validate_ignores_children (ks : list (string * Child))
    (ps : list PropertyInfo) (i : Instance Child) (j : list Effect) :
  forEach (validate_ model) ps {| self := set_kids ks i; journal := j |}
  = let '(r, s') := forEach (validate_ model) ps {| self := i; journal := j |} in
    (r, {| self := set_kids ks (self s'); journal := journal s' |}).
Proof.
  revert i. induction ps as [|p ps IH]; intros i; cbn [forEach].
  - reflexivity.
  - unfold bind, validate_, assign, modify.
    cbn [self journal].
    change (set_brokenRules ?b (set_kids ks i))
      with (set_kids ks (set_brokenRules b i)).
    cbn [store brokenRules set_kids]. apply IH.
Qed.

(** [isValid] of the editable root model never looks at the children: with
    other children in the slots it gives the same answer and leaves the same
    variables behind. *)
Lemma root_isValid_ignores_children (ks : list (string * Child))
    (i : Instance Child) (j : list Effect) :
  isValid model {| self := set_kids ks i; journal := j |}
  = let '(r, s') := isValid model {| self := i; journal := j |} in
    (r, {| self := set_kids ks (self s'); journal := journal s' |}).
Proof.
  unfold isValid, checkRules; js_run. cbn [self journal isValidated set_kids].
  destruct (isValidated i); js_run; [reflexivity|].
  cbn [self journal brokenRules set_kids].
  change (set_brokenRules ?b (set_kids ks i))
    with (set_kids ks (set_brokenRules b i)).
  rewrite forEach_validate_ignores_children.
  destruct (forEach _ _ _) as [[[]|e] s1]; reflexivity.
Qed.
End Root.

(** C2. The claim asks [isValid()] to be false as soon as a descendant
    holds a broken rule of severity error, and the documentation of
    [isValid] of the editable root model promises the same ("including the
    ones of its child objects").  The code of the editable root model never
    consults its children: a valid order whose slot [item] holds an item with a
    broken [error] rule (the item itself answers false) answers true. *)
Theorem C2_root_isValid_ignores_children :
  let child :=
    checkRules (obj (Examples.item (Some MODEL_STATE.created) true (VStr "")) []) in
  let root := Examples.orderWithItem (VStr "Acme") child in
  EditableRootModelSync.kids root = [("item", child)]
  /\ ~ errorFree child
  /\ fst (isValid child) = false
  /\ fst (EditableRootModelSync.isValid (Examples.BlanketOrderOf Obj)
            (EditableRootModelSync.start root))
     = Normal true.
Proof.
  cbv zeta. split; [reflexivity|]. split; [|split].
  - rewrite <- isValid_checked_spec. vm_compute. discriminate.
  - vm_compute. reflexivity.
  - vm_compute. reflexivity.
Qed.

End ObjectValidity.

(* ===================================================================== *)
(** * Part II, continued. Properties of the units beside the models      *)
(* ===================================================================== *)

(** ** The argument checks *)

Module ArgumentChecks.
Import ArgumentCheck.

(** Comparing two texts that are both known. *)
Ltac eqb_lit :=
  repeat match goal with
  | |- context [String.eqb ?a ?b] =>
      let r := eval vm_compute in (String.eqb a b) in
      match r with
      | true => change (String.eqb a b) with true
      | false => change (String.eqb a b) with false
      end
  end.

(** Running the [typeof] and [instanceof] tests of a check on a value whose
    form is known, and splitting on the tests that are left. *)
Ltac js_tests :=
  cbn -[String.eqb blank isWhole]; eqb_lit; cbn -[String.eqb blank isWhole].

Ltac by_cases :=
  repeat match goal with
  | |- context [if ?c then _ else _] => destruct c eqn:?
  end.

Ltac unfold_checks :=
  unfold as_, asDefined, hasValue, asString, asNumber, asInteger, asBoolean,
    asObject, asFunction, asType, asArray, mandatory, undefinedToNull,
    isString, isNumber, isBoolean, instanceOf.

(** What [trim] strips is not ASCII white space only: a no-break space
    (U+00A0), a line separator (U+2028) and a byte order mark (U+FEFF) in a
    row trim to nothing, and so does ASCII white space; a letter among them,
    or half an encoding, does not. *)
Lemma blank_beyond_ascii :
  blank (String "194" (String "160"
          (String "226" (String "128" (String "168"
            (String "239" (String "187" (String "191" "")))))))) = true
  /\ blank (String "009" (String "010" " ")) = true
  /\ blank (String "194" (String "160" "a")) = false
  /\ blank (String "194" "") = false.
Proof. repeat split. Qed.

(** A mandatory string that is a no-break space is refused, as an empty
    one is. *)
Lemma mandatory_string_of_white_space (arguments : list Val)
    (this : Builder) :
  exists e,
    fst (asString arguments
           (forMandatory None
              (check (Str (String "194" (String "160" ""))) this)))
    = Throws e.
Proof. eexists. reflexivity. Qed.

(** X1. A check of a string, number, integer, Boolean, object or function
    that returns hands back the value it was given, unchanged, or [null] in
    place of an [undefined] that was not mandatory; it never returns
    [undefined]. *)
Theorem checked_value_is_given_or_null (k : Kind) (arguments : list Val)
    (this : Builder) (r : Val) :
  fst (as_ k arguments this) = Returns r ->
  r <> Undefined
  /\ (r = value this
      \/ (r = Null /\ value this = Undefined
          /\ isMandatory this <> Some true)).
Proof.
  destruct this as [g c m p n [[]|] v].
  all: destruct k; unfold_checks; destruct v as [| |?|?|?|?|?|?|??|?|?];
    js_tests; by_cases; js_tests; try discriminate.
  all: intros [= <-]; split; [discriminate|];
    first [left; reflexivity | right; repeat split; discriminate].
Qed.

Lemma checked_value_is_given_or_null_witness :
  Null <> Undefined
  /\ (Null = value (forOptional (Some "method") (check Undefined (inMethod "Model" "fetch")))
      \/ (Null = Null
          /\ value (forOptional (Some "method")
                      (check Undefined (inMethod "Model" "fetch")))
             = Undefined
          /\ isMandatory (forOptional (Some "method")
                            (check Undefined (inMethod "Model" "fetch")))
             <> Some true)).
Proof.
  apply (checked_value_is_given_or_null aString []
           (forOptional (Some "method")
              (check Undefined (inMethod "Model" "fetch"))) Null).
  reflexivity.
Defined.

(** X2. Whatever a mandatory check accepts, the optional check and the
    plain check of the same kind accept too, on any builder and with any
    message, and all three return the value itself. *)
Theorem mandatory_accepts_least (k : Kind) (v r : Val)
    (n n' : option string) (a a' : list Val) (b b' : Builder) :
  fst (as_ k a (forMandatory n (check v b))) = Returns r ->
  r = v
  /\ fst (as_ k a' (forOptional n' (check v b'))) = Returns v
  /\ fst (as_ k a' (forGeneric n' (check v b'))) = Returns v.
Proof.
  destruct k; unfold_checks; destruct v as [| |?|?|?|?|?|?|??|?|?];
    js_tests; by_cases; js_tests; try discriminate.
  all: intros [= <-]; repeat split; reflexivity.
Qed.

Lemma mandatory_accepts_least_witness :
  Num (Finite (7 # 1)) = Num (Finite (7 # 1))
  /\ fst (as_ anInteger [] (forOptional None
            (check (Num (Finite (7 # 1))) ArgumentCheckFactory)))
     = Returns (Num (Finite (7 # 1)))
  /\ fst (as_ anInteger [] (forGeneric None
            (check (Num (Finite (7 # 1))) ArgumentCheckFactory)))
     = Returns (Num (Finite (7 # 1))).
Proof.
  apply (mandatory_accepts_least anInteger (Num (Finite (7 # 1)))
           (Num (Finite (7 # 1))) (Some "count") None [] []
           (inConstructor "Page") ArgumentCheckFactory).
  reflexivity.
Defined.

(** X3. Every value [asInteger] accepts, [asNumber] accepts in the same
    mode, and returns the same. *)
Theorem integer_is_number (v r : Val) (a a' : list Val) (this : Builder) :
  fst (asInteger a (check v this)) = Returns r ->
  fst (asNumber a' (check v this)) = Returns r.
Proof.
  unfold_checks;
    destruct this as [g c m p n [[]|] v0], v as [| |?|?|?|?|?|?|??|?|?];
    js_tests; by_cases; js_tests; try discriminate;
    intros [= <-]; reflexivity.
Qed.

Lemma integer_is_number_witness :
  fst (asNumber [] (check (BoxedNum (Finite (3 # 1)))
                      (forMandatory (Some "size") ArgumentCheckFactory)))
  = Returns (BoxedNum (Finite (3 # 1))).
Proof.
  apply (integer_is_number (BoxedNum (Finite (3 # 1)))
           (BoxedNum (Finite (3 # 1))) [] []
           (forMandatory (Some "size") ArgumentCheckFactory)).
  reflexivity.
Defined.

(** X4. [asArray] returns an array or throws: the array holds nothing (a
    missing optional value), the one value that was given, or the items of
    the array that was given, and every item of it is of the requested
    type. *)
Theorem asArray_returns_typed_array (type : string) (args : list Val)
    (this : Builder) (r : Val) :
  fst (asArray type args this) = Returns r ->
  exists items,
    r = Arr items
    /\ forallb (isItem type) items = true
    /\ (items = [] \/ items = [value this] \/ value this = Arr items).
Proof.
  unfold asArray.
  destruct (negb (mandatory this) && _).
  { intros [= <-]. exists []. repeat split. left. reflexivity. }
  destruct (isItem type (value this)) eqn:E.
  { intros [= <-]. exists [value this]. cbn [forallb]. rewrite E.
    repeat split. right. left. reflexivity. }
  destruct (value this) as [| |?|?|?|?|?|?|??|?|items] eqn:Ev;
    try discriminate.
  destruct (forallb (isItem type) items) eqn:Ei; [|discriminate].
  intros [= <-]. exists items. repeat split; [exact Ei|].
  right. right. reflexivity.
Qed.

Lemma asArray_returns_typed_array_witness :
  exists items,
    Arr [Str "a"; BoxedStr "b"] = Arr items
    /\ forallb (isItem "String") items = true
    /\ (items = []
        \/ items = [value (forMandatory (Some "names")
                             (check (Arr [Str "a"; BoxedStr "b"])
                                ArgumentCheckFactory))]
        \/ value (forMandatory (Some "names")
                    (check (Arr [Str "a"; BoxedStr "b"]) ArgumentCheckFactory))
           = Arr items).
Proof.
  apply (asArray_returns_typed_array "String" []
           (forMandatory (Some "names")
              (check (Arr [Str "a"; BoxedStr "b"]) ArgumentCheckFactory))
           (Arr [Str "a"; BoxedStr "b"])).
  reflexivity.
Defined.

End ArgumentChecks.

(** ** The base class of the rules *)

Module RuleBaseFacts.
Import ArgumentCheck ArgumentChecks RuleBase.

Lemma assignEach_app (pre post : list Val) (this : Rule) :
  assignEach (pre ++ post) this
  = match assignEach pre this with
    | (None, this') => assignEach post this'
    | (Some e, this') => (Some e, this')
    end.
Proof.
  revert this. induction pre as [|a pre IH]; intros this; [reflexivity|].
  cbn [app assignEach]. destruct a; try reflexivity; apply IH.
Qed.

(** The loop over arguments that are strings, numbers and Booleans. *)
Lemma assignEach_fields (args : list Val) (this : Rule) :
  Forall (fun v => typed "string" v || typed "number" v || typed "boolean" v
                   = true) args ->
  fst (assignEach args this) = None
  /\ ruleName (snd (assignEach args this)) = ruleName this
  /\ message (snd (assignEach args this))
     = default (message this) (List.find (typed "string") (rev args))
  /\ priority (snd (assignEach args this))
     = match List.find (typed "number") (rev args) with
       | Some (Num x) => round x
       | _ => priority this
       end
  /\ stopsProcessing (snd (assignEach args this))
     = match List.find (typed "boolean") (rev args) with
       | Some (Bool b) => b
       | _ => stopsProcessing this
       end.
Proof.
  induction args as [|a args IH] using rev_ind; intros H.
  { repeat split. }
  apply Forall_app in H as [H Ha]. rewrite Forall_singleton in Ha.
  specialize (IH H). destruct IH as (E1 & E2 & E3 & E4 & E5).
  rewrite assignEach_app, rev_app_distr.
  destruct (assignEach args this) as [[e|] this'] eqn:E; [discriminate|].
  cbn [fst snd] in *. cbn [rev app List.find].
  destruct a; unfold typed in Ha |- *; vm_compute in Ha; try discriminate;
    js_tests; cbn [fst snd ruleName message priority stopsProcessing default];
    repeat split; assumption.
Qed.

(** Dropping [null] and [undefined] loses no string, number or Boolean. *)
Lemma find_typed_filter (t : string) (l : list Val) :
  t = "string" \/ t = "number" \/ t = "boolean" ->
  List.find (typed t)
    (rev (List.filter (fun arg => negb (isNull arg) && negb (isUndefined arg))
            l))
  = List.find (typed t) (rev l).
Proof.
  intros Ht. induction l as [|a l IH] using rev_ind; [reflexivity|].
  rewrite List.filter_app, !rev_app_distr. cbn [List.filter rev app].
  destruct a; cbn [isNull isUndefined negb andb rev app List.find];
    try (f_equal; exact IH); rewrite IH; unfold typed;
    destruct Ht as [-> | [-> | ->]]; js_tests; reflexivity.
Qed.

Lemma filtered_are_typed (l : list Val) :
  Forall (fun v => isNull v || isUndefined v || typed "string" v
                   || typed "number" v || typed "boolean" v = true) l ->
  Forall (fun v => typed "string" v || typed "number" v || typed "boolean" v
                   = true)
    (List.filter (fun arg => negb (isNull arg) && negb (isUndefined arg)) l).
Proof.
  intros H. induction H as [|a l Ha H IH]; [constructor|].
  cbn [List.filter]. destruct a; cbn [isNull isUndefined negb andb];
    try exact IH; constructor; try exact IH; exact Ha.
Qed.

(** X5. [initialize] takes its arguments in any order and skips [null]
    and [undefined]: when every other argument is a string, a number or a
    Boolean, the message is the last string among them, the priority is
    [Math.round] of the last number and [stopsProcessing] is the last
    Boolean, each member keeping its value when there is no such argument;
    and the call returns exactly when the message it leaves is a non-empty
    string. *)
Theorem initialize_takes_the_last_of_each_type (arguments : list Val)
    (this : Rule) :
  Forall (fun v => isNull v || isUndefined v || typed "string" v
                   || typed "number" v || typed "boolean" v = true)
         arguments ->
  let this' := snd (initialize arguments this) in
  ruleName this' = ruleName this
  /\ message this'
     = default (message this) (List.find (typed "string") (rev arguments))
  /\ priority this'
     = match List.find (typed "number") (rev arguments) with
       | Some (Num x) => round x
       | _ => priority this
       end
  /\ stopsProcessing this'
     = match List.find (typed "boolean") (rev arguments) with
       | Some (Bool b) => b
       | _ => stopsProcessing this
       end
  /\ (fst (initialize arguments this) = None
      <-> ofKind aString (message this') = true).
Proof.
  intros H this'. subst this'. unfold initialize.
  destruct (assignEach_fields _ this (filtered_are_typed _ H))
    as (E1 & E2 & E3 & E4 & E5).
  rewrite find_typed_filter in E3, E4, E5 by tauto.
  destruct (assignEach _ this) as [[e|] r] eqn:E; [discriminate|].
  cbn [fst snd] in *.
  assert (Hm : match fst (asString [] (forMandatory (Some "message")
                       (check (message r) (inMethod CLASS_NAME "initialize"))))
               with Returns _ => True | Throws _ => False end
              <-> ofKind aString (message r) = true).
  { unfold ofKind. unfold_checks.
    destruct (message r); js_tests;
      repeat match goal with
             | |- context [blank ?s] => destruct (blank s)
             | |- context [existsb ?f ?l] => destruct (existsb f l)
             end;
      js_tests; split; intros Hx;
      first [reflexivity | exact I | discriminate | contradiction]. }
  destruct (fst (asString _ _)); cbn [fst snd];
    repeat split; try assumption.
  - intros _. apply Hm. exact I.
  - discriminate.
  - intros Hk. apply Hm in Hk. destruct Hk.
Qed.

Lemma initialize_takes_the_last_of_each_type_witness :
  let this' :=
    snd (initialize [Bool true; Null; Str "Too short"; Num (Finite (5 # 2))]
           {| ruleName := Str "MinLength"; message := Null;
              priority := Finite (10 # 1); stopsProcessing := false |}) in
  ruleName this' = Str "MinLength"
  /\ message this' = Str "Too short"
  /\ priority this' = Finite (3 # 1)
  /\ stopsProcessing this' = true
  /\ (fst (initialize [Bool true; Null; Str "Too short"; Num (Finite (5 # 2))]
             {| ruleName := Str "MinLength"; message := Null;
                priority := Finite (10 # 1); stopsProcessing := false |})
      = None
      <-> ofKind aString (message this') = true).
Proof.
  apply (initialize_takes_the_last_of_each_type
           [Bool true; Null; Str "Too short"; Num (Finite (5 # 2))]
           {| ruleName := Str "MinLength"; message := Null;
              priority := Finite (10 # 1); stopsProcessing := false |}).
  repeat constructor.
Defined.

(** X6. [initialize] is not all-or-nothing: at the first argument that is
    an object or a function it throws the argument error ['rule'], and the
    members set from the arguments before it keep their new values. *)
Theorem initialize_stops_at_a_wrong_argument (pre post : list Val)
    (bad : Val) (this : Rule) :
  Forall (fun v => isNull v || isUndefined v || typed "string" v
                   || typed "number" v || typed "boolean" v = true) pre ->
  isNull bad || isUndefined bad || typed "string" bad || typed "number" bad
  || typed "boolean" bad = false ->
  fst (initialize (pre ++ bad :: post) this) = Some ruleError
  /\ snd (initialize (pre ++ bad :: post) this) = snd (initialize pre this).
Proof.
  intros H Hbad. unfold initialize.
  rewrite List.filter_app, assignEach_app.
  destruct (assignEach_fields _ this (filtered_are_typed _ H)) as (E1 & _).
  destruct (assignEach _ this) as [[e|] r] eqn:E; [discriminate|].
  assert (Hf : assignEach
                 (List.filter
                    (fun arg => negb (isNull arg) && negb (isUndefined arg))
                    (bad :: post)) r
               = (Some ruleError, r)).
  { cbn [List.filter].
    destruct bad; vm_compute in Hbad; try discriminate; reflexivity. }
  rewrite Hf. cbn [fst snd].
  destruct (fst (asString _ _)); split; reflexivity.
Qed.

Lemma initialize_stops_at_a_wrong_argument_witness :
  fst (initialize ([Str "Too short"] ++ Arr [] :: [Bool true])
         {| ruleName := Str "MinLength"; message := Null;
            priority := Finite (10 # 1); stopsProcessing := false |})
  = Some ruleError
  /\ snd (initialize ([Str "Too short"] ++ Arr [] :: [Bool true])
            {| ruleName := Str "MinLength"; message := Null;
               priority := Finite (10 # 1); stopsProcessing := false |})
     = snd (initialize [Str "Too short"]
              {| ruleName := Str "MinLength"; message := Null;
                 priority := Finite (10 # 1); stopsProcessing := false |}).
Proof.
  apply (initialize_stops_at_a_wrong_argument [Str "Too short"] [Bool true]
           (Arr [])
           {| ruleName := Str "MinLength"; message := Null;
              priority := Finite (10 # 1); stopsProcessing := false |}).
  - repeat constructor.
  - reflexivity.
Defined.

End RuleBaseFacts.

(** ** The user information object and the decimal data type *)

Module UserInfoFacts.
Import ArgumentCheck ArgumentChecks UserInfo.

(** The setter accepts the non-empty strings and nothing else. *)
Lemma set_userCode_spec (v : Val) (this : t) :
  set_userCode v this
  = if ofKind aString v then (None, {| userCode := v |})
    else (Some (exception "manString" None []
                  (forMandatory None
                     (check v (inProperty CLASS_NAME "userCode")))),
          this).
Proof.
  unfold set_userCode, ofKind. unfold_checks.
  destruct v; js_tests;
    repeat match goal with
           | |- context [blank ?s] => destruct (blank s)
           | |- context [existsb ?f ?l] => destruct (existsb f l)
           end; reflexivity.
Qed.

(** X7. The user code is [null] or a string from the construction on, and
    assignments cannot take it back: after any run of assignments, failed
    ones included, it is the last assigned value that was a non-empty
    string, or the value given to the constructor when there was none. *)
Theorem userCode_is_the_last_accepted (given : Val) (u0 : t)
    (values : list Val) :
  new given = inr u0 ->
  let u := assignments values u0 in
  userCode u
  = default (userCode u0) (List.find (ofKind aString) (rev values))
  /\ (userCode u = Null \/ isString (userCode u) = true).
Proof.
  intros Hnew u. subst u.
  assert (H0 : userCode u0 = Null \/ isString (userCode u0) = true).
  { revert Hnew. unfold new. unfold_checks.
    destruct given; js_tests; by_cases; js_tests; try discriminate;
      intros [= <-]; cbn [userCode]; first [left; reflexivity | right];
      unfold isString, instanceOf; js_tests;
      first [reflexivity | assumption | apply negb_false_iff; assumption]. }
  induction values as [|v values IH] using rev_ind.
  { split; [reflexivity | exact H0]. }
  unfold assignments in *. rewrite foldl_app, rev_app_distr.
  cbn [foldl rev app List.find]. rewrite set_userCode_spec.
  destruct (ofKind aString v) eqn:Ev; cbn [snd userCode default].
  - split; [reflexivity|]. right.
    unfold ofKind in Ev. apply andb_true_iff in Ev as [Ev _]. exact Ev.
  - exact IH.
Qed.

Lemma userCode_is_the_last_accepted_witness :
  let u :=
    assignments [Str "ada"; Null; Str "  "; Num NaN] {| userCode := Null |} in
  userCode u
  = default (userCode {| userCode := Null |})
      (List.find (ofKind aString) (rev [Str "ada"; Null; Str "  "; Num NaN]))
  /\ (userCode u = Null \/ isString (userCode u) = true).
Proof.
  apply (userCode_is_the_last_accepted Undefined {| userCode := Null |}
           [Str "ada"; Null; Str "  "; Num NaN]).
  reflexivity.
Defined.

End UserInfoFacts.

Module DecimalFacts.
Import ArgumentCheck ArgumentChecks Decimal.

(** X8. [hasValue] of the decimal type answers false for [null] only and
    true for the numbers only, [NaN] included; for every other value it
    throws the data type error, and so it does for [undefined], which its
    own comparison with [undefined] therefore never sees. *)
Theorem hasValue_answers_for_numbers_and_null (v : Val) :
  (hasValue v = Returns false <-> v = Null)
  /\ (hasValue v = Returns true <-> isNumber v = true)
  /\ (hasValue v = Throws "decimal"
      <-> v <> Null /\ isNumber v = false)
  /\ hasValue Undefined = Throws "decimal"
  /\ hasValue (Num NaN) = Returns true.
Proof.
  unfold hasValue, Decimal.check, isNumber, instanceOf.
  destruct v; js_tests;
    repeat match goal with
           | |- context [existsb ?f ?l] => destruct (existsb f l)
           end;
    js_tests; repeat split; intros; try discriminate; try reflexivity;
    try tauto; try congruence.
  all: match goal with H : _ /\ _ |- _ => destruct H; try discriminate;
                                           try congruence end.
Qed.

End DecimalFacts.

(** ** The transfer context *)

Module TransferContextFacts.
Import TransferContext.

Section Facts.
Context {S : Type}.

Lemma getByName_find (ps : list PropertyInfo) (n : string) (s : S) :
  getByName ps n s
  = match List.find (fun p => String.eqb (Shared.name p) n) ps with
    | Some p => (Normal p, s)
    | None => (Throw (ModelError "noProperty" ["undefined"; n]), s)
    end.
Proof.
  induction ps as [|p ps IH]; [reflexivity|].
  cbn [getByName List.find]. destruct (String.eqb (Shared.name p) n);
    [reflexivity | exact IH].
Qed.

(** X9. A transfer context resolves a name that is not blank to the first
    property of that name and hands it to the model's reader or writer;
    for a name that no property has it throws the model error
    [noProperty] and leaves the model alone; and [setValue] with
    [undefined] writes nothing and does not even look the name up. *)
Theorem names_resolve_to_the_first_property (ps : list PropertyInfo)
    (g : PropertyInfo -> M S Value) (f : PropertyInfo -> Value -> M S unit)
    (n : string) (v : Value) (s : S) :
  blank n = false ->
  getValue ps (Some g) n s
  = match List.find (fun p => String.eqb (Shared.name p) n) ps with
    | Some p => g p s
    | None => (Throw (ModelError "noProperty" ["undefined"; n]), s)
    end
  /\ (v <> VUndefined ->
      setValue ps (Some f) n v s
      = match List.find (fun p => String.eqb (Shared.name p) n) ps with
        | Some p => f p v s
        | None => (Throw (ModelError "noProperty" ["undefined"; n]), s)
        end)
  /\ setValue ps (Some f) n VUndefined s = (Normal tt, s).
Proof.
  intros Hn. unfold getValue, setValue, asMandatoryString. rewrite Hn.
  unfold bind, ret. rewrite getByName_find. repeat split.
  - destruct (List.find _ ps); reflexivity.
  - intros Hv. rewrite bool_decide_eq_true_2 by exact Hv.
    rewrite getByName_find. destruct (List.find _ ps); reflexivity.
Qed.

End Facts.

Lemma names_resolve_to_the_first_property_witness :
  getValue [Examples.vendorName; Examples.totalPrice] (Some Samples.readStore)
    "totalPrice" (<["totalPrice" := VNum 10]> ∅)
  = match List.find (fun p => String.eqb (Shared.name p) "totalPrice")
            [Examples.vendorName; Examples.totalPrice] with
    | Some p => Samples.readStore p (<["totalPrice" := VNum 10]> ∅)
    | None => (Throw (ModelError "noProperty" ["undefined"; "totalPrice"]),
               <["totalPrice" := VNum 10]> ∅)
    end
  /\ (VNum 12 <> VUndefined ->
      setValue [Examples.vendorName; Examples.totalPrice]
        (Some Samples.writeStore) "totalPrice" (VNum 12)
        (<["totalPrice" := VNum 10]> ∅)
      = match List.find (fun p => String.eqb (Shared.name p) "totalPrice")
              [Examples.vendorName; Examples.totalPrice] with
        | Some p => Samples.writeStore p (VNum 12)
                      (<["totalPrice" := VNum 10]> ∅)
        | None => (Throw (ModelError "noProperty" ["undefined"; "totalPrice"]),
                   <["totalPrice" := VNum 10]> ∅)
        end)
  /\ setValue [Examples.vendorName; Examples.totalPrice]
       (Some Samples.writeStore) "totalPrice" VUndefined
       (<["totalPrice" := VNum 10]> ∅)
     = (Normal tt, <["totalPrice" := VNum 10]> ∅).
Proof.
  apply (names_resolve_to_the_first_property
           [Examples.vendorName; Examples.totalPrice]
           Samples.readStore Samples.writeStore "totalPrice" (VNum 12)
           (<["totalPrice" := VNum 10]> ∅)).
  reflexivity.
Defined.

End TransferContextFacts.

(** ** The collections *)

Module CollectionFacts.

Section Sync.
Import EditableCollectionSync.
Context {Item Data : Type}.
Variable load : Data -> Completion Item.

(** X10. [fetch] of a synchronous collection adds to the items it holds,
    at the end and in the order of the data, one item per element: the
    item loaded from element [k] is then found by [at] at the old count
    plus [k].  When the load of an element throws, the items loaded before
    it stay in the collection; data that is no array changes nothing. *)
Theorem fetch_appends_in_data_order (items loaded : list Item)
    (dtos post : list Data) (bad : Data) (e : Exn) :
  Forall2 (fun dto item => load dto = Normal item) dtos loaded ->
  fetch load (Some dtos) items = (Normal tt, items ++ loaded)
  /\ (forall k item, nth_error loaded k = Some item ->
        at_ (Z.of_nat (count items + k)) (items ++ loaded) = Some item)
  /\ (load bad = Throw e ->
      fetch load (Some (dtos ++ bad :: post)) items
      = (Throw e, items ++ loaded))
  /\ fetch load None items = (Normal tt, items).
Proof.
  intros H. repeat split.
  - revert items. induction H as [|dto item dtos loaded Hl H IH]; intros items.
    + cbn. rewrite app_nil_r. reflexivity.
    + cbn [fetch forEach] in *. unfold bind at 1. unfold bind at 1.
      rewrite Hl. unfold modify. rewrite IH, <- app_assoc. reflexivity.
  - intros k item Hk. unfold at_, count.
    replace (Z.of_nat _ <? 0)%Z with false by (symmetry; apply Z.ltb_ge; lia).
    rewrite Nat2Z.id, nth_error_app2 by lia.
    replace (List.length items + k - List.length items) with k by lia.
    exact Hk.
  - intros Hbad. revert items.
    induction H as [|dto item dtos loaded Hl H IH]; intros items.
    + cbn [app fetch forEach]. unfold bind at 1. unfold bind at 1.
      rewrite Hbad, app_nil_r. reflexivity.
    + cbn [app fetch forEach] in *. unfold bind at 1. unfold bind at 1.
      rewrite Hl. unfold modify. rewrite IH, <- app_assoc. reflexivity.
Qed.

End Sync.

Lemma fetch_appends_in_data_order_witness :
  EditableCollectionSync.fetch Samples.loadAddress (Some ["Buda"; "Pest"])
    ["Vienna"]
  = (Normal tt, ["Vienna"] ++ ["Buda"; "Pest"])
  /\ (forall k item, nth_error ["Buda"; "Pest"] k = Some item ->
        EditableCollectionSync.at_
          (Z.of_nat (EditableCollectionSync.count ["Vienna"] + k))
          (["Vienna"] ++ ["Buda"; "Pest"]) = Some item)
  /\ (Samples.loadAddress "" = Throw (ExternalError "no data") ->
      EditableCollectionSync.fetch Samples.loadAddress
        (Some (["Buda"; "Pest"] ++ "" :: ["Prague"])) ["Vienna"]
      = (Throw (ExternalError "no data"), ["Vienna"] ++ ["Buda"; "Pest"]))
  /\ EditableCollectionSync.fetch Samples.loadAddress None ["Vienna"]
     = (Normal tt, ["Vienna"]).
Proof.
  apply (fetch_appends_in_data_order Samples.loadAddress ["Vienna"]
           ["Buda"; "Pest"] ["Buda"; "Pest"] ["Prague"] ""
           (ExternalError "no data")).
  repeat constructor.
Defined.

Section Async.
Import EditableCollection Cascade.
Context {Item : Type}.

(** X11. While the loads of an asynchronous [fetch] complete, the
    collection holds the items it held before followed by the items of the
    loads that succeeded so far, in the order in which the loads completed
    and not in the order of the data; a load that fails adds nothing and
    takes nothing away, and [count] of the join is the number of loads that
    have completed. *)
Theorem fetch_collects_in_completion_order (items0 : list Item)
    (dataLength : nat) (completions : list (option Exn * Item)) :
  1 <= dataLength ->
  items (fetch items0 dataLength completions)
  = items0 ++ loadedItems completions
  /\ count (fetch items0 dataLength completions) = List.length completions.
Proof.
  intros Hpos. unfold fetch.
  replace (dataLength =? 0)%nat with false
    by (symmetry; apply Nat.eqb_neq; lia).
  induction completions as [|[err item] cs IH] using rev_ind.
  - cbn. rewrite app_nil_r. split; reflexivity.
  - rewrite foldl_app. cbn [foldl]. destruct IH as [IH1 IH2].
    unfold loaded at 1 3. cbn [items count fst snd].
    rewrite IH1, IH2. unfold loadedItems. rewrite flat_map_app, length_app.
    cbn. split; [|lia].
    destruct err; cbn; rewrite ?app_nil_r, ?app_assoc; reflexivity.
Qed.

End Async.

Lemma fetch_collects_in_completion_order_witness :
  EditableCollection.items
    (EditableCollection.fetch ["Vienna"] 3
       [(None, "Pest"); (Some (ExternalError "no data"), ""); (None, "Buda")])
  = ["Vienna"]
    ++ Cascade.loadedItems
         [(None, "Pest"); (Some (ExternalError "no data"), "");
          (None, "Buda")]
  /\ EditableCollection.count
       (EditableCollection.fetch ["Vienna"] 3
          [(None, "Pest"); (Some (ExternalError "no data"), "");
           (None, "Buda")])
     = List.length
         [(None, "Pest"); (Some (ExternalError "no data"), "");
          (None, "Buda")].
Proof.
  apply (fetch_collects_in_completion_order ["Vienna"] 3
           [(None, "Pest"); (Some (ExternalError "no data"), "");
            (None, "Buda")]).
  lia.
Defined.

End CollectionFacts.

(** ** The data portal of the read-only root collection *)

Module RootCollectionFetch.
Import ReadOnlyRootCollection.

Section Facts.
Context {Item Data : Type}.
Variable model : Model Item Data.

Ltac run :=
  cbv beta iota zeta
      delta [bind ret throw gets modify try_catch perform complete
             set_connection set_totalItems push permitted canDo canExecute
             raiseEvent open close fst snd].

Ltac fields :=
  cbn [items brokenRules isValidated connection totalItems journal fst snd].


Lemma load_each_stops (pre post : list Data) (bad : Data) (e : Exn)
    (loaded : list Item) (i : Instance Item) :
  Forall2 (fun data item => load model data = Normal item) pre loaded ->
  load model bad = Throw e ->
  forEach (fun data => let! item := complete (load model data) in push item)
          (pre ++ bad :: post) i
  = (Throw e,
     {| items := items i ++ loaded; brokenRules := brokenRules i;
        isValidated := isValidated i; connection := connection i;
        totalItems := totalItems i; journal := journal i |}).
Proof.
  intros H Hbad. revert i.
  induction H as [|d it rows loaded Hl H IH]; intros i.
  - cbn [app forEach]. unfold bind at 1. unfold bind at 1. rewrite Hbad.
    cbn. rewrite app_nil_r. destruct i; reflexivity.
  - cbn [app forEach]. unfold bind at 1. unfold bind at 1. rewrite Hl.
    cbn [complete]. unfold ret at 1. unfold push at 1, modify at 1.
    rewrite IH. fields. rewrite <- app_assoc. reflexivity.
Qed.

(** The [catch] block, when its listener and the closing return. *)
Lemma failed_eq (method : string) (e : Exn) (c' : Value) (i : Instance Item) :
  listeners model postFetch method (Some (wrapError model e)) = Normal tt ->
  closeConnection model (dataSource model) (connection i) = Normal c' ->
  (do! raiseEvent model postFetch method (Some (wrapError model e)) in
   do! close model in
   throw (A:=unit) (wrapError model e)) i
  = (Throw (wrapError model e),
     {| items := items i; brokenRules := brokenRules i;
        isValidated := isValidated i; connection := c';
        totalItems := totalItems i;
        journal := journal i
                   ++ [Emit postFetch method (Some (wrapError model e));
                       CloseConnection (dataSource model) (connection i)] |}).
Proof.
  intros Hl Hc. run. rewrite Hl. fields. rewrite Hc. fields.
  rewrite <- app_assoc. reflexivity.
Qed.

(** The permission check of a fetch that is granted. *)
Lemma granted (m : string) (i : Instance Item) :
  (if String.eqb m M_FETCH
   then hasPermission model AuthorizationAction.fetchObject "" (brokenRules i)
   else hasPermission model AuthorizationAction.executeMethod m
          (brokenRules i))
  = (true, brokenRules i) ->
  (if String.eqb m M_FETCH
   then canDo model AuthorizationAction.fetchObject
   else canExecute model m) i = (Normal true, i).
Proof.
  intros Hp. destruct (String.eqb m M_FETCH);
    unfold canDo, canExecute, permitted; rewrite Hp; destruct i; reflexivity.
Qed.


(** X13. Whatever goes wrong inside a fetch of a read-only root
    collection, the caller sees a data portal error of the action fetch
    around the cause and nothing else, and by then [postFetch] has been
    emitted with that error and the connection manager has been asked to
    close the connection, as the last two things the collection did.  The
    listener of that event and the closing are supposed to return. *)
Theorem fetch_throws_only_data_portal_errors (filter : Value)
    (method : string) (i : Instance Item) (x : Exn) :
  (forall e, listeners model postFetch method (Some (wrapError model e))
             = Normal tt) ->
  (forall c, exists c',
     closeConnection model (dataSource model) c = Normal c') ->
  fst (data_fetch model filter method i) = Throw x ->
  exists e c,
    x = DataPortalError MODEL_DESC (name model) DataPortalAction.fetch e
    /\ exists before,
         journal (snd (data_fetch model filter method i))
         = before ++ [Emit postFetch method (Some x);
                      CloseConnection (dataSource model) c].
Proof.
  intros Hl Hc.
  destruct (data_fetch model filter method i) as [r i'] eqn:E.
  cbn [fst snd]. intros ->.
  unfold data_fetch in E. unfold bind at 1 in E.
  assert (Ep : exists ok i0,
            (if String.eqb method M_FETCH
             then canDo model AuthorizationAction.fetchObject
             else canExecute model method) i = (Normal ok, i0)).
  { destruct (String.eqb method M_FETCH); unfold canDo, canExecute, permitted;
      destruct (hasPermission _ _ _ _); eexists _, _; reflexivity. }
  destruct Ep as (ok & i0 & Ep). rewrite Ep in E.
  destruct ok; [|discriminate].
  unfold try_catch in E.
  match type of E with context [?body i0] =>
    match body with bind _ _ => destruct (body i0) as [[[]|e] i1] eqn:Eb end
  end; [discriminate|].
  destruct (Hc (connection i1)) as [c' Hc'].
  rewrite (failed_eq method e c' i1 (Hl e) Hc') in E.
  injection E as <- <-. cbn [journal].
  exists e, (connection i1). split; [reflexivity|].
  exists (journal i1). reflexivity.
Qed.

(** The [catch] block, whatever the listener and the connection manager
    do: it throws, and the items and [totalItems] are as before. *)
Lemma catch_keeps (method : string) (e : Exn) (i : Instance Item) :
  let out :=
    (do! raiseEvent model postFetch method (Some (wrapError model e)) in
     do! close model in
     throw (A:=unit) (wrapError model e)) i in
  threw (fst out) = true
  /\ items (snd out) = items i
  /\ totalItems (snd out) = totalItems i.
Proof.
  run. destruct (listeners model postFetch method _) as [[]|e1]; fields;
    [|repeat split].
  destruct (closeConnection model (dataSource model) (connection i))
    as [c'|e2]; fields; repeat split.
Qed.

(** X14. A fetch of a read-only root collection is not undone when it
    fails.  When the load of a row throws, then, whatever the listener of
    postFetch and the closing of the connection do, the fetch throws, the
    items loaded from the rows before it stay in the collection and
    [totalItems] keeps the value just set; when that listener returns on the
    wrapped error and the closing returns, the error thrown is the error of
    the load wrapped in a data portal error. *)
Theorem a_failed_fetch_keeps_the_items_loaded (filter : Value)
    (method : string) (i : Instance Item) (c : Value)
    (t : ArgumentCheck.Val) (pre post : list Data) (bad : Data)
    (loaded : list Item) (e : Exn) :
  (if String.eqb method M_FETCH
   then hasPermission model AuthorizationAction.fetchObject "" (brokenRules i)
   else hasPermission model AuthorizationAction.executeMethod method
          (brokenRules i))
  = (true, brokenRules i) ->
  dataFetch model = None ->
  openConnection model (dataSource model) = Normal c ->
  listeners model preFetch method None = Normal tt ->
  runMethod model method c filter
  = Normal (Rows t (Some (pre ++ bad :: post))) ->
  Forall2 (fun data item => load model data = Normal item) pre loaded ->
  load model bad = Throw e ->
  let out := data_fetch model filter method i in
  threw (fst out) = true
  /\ items (snd out) = items i ++ loaded
  /\ totalItems (snd out) = (if isCount t then t else ArgumentCheck.Null)
  /\ (forall c',
        listeners model postFetch method (Some (wrapError model e))
        = Normal tt ->
        closeConnection model (dataSource model) c = Normal c' ->
        fst out = Throw (wrapError model e)).
Proof.
  intros Hp Hd Ho Hl Hr Hload Hbad.
  destruct (data_fetch model filter method i) as [r i'] eqn:E.
  unfold data_fetch in E. unfold bind at 1 in E.
  rewrite (granted method i Hp) in E. unfold try_catch in E.
  match type of E with context [?body i] =>
    match body with
    | bind _ _ =>
        assert (Eb : exists i1,
                  body i = (Throw e, i1)
                  /\ items i1 = items i ++ loaded
                  /\ totalItems i1 = (if isCount t then t
                                      else ArgumentCheck.Null)
                  /\ connection i1 = c)
    end
  end.
  { unfold bind at 1. unfold open. run. rewrite Ho. fields.
    rewrite Hl. fields. rewrite Hd. fields. rewrite Hr. fields.
    rewrite (load_each_stops pre post bad e loaded) by assumption.
    eexists. split; [reflexivity|]. fields. repeat split. }
  destruct Eb as (i1 & Eb & Hi & Ht & Hc1). rewrite Eb in E.
  destruct (catch_keeps method e i1) as (Kt & Ki & Kn).
  rewrite E in Kt, Ki, Kn. cbn [fst snd] in Kt, Ki, Kn. cbn [fst snd].
  split; [exact Kt|]. split; [congruence|]. split; [congruence|].
  intros c' Hl' Hc.
  rewrite (failed_eq method e c' i1 Hl') in E by (rewrite Hc1; exact Hc).
  injection E as <- _. reflexivity.
Qed.

End Facts.


Lemma fetch_throws_only_data_portal_errors_witness :
  exists e c,
    DataPortalError MODEL_DESC "AddressList" DataPortalAction.fetch
      (ExternalError "no data")
    = DataPortalError MODEL_DESC (name Samples.AddressList)
        DataPortalAction.fetch e
    /\ exists before,
         journal (snd (data_fetch Samples.AddressList VNull "fetchAll" new))
         = before
           ++ [Emit postFetch "fetchAll"
                 (Some (DataPortalError MODEL_DESC "AddressList"
                          DataPortalAction.fetch (ExternalError "no data")));
               CloseConnection (dataSource Samples.AddressList) c].
Proof.
  apply (fetch_throws_only_data_portal_errors Samples.AddressList VNull
           "fetchAll" new
           (DataPortalError MODEL_DESC "AddressList" DataPortalAction.fetch
              (ExternalError "no data"))).
  - intros e. reflexivity.
  - intros c. exists VNull. reflexivity.
  - reflexivity.
Defined.

Lemma a_failed_fetch_keeps_the_items_loaded_witness :
  let out := data_fetch Samples.AddressList VNull "fetchAll" new in
  threw (fst out) = true
  /\ items (snd out) = items new ++ ["Buda"]
  /\ totalItems (snd out)
     = (if isCount ArgumentCheck.Undefined then ArgumentCheck.Undefined
        else ArgumentCheck.Null)
  /\ fst out = Throw (wrapError Samples.AddressList (ExternalError "no data")).
Proof.
  destruct (a_failed_fetch_keeps_the_items_loaded Samples.AddressList VNull
              "fetchAll" new (VNum 1) ArgumentCheck.Undefined
              ["Buda"] ["Pest"] "" ["Buda"] (ExternalError "no data"))
    as (H1 & H2 & H3 & H4); try reflexivity.
  - repeat constructor.
  - split; [exact H1|]. split; [exact H2|]. split; [exact H3|].
    apply (H4 VNull); reflexivity.
Defined.

End RootCollectionFetch.

(** ** The data portal of the editable root model *)

Module RootPortal.
Import EditableRootModelSync Frames RootSave Portal.

(** Running the next statement of a block, in a hypothesis. *)
Ltac next E := unfold bind at 1 in E.
Ltac reading E :=
  change (have ?f ?st) with (Normal (f (self st)), st) in E;
  cbv beta iota in E; vars_in E.
Ltac states E := cbn [stateIs stateIsNull orb negb MODEL_STATE.value Nat.eqb] in E.

Section Facts.
Context {Child : Type}.
Variable model : Model Child.

Local Abbreviation Run := (M (Sys Child)).

Lemma only_store_refl (s : Sys Child) : only_store s s.
Proof. exists (store (self s)). destruct s as [[] ?]; reflexivity. Qed.

Lemma only_store_trans (s1 s2 s3 : Sys Child) :
  only_store s1 s2 -> only_store s2 s3 -> only_store s1 s3.
Proof. intros (a & ->) (b & ->). exists b. reflexivity. Qed.

Lemma setPropertyValue_loads p v (s : Sys Child) :
  loadable (state (self s)) ->
  fst (setPropertyValue p v s) = Normal tt
  /\ only_store s (snd (setPropertyValue p v s)).
Proof.
  intros [Hp Hr]. destruct s as [[st d sto ks brs vd c] j]. cbn in Hp, Hr.
  unfold setPropertyValue, store_setValue, DataStore.setValue; js_run. vars.
  destruct (bool_decide _); cbn [when].
  - unfold markAsChanged, illegal; js_run. vars.
    destruct st as [[]|]; cbn; try congruence;
      (split; [reflexivity | eexists; reflexivity]).
  - split; [reflexivity | eexists; reflexivity].
Qed.

(** The standard [fromDto] outside the states pristine and removed returns
    and changes the store only. *)
Lemma fromDto_loads dto (s : Sys Child) :
  fromDto_ext model = None ->
  loadable (state (self s)) ->
  fst (fromDto model dto s) = Normal tt
  /\ only_store s (snd (fromDto model dto s)).
Proof.
  intros He. unfold fromDto. rewrite He. unfold baseFromDto.
  generalize (onDto model). intros ps. revert s.
  induction ps as [|p ps IH]; intros s Hs.
  - split; [reflexivity | apply only_store_refl].
  - cbn [forEach]. unfold bind.
    assert (H1 : fst (match dto !! Shared.name p with
                      | Some v => setPropertyValue p v
                      | None => ret tt
                      end s) = Normal tt
                 /\ only_store s (snd (match dto !! Shared.name p with
                      | Some v => setPropertyValue p v
                      | None => ret tt
                      end s))).
    { destruct (dto !! Shared.name p);
        [apply setPropertyValue_loads; exact Hs
        | split; [reflexivity | apply only_store_refl]]. }
    destruct (match dto !! Shared.name p with
              | Some v => setPropertyValue p v
              | None => ret tt
              end s) as [r s1]. cbn [fst snd] in H1. destruct H1 as [-> H1].
    assert (Hs1 : loadable (state (self s1))).
    { destruct H1 as (sto & ->). exact Hs. }
    destruct (IH s1 Hs1) as [E1 E2]. split; [exact E1|].
    eapply only_store_trans; eassumption.
Qed.

(** *** The steps of a data portal method *)


Lemma open_eq (s : Sys Child) :
  open model s
  = match openConnection model (dataSource model) with
    | Normal c =>
        (Normal tt,
         {| self := set_connection c (self s);
            journal := journal s ++ [OpenConnection (dataSource model)] |})
    | Throw e =>
        (Throw e,
         {| self := self s;
            journal := journal s ++ [OpenConnection (dataSource model)] |})
    end.
Proof.
  unfold open; js_run.
  destruct (openConnection model (dataSource model)); reflexivity.
Qed.

Lemma close_eq (s : Sys Child) :
  close model s
  = match closeConnection model (dataSource model) (connection (self s)) with
    | Normal c =>
        (Normal tt,
         {| self := set_connection c (self s);
            journal := journal s
                       ++ [CloseConnection (dataSource model)
                             (connection (self s))] |})
    | Throw e =>
        (Throw e,
         {| self := self s;
            journal := journal s
                       ++ [CloseConnection (dataSource model)
                             (connection (self s))] |})
    end.
Proof.
  unfold close; js_run.
  destruct (closeConnection model (dataSource model) (connection (self s)));
    reflexivity.
Qed.

Lemma valid_run (s : Sys Child) :
  fst (isValid model s) = Normal true ->
  exists brs v,
    isValid model s
    = (Normal true,
       {| self := set_isValidated v (set_brokenRules brs (self s));
          journal := journal s |}).
Proof.
  intros H. destruct (isValid_answers model s) as (s' & E & brs & v & ->).
  rewrite E in H. cbn [fst] in H. rewrite E. injection H as H.
  exists brs, v. f_equal. f_equal. exact H.
Qed.

Lemma answered a ok (s : Sys Child) :
  fst (canDo model a s) = Normal ok ->
  exists brs,
    canDo model a s
    = (Normal ok,
       {| self := set_brokenRules brs (self s); journal := journal s |}).
Proof.
  intros H. destruct (canDo_eq model a s) as (ok' & brs & E).
  rewrite E in H. cbn [fst] in H. injection H as ->.
  exists brs. exact E.
Qed.

(** The finish events of a [catch] block whose listeners return. *)
Lemma report_eq a method e finish (s : Sys Child) :
  (forall ev,
     In ev finish ->
     listeners model ev
       (getEventArgs model a method (Some (wrapError model a e)))
     = Normal tt) ->
  forEach (fun ev => emit model ev
                       (getEventArgs model a method
                          (Some (wrapError model a e)))) finish s
  = (Normal tt,
     {| self := self s;
        journal :=
          journal s
          ++ map (fun ev => Emit ev (getEventArgs model a method
                                       (Some (wrapError model a e))))
                 finish |}).
Proof.
  intros Hl. revert s. induction finish as [|ev evs IH]; intros s.
  - cbn. rewrite app_nil_r. destruct s; reflexivity.
  - cbn [forEach map]. unfold bind at 1.
    rewrite emit_eq, Hl by (left; reflexivity).
    rewrite IH by (intros ev' Hin; apply Hl; right; exact Hin). vars.
    rewrite <- app_assoc. reflexivity.
Qed.

(** The [catch] block when the listeners return: it reports, undoes and
    throws the wrapped error. *)
Lemma catch_eq {A} a method finish undo e (s : Sys Child) :
  (forall ev,
     In ev finish ->
     listeners model ev
       (getEventArgs model a method (Some (wrapError model a e)))
     = Normal tt) ->
  failed (A:=A) model a method finish undo e s
  = match undo {| self := self s;
                  journal := journal s
                             ++ reports model a method finish e
                                  (connection (self s)) |} with
    | (Normal _, s') => (Throw (wrapError model a e), s')
    | (Throw e', s') => (Throw e', s')
    end.
Proof.
  intros Hl. unfold failed, reports. unfold bind at 1.
  change (have connection s) with (Normal (connection (self s)), s).
  cbv beta iota. unfold bind at 1.
  destruct (truthy (connection (self s))); cbn [when].
  - rewrite report_eq by exact Hl. unfold bind at 1.
    destruct (undo _) as [[[]|e'] s']; reflexivity.
  - change (ret tt s) with (Normal tt, s). cbv beta iota.
    rewrite app_nil_r. unfold bind at 1.
    replace {| self := self s; journal := journal s |} with s
      by (destruct s; reflexivity).
    destruct (undo s) as [[[]|e'] s']; reflexivity.
Qed.


(** The [catch] block, whatever the listeners and the connection manager
    do: it throws, and it touches nothing but the connection and the
    journal, where it leaves finish events, a rollback or a closing. *)
Lemma catch_throws {A} a method finish undo e (s : Sys Child) :
  threw (fst (failed (A:=A) model a method finish undo e s)) = true.
Proof.
  unfold failed. unfold bind at 1.
  change (have connection s) with (Normal (connection (self s)), s).
  cbv beta iota. unfold bind at 1.
  destruct (when _ _ s) as [[[]|e1] s1]; [|reflexivity].
  unfold bind at 1. destruct (undo s1) as [[[]|e2] s2]; reflexivity.
Qed.

Lemma winds_up_refl (s : Sys Child) : winds_up s s.
Proof.
  exists (connection (self s)), []. split; [|constructor].
  rewrite app_nil_r. destruct s as [[] ?]; reflexivity.
Qed.

Lemma winds_up_trans (s1 s2 s3 : Sys Child) :
  winds_up s1 s2 -> winds_up s2 s3 -> winds_up s1 s3.
Proof.
  intros (c & d & -> & H) (c' & d' & -> & H'). exists c', (d ++ d').
  split; [cbn; rewrite app_assoc; reflexivity | apply Forall_app; auto].
Qed.

Lemma winds_up_emit ev args : preserves winds_up (emit model ev args).
Proof.
  intros s. rewrite emit_eq. exists (connection (self s)), [Emit ev args].
  split; [destruct s as [[] ?]; reflexivity | repeat constructor].
Qed.

Lemma winds_up_rollback : preserves winds_up (rollback model).
Proof.
  intros s. rewrite rollback_eq.
  destruct (rollbackTransaction model _ _) as [c|e];
    [exists c | exists (connection (self s))];
    exists [RollbackTransaction (dataSource model) (connection (self s))];
    (split; [destruct s as [[] ?]; reflexivity | repeat constructor]).
Qed.


Lemma catch_winds_up {A} a method finish undo e :
  preserves winds_up undo ->
  preserves winds_up (failed (A:=A) model a method finish undo e).
Proof.
  intros Hu. unfold failed.
  apply preserves_bind;
    [apply winds_up_trans | apply preserves_have, winds_up_refl |].
  intros conn. apply preserves_bind; [apply winds_up_trans | |].
  { apply preserves_when; [apply winds_up_refl|].
    apply preserves_forEach; [apply winds_up_refl | apply winds_up_trans |].
    intros ev. apply winds_up_emit. }
  intros _. apply preserves_bind; [apply winds_up_trans | exact Hu |].
  intros _. apply preserves_throw, winds_up_refl.
Qed.

Lemma finishing_notDao (d : list Effect) : Forall finishing d -> Forall notDao d.
Proof. intros H. eapply Forall_impl; [exact H|]. intros []; cbn; tauto. Qed.

(** *** Insert *)



(** *** Fetch *)



(** X19. When no connection can be opened for a fetch on a model that holds
    none, the listeners hear nothing, neither the start nor the failure; the
    connection manager is still asked to close the connection the model does
    not have, and nothing else is done.  The error thrown is the error of
    the opening wrapped in a data portal error when that closing returns, and
    the error of the closing when it throws. *)
Theorem a_fetch_without_connection_is_not_reported (i : Instance Child)
    (filter : Value) (e : Exn) :
  connection i = VNull ->
  (forall s, fst (canDo model AuthorizationAction.fetchObject s)
             = Normal true) ->
  openConnection model (dataSource model) = Throw e ->
  let out := fetch model filter None (start i) in
  journal (snd out)
  = [OpenConnection (dataSource model);
     CloseConnection (dataSource model) VNull]
  /\ state (self (snd out)) = state i
  /\ fst out
     = match closeConnection model (dataSource model) VNull with
       | Normal _ => Throw (wrapError model DataPortalAction.fetch e)
       | Throw e' => Throw e'
       end.
Proof.
  intros Hcn Hp Ho out. subst out.
  destruct i as [st dirty sto ks brs0 v0 c0]. cbn [connection] in Hcn.
  subst c0. cbn [state].
  destruct (fetch model _ _ _) as [r sf] eqn:E.
  unfold fetch, data_fetch in E. next E.
  change (String.eqb M_FETCH M_FETCH) with true in E. cbv iota in E.
  match type of E with context [canDo model ?a ?st] =>
    destruct (answered a true st (Hp st)) as (brs2 & Eg); rewrite Eg in E
  end.
  cbv beta iota in E. unfold try_catch in E. unfold start in E. vars_in E.
  next E. rewrite open_eq, Ho in E.
  unfold failed in E. next E. reading E. next E.
  cbn [truthy when] in E.
  change (ret tt ?st) with (Normal tt, st) in E. cbv beta iota in E.
  next E. rewrite close_eq in E. vars_in E.
  destruct (closeConnection model (dataSource model) VNull);
    injection E as <- <-; cbn [fst snd]; vars; repeat split; reflexivity.
Qed.

(** *** Create *)

(** X20. [create()] on a model without state, with the standard creation
    and collaborators that return: the [create] method of the data access
    object is called once, without an argument, between the events preCreate
    and postCreate on an opened connection that is closed at the end; the
    model is new and dirty itself. *)
Theorem create_makes_a_model_new (i : Instance Child) (c1 c2 : Value)
    (dto : Dto) :
  state i = None ->
  dataCreate model = None ->
  hasCreate model = true ->
  fromDto_ext model = None ->
  (forall ev args, listeners model ev args = Normal tt) ->
  openConnection model (dataSource model) = Normal c1 ->
  runMethod model "create" c1 NoArg = Normal dto ->
  closeConnection model (dataSource model) c1 = Normal c2 ->
  let out := create model (start i) in
  fst out = Normal tt
  /\ get_isNew (self (snd out)) = true
  /\ get_isSelfDirty (self (snd out)) = true
  /\ kids (self (snd out)) = kids i
  /\ journal (snd out)
     = [OpenConnection (dataSource model);
        Emit DataPortalEvent.preCreate
          (getEventArgs model DataPortalAction.create None None);
        RunMethod "create" c1 NoArg;
        Emit DataPortalEvent.postCreate
          (getEventArgs model DataPortalAction.create None None);
        CloseConnection (dataSource model) c1].
Proof.
  intros Hst Hdc Hhc Hfd Hl Ho Hdao Hc out. subst out.
  destruct i as [st dirty sto ks brs0 v0 c0]; cbn [state] in Hst; subst st.
  cbn [kids].
  destruct (create model _) as [r sf] eqn:E.
  unfold create, data_create in E. rewrite Hdc, Hhc in E.
  cbn [defined orb] in E. unfold try_catch, start in E.
  next E. rewrite open_eq, Ho in E.
  next E. rewrite emit_eq, Hl in E.
  next E. next E.
  rewrite dao_runMethod_eq in E. vars_in E. rewrite Hdao in E.
  match type of E with context [fromDto model dto ?st] =>
    destruct (fromDto_loads dto st Hfd) as [Ef (sto' & Es)];
      [split; discriminate|];
    destruct (fromDto model dto st) as [rf sf'];
    cbn [fst snd] in Ef, Es; subst rf sf'
  end.
  vars_in E. cbv beta iota in E.
  next E. unfold markAsCreated in E. js_run_in E. vars_in E. states E.
  rewrite !emit_eq, !Hl, close_eq in E. vars_in E. rewrite Hc in E.
  injection E as <- <-. cbn [fst snd]. unfold get_isNew, get_isSelfDirty.
  vars. repeat split; reflexivity.
Qed.

(** X21. [create()] on a model that has neither a custom creation nor a
    data access object with a [create] method does nothing at all: the model
    stays without state, so it is not new, and a [save()] that follows stores
    nothing and answers with the model or, when the model is not valid, with
    [undefined]. *)
Theorem create_without_a_method_leaves_no_state (i : Instance Child) :
  state i = None ->
  dataCreate model = None ->
  hasCreate model = false ->
  create model (start i) = (Normal tt, start i)
  /\ get_isNew (self (snd (create model (start i)))) = false
  /\ let out := save model (snd (create model (start i))) in
     (fst out = Normal This \/ fst out = Normal Undefined)
     /\ journal (snd out) = []
     /\ state (self (snd out)) = None.
Proof.
  intros Hst Hdc Hhc.
  assert (Ec : create model (start i) = (Normal tt, start i)).
  { unfold create, data_create. rewrite Hdc, Hhc. reflexivity. }
  rewrite Ec. cbn [snd]. split; [reflexivity|].
  split; [unfold get_isNew; cbn [start self]; rewrite Hst; reflexivity|].
  cbv zeta. destruct (save model (start i)) as [r sf] eqn:E.
  unfold save in E. next E.
  destruct (isValid_answers model (start i)) as (s' & Ev & brs & v & ->).
  rewrite Ev in E. cbn [start self journal] in E.
  destruct (BrokenRuleList.isValid _).
  - next E. reading E. rewrite Hst in E.
    injection E as <- <-. cbn [fst snd]. vars. auto.
  - injection E as <- <-. cbn [fst snd]. vars. auto.
Qed.

(** *** Permissions *)



(** *** What every call keeps *)

(** An extension point preserves what the two accessors of its context
    preserve. *)
Lemma preserves_runScript (R : Sys Child -> Sys Child -> Prop)
    (get : PropertyInfo -> Run Value) (set : PropertyInfo -> Value -> Run unit)
    {T} (sc : Script T) :
  (forall s, R s s) ->
  (forall s1 s2 s3, R s1 s2 -> R s2 s3 -> R s1 s3) ->
  (forall p, preserves R (get p)) ->
  (forall p v, preserves R (set p v)) ->
  preserves R
    (TransferContext.runScript (S:=Sys Child) (properties model)
       (Some get) (Some set) sc).
Proof.
  intros Rr Rt Hget Hset.
  assert (Hn : forall ps n,
            preserves R (TransferContext.getByName (S:=Sys Child) ps n)).
  { induction ps as [|p ps IH]; intros n; cbn [TransferContext.getByName].
    - apply preserves_throw, Rr.
    - destruct (String.eqb (Shared.name p) n);
        [apply preserves_ret, Rr | apply IH]. }
  assert (Hs : forall method n,
            preserves R
              (TransferContext.asMandatoryString (S:=Sys Child) method n)).
  { intros method n. unfold TransferContext.asMandatoryString.
    destruct (blank n); [apply preserves_throw | apply preserves_ret];
      apply Rr. }
  induction sc as [r | n k IH | n v k IH | e]; cbn [TransferContext.runScript].
  - apply preserves_ret, Rr.
  - apply preserves_bind; [exact Rt | | intros v; apply IH].
    unfold TransferContext.getValue.
    apply preserves_bind; [exact Rt | apply Hs |].
    intros n'. apply preserves_bind; [exact Rt | apply Hn | apply Hget].
  - apply preserves_bind; [exact Rt | | intros _; exact IH].
    unfold TransferContext.setValue.
    apply preserves_bind; [exact Rt | apply Hs |].
    intros n'. destruct (bool_decide _); [|apply preserves_ret, Rr].
    apply preserves_bind; [exact Rt | apply Hn | intros p; apply Hset].
  - apply preserves_throw, Rr.
Qed.

Lemma keeps_refl (s : Sys Child) : keeps s s.
Proof. intros H; exact H. Qed.

Lemma keeps_trans (s1 s2 s3 : Sys Child) :
  keeps s1 s2 -> keeps s2 s3 -> keeps s1 s3.
Proof. unfold keeps; auto. Qed.

Lemma keeps_assign (f : Instance Child -> Instance Child) :
  (forall i, state (f i) = state i) ->
  (forall i, isDirty (f i) = isDirty i) ->
  preserves keeps (assign f).
Proof.
  intros Hs Hd s. unfold keeps, agrees; cbn. rewrite Hs, Hd. auto.
Qed.

Lemma keeps_perform (e : Effect) : preserves keeps (perform (Child:=Child) e).
Proof. intros s H. exact H. Qed.

Lemma keeps_overChildren op : preserves keeps (overChildren (Child:=Child) op).
Proof.
  intros s. unfold overChildren.
  destruct (eachChild op (kids (self s))). intros H; exact H.
Qed.

Lemma keeps_fetchChildren dto : preserves keeps (fetchChildren model dto).
Proof.
  intros s. unfold fetchChildren.
  destruct (fetchEach model dto (kids (self s))). intros H; exact H.
Qed.

Lemma keeps_markAsPristine : preserves (@keeps Child) markAsPristine.
Proof.
  intros [[st d sto ks brs v c] j]. unfold markAsPristine, illegal; js_run.
  unfold keeps, agrees. destruct st as [[]|]; cbn; auto.
Qed.

Lemma keeps_markAsCreated : preserves (@keeps Child) markAsCreated.
Proof.
  intros [[st d sto ks brs v c] j]. unfold markAsCreated, illegal; js_run.
  unfold keeps, agrees. destruct st as [[]|]; cbn; auto.
Qed.

Lemma keeps_markAsChanged itself :
  preserves (@keeps Child) (markAsChanged itself).
Proof.
  intros [[st d sto ks brs v c] j]. unfold markAsChanged, illegal; js_run.
  unfold keeps, agrees. destruct st as [[]|]; cbn; auto.
Qed.

Lemma keeps_markAsRemoved : preserves (@keeps Child) markAsRemoved.
Proof.
  intros [[st d sto ks brs v c] j]. unfold markAsRemoved, illegal; js_run.
  unfold keeps, agrees. destruct st as [[]|]; cbn; auto.
Qed.

Lemma keeps_markForRemoval : preserves keeps (markForRemoval model).
Proof.
  intros [[st d sto ks brs v c] j].
  unfold markForRemoval, propagateRemoval, overChildren, illegal; js_run.
  unfold keeps, agrees.
  destruct st as [[]|]; cbn; auto;
    destruct (eachChild _ _); cbn; auto.
Qed.

End Facts.

(** Taking a computation apart down to the steps that are known to keep
    the agreement. *)
Ltac keep :=
  repeat first
    [ apply preserves_ret, keeps_refl
    | apply preserves_throw, keeps_refl
    | apply preserves_have, keeps_refl
    | apply preserves_complete, keeps_refl
    | apply keeps_perform
    | apply keeps_assign; intros []; reflexivity
    | apply keeps_overChildren
    | apply keeps_fetchChildren
    | apply keeps_markAsPristine
    | apply keeps_markAsCreated
    | apply keeps_markAsChanged
    | apply keeps_markAsRemoved
    | apply keeps_markForRemoval
    | apply preserves_bind; [apply keeps_trans | | intros ?]
    | apply preserves_try_catch; [apply keeps_trans | | intros ?]
    | apply preserves_when; [apply keeps_refl |]
    | apply preserves_forEach; [apply keeps_refl | apply keeps_trans | intros ?]
    | match goal with
      | |- preserves _ (if ?c then _ else _) => destruct c
      | |- preserves _ (match ?c with _ => _ end) => destruct c
      end ].

Section Invariant.
Context {Child : Type}.
Variable model : Model Child.

Lemma keeps_hasPermission a t : preserves keeps (hasPermission model a t).
Proof. unfold hasPermission. keep. Qed.

Lemma keeps_setPropertyValue p v :
  preserves keeps (setPropertyValue (Child:=Child) p v).
Proof. unfold setPropertyValue, store_setValue. keep. Qed.

Lemma keeps_writePropertyValue p v :
  preserves keeps (writePropertyValue model p v).
Proof.
  unfold writePropertyValue, canBeWritten, store_setValue.
  apply preserves_bind; [apply keeps_trans | apply keeps_hasPermission |].
  intros ok. keep.
Qed.

Lemma keeps_readPropertyValue p : preserves keeps (readPropertyValue model p).
Proof.
  unfold readPropertyValue, canBeRead, getPropertyValue.
  apply preserves_bind; [apply keeps_trans | apply keeps_hasPermission |].
  intros ok. keep.
Qed.

Lemma keeps_script {T} (sc : Script T) :
  preserves keeps
    (TransferContext.runScript (S:=Sys Child) (properties model)
       (Some getPropertyValue) (Some setPropertyValue) sc).
Proof.
  apply preserves_runScript;
    [apply keeps_refl | apply keeps_trans | | apply keeps_setPropertyValue].
  intros p. unfold getPropertyValue. keep.
Qed.

Lemma keeps_withPropertyContext {T} (sc : Script T) :
  preserves keeps (withPropertyContext model sc).
Proof.
  apply preserves_runScript;
    [apply keeps_refl | apply keeps_trans
    | apply keeps_readPropertyValue | apply keeps_writePropertyValue].
Qed.

Lemma keeps_fromDto dto : preserves keeps (fromDto model dto).
Proof.
  unfold fromDto, withTransferContext, baseFromDto.
  destruct (fromDto_ext model); [apply keeps_script|].
  apply preserves_forEach; [apply keeps_refl | apply keeps_trans |].
  intros p. destruct (dto !! Shared.name p);
    [apply keeps_setPropertyValue | apply preserves_ret, keeps_refl].
Qed.

Lemma keeps_toDto : preserves keeps (toDto model).
Proof.
  unfold toDto, withTransferContext, baseToDto.
  destruct (toDto_ext model); [apply keeps_script | keep].
Qed.

Lemma keeps_hook {T} extension (sc : Script T) :
  preserves keeps (withDataContext model extension sc).
Proof.
  unfold withDataContext.
  apply preserves_bind; [apply keeps_trans | apply keeps_perform |].
  intros _. apply keeps_script.
Qed.

Lemma keeps_isValid : preserves keeps (isValid model).
Proof.
  intros s. destruct (isValid_answers model s) as (s' & E & brs & v & ->).
  rewrite E. intros H; exact H.
Qed.

Lemma keeps_checkRules : preserves keeps (checkRules model).
Proof.
  intros s. destruct (checkRules_rules_only model s) as [_ (brs & v & ->)].
  intros H; exact H.
Qed.

Lemma keeps_failed {A} a method finish undo e :
  preserves keeps undo ->
  preserves keeps (failed (A:=A) model a method finish undo e).
Proof. intros Hu. unfold failed, emit. keep. exact Hu. Qed.

Lemma keeps_close : preserves keeps (close model).
Proof. unfold close. keep. Qed.

Lemma keeps_rollback : preserves keeps (rollback model).
Proof. unfold rollback. keep. Qed.

Lemma keeps_call c : preserves keeps (call model c).
Proof.
  destruct c as [| filter method | | | | | | p | p v]; cbn [call].
  - unfold create, data_create.
    destruct (defined (dataCreate model) || hasCreate model); [|keep].
    apply preserves_try_catch;
      [apply keeps_trans | | intros e; apply keeps_failed, keeps_close].
    unfold open, emit, dao_runMethod.
    repeat first
      [ apply keeps_hook | apply keeps_script | apply keeps_fromDto
      | apply keeps_close
      | progress keep ].
  - unfold fetch, data_fetch, canDo, canExecute.
    apply preserves_bind; [apply keeps_trans | |].
    { destruct (String.eqb _ M_FETCH); apply keeps_hasPermission. }
    intros [|]; [|keep].
    apply preserves_try_catch;
      [apply keeps_trans | | intros e; apply keeps_failed, keeps_close].
    unfold open, emit, dao_runMethod.
    repeat first
      [ apply keeps_hook | apply keeps_script | apply keeps_fromDto
      | apply keeps_close
      | progress keep ].
  - apply preserves_bind; [apply keeps_trans | | intros r; keep].
    unfold save.
    apply preserves_bind; [apply keeps_trans | apply keeps_isValid |].
    intros [|]; [|keep].
    apply preserves_bind;
      [apply keeps_trans | apply preserves_have, keeps_refl |].
    intros [[]|]; try (keep; fail);
      (apply preserves_bind; [apply keeps_trans | | intros _; keep]);
      unfold data_insert, data_update, data_remove, canDo;
      (apply preserves_bind; [apply keeps_trans | apply keeps_hasPermission |]);
      (intros [|]; [|keep]);
      (apply preserves_try_catch;
         [apply keeps_trans | | intros e; apply keeps_failed, keeps_rollback]);
      unfold begin, commit, emit, dao_runMethod, insertChildren,
        updateChildren, removeChildren, getKey;
      repeat first
        [ apply keeps_hook | apply keeps_script | apply keeps_fromDto
        | apply keeps_toDto
        | progress keep ].
  - unfold remove. keep.
  - unfold childHasChanged. keep.
  - apply preserves_bind; [apply keeps_trans | apply keeps_isValid |].
    intros r. keep.
  - apply keeps_checkRules.
  - apply preserves_bind; [apply keeps_trans | | intros r; keep].
    unfold property_get.
    destruct (getter p);
      [apply keeps_withPropertyContext | apply keeps_readPropertyValue].
  - unfold property_set. destruct (isReadOnly p); [keep|].
    destruct (setter p);
      [apply keeps_withPropertyContext | apply keeps_writePropertyValue].
Qed.

(** X23. Whatever of [create], [fetch], [save], [remove],
    [childHasChanged], [isValid], [checkRules] and the reads and writes of
    properties is called on a model, in whatever order, whatever the
    collaborators answer and whether or not a call throws: a model without
    state or in state pristine is not dirty itself, and a new model and a
    model marked for removal are. *)
Theorem self_dirtiness_agrees_with_the_state (values : Dto)
    (children : list (string * Child)) (cs : list Call) :
  agrees (self (calls model cs (start (fresh values children)))).
Proof.
  assert (H : forall s, agrees (self s) -> agrees (self (calls model cs s))).
  { induction cs as [|c cs IH]; intros s Hs; cbn [calls]; [exact Hs|].
    apply IH. apply (keeps_call c s Hs). }
  apply H. reflexivity.
Qed.

End Invariant.

Section Writes.
Context {Child : Type}.
Variable model : Model Child.





















End Writes.

Section Transfer.
Context {Child : Type}.
Variable model : Model Child.

Lemma foldl_insert_lookup (sto : Dto) (ps : list PropertyInfo) (acc : Dto)
    (n : string) (v : Value) :
  foldl (fun dto p => <[Shared.name p := DataStore.getValue sto p]> dto)
        acc ps !! n = Some v ->
  acc !! n = Some v
  \/ exists p, p ∈ ps /\ Shared.name p = n /\ v = DataStore.getValue sto p.
Proof.
  revert acc. induction ps as [|p ps IH]; intros acc H; cbn [foldl] in H.
  - left. exact H.
  - destruct (IH _ H) as [H1 | (q & Hq & Hn & Hv)].
    + destruct (decide (Shared.name p = n)) as [<- | Hne].
      * rewrite lookup_insert_eq in H1. injection H1 as <-.
        right. exists p. split; [left|]. auto.
      * rewrite lookup_insert_ne in H1 by exact Hne. left. exact H1.
    + right. exists q. split; [right; exact Hq|]. auto.
Qed.

Lemma foldl_insert_is_Some (sto : Dto) (ps : list PropertyInfo) (acc : Dto)
    (n : string) :
  is_Some (acc !! n) \/ (exists p, p ∈ ps /\ Shared.name p = n) ->
  is_Some (foldl (fun dto p =>
                    <[Shared.name p := DataStore.getValue sto p]> dto)
                 acc ps !! n).
Proof.
  revert acc. induction ps as [|p ps IH]; intros acc H; cbn [foldl].
  - destruct H as [H | (p & Hp & _)]; [exact H|]. inversion Hp.
  - apply IH. destruct H as [H | (q & Hq & Hn)].
    + left. destruct (decide (Shared.name p = n)) as [<- | Hne].
      * rewrite lookup_insert_eq. eauto.
      * rewrite lookup_insert_ne by exact Hne. exact H.
    + apply elem_of_cons in Hq as [-> | Hq].
      * left. rewrite <- Hn, lookup_insert_eq. eauto.
      * right. eauto.
Qed.

(** X25. The standard [toDto] changes nothing on the model, and the
    transfer object it builds has a member for the name of every property
    that is flagged to be on the data transfer object and for no other name;
    every member holds the value the store has for such a property. *)
Theorem toDto_holds_the_properties_on_the_dto (s : Sys Child) :
  toDto_ext model = None ->
  exists dto,
    toDto model s = (Normal dto, s)
    /\ (forall n,
          is_Some (dto !! n)
          <-> exists p, p ∈ properties model /\ isOnDto p = true
                        /\ Shared.name p = n)
    /\ (forall n v,
          dto !! n = Some v ->
          exists p, p ∈ properties model /\ isOnDto p = true
                    /\ Shared.name p = n
                    /\ v = DataStore.getValue (store (self s)) p).
Proof.
  intros He. unfold toDto. rewrite He. unfold baseToDto.
  eexists. split; [reflexivity|].
  assert (Hon : forall p, p ∈ onDto model
                          <-> p ∈ properties model /\ isOnDto p = true).
  { intros p. unfold onDto. rewrite list_elem_of_filter. tauto. }
  split.
  - intros n. split.
    + intros [v Hv]. apply foldl_insert_lookup in Hv.
      destruct Hv as [Hv | (p & Hp & Hn & _)];
        [rewrite lookup_empty in Hv; discriminate|].
      apply Hon in Hp. exists p. tauto.
    + intros (p & Hp & Hd & Hn). apply foldl_insert_is_Some. right.
      exists p. split; [apply Hon; tauto | exact Hn].
  - intros n v Hv. apply foldl_insert_lookup in Hv.
    destruct Hv as [Hv | (p & Hp & Hn & Hval)];
      [rewrite lookup_empty in Hv; discriminate|].
    apply Hon in Hp. exists p. tauto.
Qed.

End Transfer.

Section Removal.
Context {Child : Type}.
Variable model : Model Child.

(** X26. The children of a model marked for removal are asked to save
    themselves before the model is removed: when one of them throws, the
    data access object is not called for the model.  Whatever the listeners
    of the finish events and the rollback do, [save()] throws, the model
    stays marked for removal, and nothing more is done but launching finish
    events and rolling back: there is no commit.  When the listeners of
    postRemove and postSave return on the wrapped error and the rollback
    returns, the error thrown is the error of the child wrapped in a data
    portal error of the action remove, after the two events (if the
    connection is not a falsy value) and the rollback. *)
Theorem a_failing_child_stops_the_removal (i : Instance Child)
    (c1 : Value) (e : Exn) :
  state i = Some MODEL_STATE.markedForRemoval ->
  fst (isValid model (start i)) = Normal true ->
  (forall s, fst (canDo model AuthorizationAction.removeObject s)
             = Normal true) ->
  (forall ev,
     listeners model ev (getEventArgs model DataPortalAction.remove None None)
     = Normal tt) ->
  beginTransaction model (dataSource model) = Normal c1 ->
  fst (eachChild (child_save model c1) (kids i)) = Throw e ->
  let out := save model (start i) in
  let begun :=
    [BeginTransaction (dataSource model);
     Emit DataPortalEvent.preSave
       (getEventArgs model DataPortalAction.remove None None);
     Emit DataPortalEvent.preRemove
       (getEventArgs model DataPortalAction.remove None None)] in
  threw (fst out) = true
  /\ state (self (snd out)) = Some MODEL_STATE.markedForRemoval
  /\ Forall notDao (journal (snd out))
  /\ (exists d, journal (snd out) = begun ++ d /\ Forall finishing d)
  /\ (forall c2,
        (forall ev,
           listeners model ev
             (getEventArgs model DataPortalAction.remove None
                (Some (wrapError model DataPortalAction.remove e)))
           = Normal tt) ->
        rollbackTransaction model (dataSource model) c1 = Normal c2 ->
        fst out = Throw (wrapError model DataPortalAction.remove e)
        /\ journal (snd out)
           = begun
             ++ reports model DataPortalAction.remove None
                  [DataPortalEvent.postRemove; DataPortalEvent.postSave] e c1
             ++ [RollbackTransaction (dataSource model) c1]).
Proof.
  intros Hst Hv Hp Hl Hb Hks out begun. subst out begun.
  destruct i as [st dirty sto ks brs0 v0 c0]; cbn [state] in Hst; subst st.
  cbn [kids] in *.
  destruct (save model _) as [r sf] eqn:E.
  unfold save in E. next E.
  destruct (valid_run _ _ Hv) as (brs & v & Ev). rewrite Ev in E.
  cbv beta iota in E. next E. reading E. unfold start in E. vars_in E.
  next E. unfold data_remove in E. next E.
  match type of E with context [canDo model ?a ?st] =>
    destruct (answered model a true st (Hp st)) as (brs2 & Eg);
      rewrite Eg in E
  end.
  cbv beta iota in E. unfold try_catch in E.
  next E. rewrite begin_eq, Hb in E.
  next E. rewrite emit_eq, Hl in E.
  next E. rewrite emit_eq, Hl in E.
  next E. reading E.
  next E. unfold removeChildren, overChildren in E. vars_in E.
  destruct (eachChild (child_save model c1) ks) as [rk ks'].
  cbn [fst] in Hks. subst rk.
  match type of E with
  | (let (_, _) := failed _ ?a ?m ?f ?u ?x ?st in _) = _ =>
      pose proof (catch_throws model (A:=unit) a m f u x st) as Ht;
      pose proof (catch_winds_up model (A:=unit) a m f u x
                    (winds_up_rollback model) st)
        as (c & d & Hs & Hd);
      destruct (failed model a m f u x st) as [rf s'] eqn:Ef
  end.
  cbn [fst snd] in Ht, Hs. subst s'. destruct rf as [[]|e']; [discriminate|].
  injection E as <- <-. cbn [fst snd]. vars.
  split; [reflexivity|]. split; [reflexivity|].
  split.
  { repeat (apply Forall_cons; split; [exact I|]).
    apply finishing_notDao. exact Hd. }
  split; [exists d; split; [reflexivity | exact Hd]|].
  intros c2 Hl2 Hrb.
  rewrite catch_eq, rollback_eq in Ef by (intros ev _; apply Hl2).
  vars_in Ef.
  rewrite Hrb in Ef. apply pair_equal_spec in Ef as [[= <-] Hj].
  apply (f_equal journal) in Hj. cbn [journal app] in Hj.
  injection Hj as Hj. split; [reflexivity|]. cbn [app]. rewrite <- Hj.
  reflexivity.
Qed.

End Removal.

(** *** The theorems at work on the sample orders *)





Lemma a_fetch_without_connection_is_not_reported_witness :
  let i := PortalSamples.order None false VNull in
  let out := fetch PortalSamples.UnreachableOrder (VNum 7) None (start i) in
  journal (snd out) = [OpenConnection "db"; CloseConnection "db" VNull]
  /\ state (self (snd out)) = state i
  /\ fst out
     = match closeConnection PortalSamples.UnreachableOrder "db" VNull with
       | Normal _ =>
           Throw (wrapError PortalSamples.UnreachableOrder
                    DataPortalAction.fetch (ExternalError "no connection"))
       | Throw e' => Throw e'
       end.
Proof.
  apply (a_fetch_without_connection_is_not_reported
           PortalSamples.UnreachableOrder
           (PortalSamples.order None false VNull) (VNum 7)
           (ExternalError "no connection")).
  - reflexivity.
  - intros s. reflexivity.
  - reflexivity.
Defined.

Lemma create_makes_a_model_new_witness :
  let i := PortalSamples.order None false VNull in
  let out := create PortalSamples.Order (start i) in
  fst out = Normal tt
  /\ get_isNew (self (snd out)) = true
  /\ get_isSelfDirty (self (snd out)) = true
  /\ kids (self (snd out)) = kids i
  /\ journal (snd out)
     = [OpenConnection "db";
        Emit DataPortalEvent.preCreate
          (getEventArgs PortalSamples.Order DataPortalAction.create None None);
        RunMethod "create" (VNum 1) NoArg;
        Emit DataPortalEvent.postCreate
          (getEventArgs PortalSamples.Order DataPortalAction.create None None);
        CloseConnection "db" (VNum 1)].
Proof.
  apply (create_makes_a_model_new PortalSamples.Order
           (PortalSamples.order None false VNull) (VNum 1) VNull
           (<["vendorName" := VStr "Acme"]> ∅)).
  - reflexivity.
  - reflexivity.
  - reflexivity.
  - reflexivity.
  - intros ev args. reflexivity.
  - reflexivity.
  - reflexivity.
  - reflexivity.
Defined.

Lemma create_without_a_method_leaves_no_state_witness :
  let i := PortalSamples.order None false (VStr "Acme") in
  create PortalSamples.PlainOrder (start i) = (Normal tt, start i)
  /\ get_isNew (self (snd (create PortalSamples.PlainOrder (start i)))) = false
  /\ let out :=
       save PortalSamples.PlainOrder
         (snd (create PortalSamples.PlainOrder (start i))) in
     (fst out = Normal This \/ fst out = Normal Undefined)
     /\ journal (snd out) = []
     /\ state (self (snd out)) = None.
Proof.
  apply (create_without_a_method_leaves_no_state PortalSamples.PlainOrder
           (PortalSamples.order None false (VStr "Acme"))).
  - reflexivity.
  - reflexivity.
  - reflexivity.
Defined.



Lemma toDto_holds_the_properties_on_the_dto_witness :
  let s := start (PortalSamples.order (Some MODEL_STATE.pristine) false
                    (VStr "Acme")) in
  exists dto,
    toDto PortalSamples.Order s = (Normal dto, s)
    /\ (forall n,
          is_Some (dto !! n)
          <-> exists p, p ∈ properties PortalSamples.Order
                        /\ isOnDto p = true /\ Shared.name p = n)
    /\ (forall n v,
          dto !! n = Some v ->
          exists p, p ∈ properties PortalSamples.Order /\ isOnDto p = true
                    /\ Shared.name p = n
                    /\ v = DataStore.getValue (store (self s)) p).
Proof.
  apply (toDto_holds_the_properties_on_the_dto PortalSamples.Order
           (start (PortalSamples.order (Some MODEL_STATE.pristine) false
                     (VStr "Acme")))).
  reflexivity.
Defined.

Lemma a_failing_child_stops_the_removal_witness :
  let i := PortalSamples.order (Some MODEL_STATE.markedForRemoval) true
             (VStr "Acme") in
  let out := save PortalSamples.StubbornOrder (start i) in
  let begun :=
    [BeginTransaction "db";
     Emit DataPortalEvent.preSave
       (getEventArgs PortalSamples.StubbornOrder DataPortalAction.remove
          None None);
     Emit DataPortalEvent.preRemove
       (getEventArgs PortalSamples.StubbornOrder DataPortalAction.remove
          None None)] in
  threw (fst out) = true
  /\ state (self (snd out)) = Some MODEL_STATE.markedForRemoval
  /\ Forall notDao (journal (snd out))
  /\ (exists d, journal (snd out) = begun ++ d /\ Forall finishing d)
  /\ fst out = Throw (wrapError PortalSamples.StubbornOrder
                        DataPortalAction.remove
                        (ExternalError "items not saved"))
  /\ journal (snd out)
     = begun
       ++ reports PortalSamples.StubbornOrder DataPortalAction.remove None
            [DataPortalEvent.postRemove; DataPortalEvent.postSave]
            (ExternalError "items not saved") (VNum 2)
       ++ [RollbackTransaction "db" (VNum 2)].
Proof.
  destruct (a_failing_child_stops_the_removal PortalSamples.StubbornOrder
              (PortalSamples.order (Some MODEL_STATE.markedForRemoval) true
                 (VStr "Acme"))
              (VNum 2) (ExternalError "items not saved"))
    as (H1 & H2 & H3 & H4 & H5).
  - reflexivity.
  - vm_compute. reflexivity.
  - intros s. reflexivity.
  - intros ev. reflexivity.
  - reflexivity.
  - reflexivity.
  - destruct (H5 VNull) as [H6 H7]; [intros ev; reflexivity | reflexivity |].
    repeat split; assumption.
Defined.

End RootPortal.

(** ** Removing an editable child object *)

Module ChildRemoval.
Import EditableChildObject Removal.

Lemma removal_descends (o : Obj) :
  forall {P : Type} (parent_childHasChanged : M P unit) (p : P),
    allLive o = true ->
    markForRemoval_ o parent_childHasChanged p
    = (fst (parent_childHasChanged p),
       (marked o, snd (parent_childHasChanged p))).
Proof.
  induction o as [v ks IH] using ObjectValidity.Obj_tree_ind.
  intros P pcc p Hlive. cbn [allLive] in Hlive.
  apply andb_true_iff in Hlive as [Hv Hks].
  cbn [markForRemoval_ marked]. rewrite Hv.
  set (v1 := set_isDirty true
               (set_state (Some MODEL_STATE.markedForRemoval) v)).
  match goal with |- context [match ?each ks (v1, p) with _ => _ end] =>
    set (propagateRemoval := each)
  end.
  match goal with |- context [obj v1 (?each ks)] =>
    set (markedKids := each)
  end.
  assert (Hdown : propagateRemoval ks (v1, p)
                  = (Normal tt, (markedKids ks, (v1, p)))).
  { clear Hv. revert Hks. induction ks as [|[n child] ks IHks]; intros Hks.
    - reflexivity.
    - apply andb_true_iff in Hks as [Hc Hks].
      inversion IH as [|? ? Hchild Hrest]; subst. cbn [snd] in Hchild.
      cbn [propagateRemoval markedKids].
      fold propagateRemoval. fold markedKids.
      rewrite (Hchild _ (childHasChanged pcc) (v1, p) Hc).
      change (childHasChanged pcc (v1, p)) with (Normal tt, (v1, p)).
      cbn [fst snd]. rewrite (IHks Hrest Hks). reflexivity. }
  rewrite Hdown. unfold propagateChange. cbn [fst snd].
  destruct (pcc p) as [r p']. reflexivity.
Qed.

(** X27. [remove()] on an editable child object whose state, like the
    state of every object below it, is pristine or changed: the object and
    every object below it end marked for removal and dirty themselves, and
    the parent of the object is told once, after the objects below have been
    marked; what the parent answers is what [remove()] answers. *)
Theorem removal_reaches_every_object_below {P : Type}
    (parent_childHasChanged : M P unit) (o : Obj) (parent : P) :
  allLive o = true ->
  remove parent_childHasChanged (o, parent)
  = (fst (parent_childHasChanged parent),
     (marked o, snd (parent_childHasChanged parent))).
Proof. intros H. apply (removal_descends o). exact H. Qed.

(** X28. A removal is not undone when it fails below: when an object in
    state pristine or changed is removed and one of its child objects has no
    state or is removed already, [remove()] throws the transition error of
    that child; the object itself and the children before the failing one,
    with all that is below them, stay marked for removal, the children after
    it are not touched and the parent of the object is not told. *)
Theorem a_dead_child_stops_the_removal {P : Type}
    (parent_childHasChanged : M P unit) (v : Vars)
    (before after : list (string * Obj)) (n : string) (child : Obj)
    (parent : P) :
  stateIs (state v) MODEL_STATE.pristine
  || stateIs (state v) MODEL_STATE.changed = true ->
  forallb (fun k => allLive (snd k)) before = true ->
  state (vars_of child) = None
  \/ state (vars_of child) = Some MODEL_STATE.removed ->
  remove parent_childHasChanged
    (obj v (before ++ (n, child) :: after), parent)
  = (Throw (transitionError (state (vars_of child))
              MODEL_STATE.markedForRemoval),
     (obj (set_isDirty true
             (set_state (Some MODEL_STATE.markedForRemoval) v))
          (map (fun k => (fst k, marked (snd k))) before
           ++ (n, child) :: after),
      parent)).
Proof.
  intros Hv Hbefore Hdead. unfold remove, markForRemoval. cbn [fst snd].
  cbn [markForRemoval_]. rewrite Hv.
  set (v1 := set_isDirty true
               (set_state (Some MODEL_STATE.markedForRemoval) v)).
  match goal with
  | |- context [match ?each (before ++ _) (v1, parent) with _ => _ end] =>
      set (propagateRemoval := each)
  end.
  assert (Hdown :
            propagateRemoval (before ++ (n, child) :: after) (v1, parent)
            = (Throw (transitionError (state (vars_of child))
                        MODEL_STATE.markedForRemoval),
               (map (fun k => (fst k, marked (snd k))) before
                ++ (n, child) :: after, (v1, parent)))).
  { clear Hv. revert Hbefore.
    induction before as [|[m k] before IH]; intros Hbefore.
    - cbn [app map propagateRemoval].
      destruct child as [[m st d sto brs vd] kc]. cbn [vars_of state] in *.
      destruct Hdead as [-> | ->]; reflexivity.
    - cbn [forallb snd] in Hbefore.
      apply andb_true_iff in Hbefore as [Hk Hbefore].
      cbn [app map propagateRemoval fst snd]. fold propagateRemoval.
      rewrite (removal_descends k (childHasChanged parent_childHasChanged)
                 (v1, parent) Hk).
      change (childHasChanged parent_childHasChanged (v1, parent))
        with (Normal tt, (v1, parent)).
      cbn [fst snd]. rewrite (IH Hbefore). reflexivity. }
  rewrite Hdown. reflexivity.
Qed.

Lemma removal_reaches_every_object_below_witness :
  let o := PortalSamples.itemTree (Some MODEL_STATE.pristine)
             (Some MODEL_STATE.changed) in
  remove (ret tt) (o, tt)
  = (fst (ret (S:=unit) tt tt), (marked o, snd (ret (S:=unit) tt tt))).
Proof.
  apply (removal_reaches_every_object_below (ret tt)
           (PortalSamples.itemTree (Some MODEL_STATE.pristine)
              (Some MODEL_STATE.changed)) tt).
  reflexivity.
Defined.

Lemma a_dead_child_stops_the_removal_witness :
  let v := Examples.item (Some MODEL_STATE.changed) false (VStr "order") in
  let first := PortalSamples.itemTree (Some MODEL_STATE.pristine)
                 (Some MODEL_STATE.pristine) in
  let dead := PortalSamples.itemTree (Some MODEL_STATE.removed)
                (Some MODEL_STATE.pristine) in
  let last := PortalSamples.itemTree (Some MODEL_STATE.pristine)
                (Some MODEL_STATE.pristine) in
  remove (ret tt)
    (obj v ([("first", first)] ++ ("second", dead) :: [("third", last)]), tt)
  = (Throw (transitionError (state (vars_of dead))
              MODEL_STATE.markedForRemoval),
     (obj (set_isDirty true
             (set_state (Some MODEL_STATE.markedForRemoval) v))
          (map (fun k => (fst k, marked (snd k))) [("first", first)]
           ++ ("second", dead) :: [("third", last)]),
      tt)).
Proof.
  apply (a_dead_child_stops_the_removal (ret tt)
           (Examples.item (Some MODEL_STATE.changed) false (VStr "order"))
           [("first", PortalSamples.itemTree (Some MODEL_STATE.pristine)
                        (Some MODEL_STATE.pristine))]
           [("third", PortalSamples.itemTree (Some MODEL_STATE.pristine)
                        (Some MODEL_STATE.pristine))]
           "second"
           (PortalSamples.itemTree (Some MODEL_STATE.removed)
              (Some MODEL_STATE.pristine))
           tt).
  - reflexivity.
  - reflexivity.
  - right. reflexivity.
Defined.

End ChildRemoval.
